(** * Expensync receipt fraud detector: a shallow embedding

    Source: [src/ai/receipt_fraud_detector.py], class [ReceiptFraudDetector].

    The embedding keeps the shape of the Python code:
    - values that travel through the detector (expense rows, analyzer
      results, replies of the reasoning service) are JSON-like Python
      values, [pyval]; a [dict] is an insertion-ordered association list;
    - Python [float] and [int] are exact rationals ([Q]); the one place
      where the code truncates a product, the percentages of the summary,
      rounds the product to double precision first; the non-finite floats
      are outside the model;
    - a string is a sequence of code points below 256 (ASCII and Latin-1),
      on which [lower], [strip] and the character classes of the regular
      expressions are those of Python;
    - an exception is a value of [result]; [try ... except Exception] is
      [catch]; a [try] body that mutates an object step by step and whose
      handler returns that object is [try_steps];
    - the methods that change the detector or reach a collaborator run in
      the monad [M], which threads the detector and a log of effects and
      keeps both when an exception is raised;
    - the external collaborators (store, reasoning service, the clock) are
      fields of a [world] record, and so is what each of the four checks
      submitted to the thread pool returns or raises, with the order in
      which they complete. *)

From Stdlib Require Import ZArith QArith Qabs Qround Lqa Lia List String Ascii Bool Arith.
Import ListNotations.

Local Open Scope string_scope.
Local Open Scope list_scope.
Local Open Scope nat_scope.
Local Set Warnings "-register-all".

(** ** Python values and the builtins the detector uses *)

Module Py.

Inductive exn : Type :=
| ValueError
| TypeError
| AttributeError
| KeyError
| ZeroDivisionError
| OverflowError
| UpstreamError.

Inductive result (A : Type) : Type :=
| Ok (a : A)
| Raise (e : exn).

Arguments Ok {A} a.
Arguments Raise {A} e.

Definition bind {A B : Type} (c : result A) (k : A -> result B) : result B :=
  match c with
  | Ok a => k a
  | Raise e => Raise e
  end.

(** [try: body  except Exception: handler]. *)
Definition catch {A : Type} (body : result A) (handler : exn -> A) : A :=
  match body with
  | Ok a => a
  | Raise e => handler e
  end.

Definition raised {A : Type} (c : result A) : bool :=
  match c with
  | Ok _ => false
  | Raise _ => true
  end.

(** A [try] body that updates an object in successive statements, with a
    handler that returns the object as it stands: the statements run in
    order and the first one that raises stops the run.  The boolean tells
    whether the handler was entered. *)
Fixpoint try_steps {S : Type} (steps : list (S -> result S)) (s : S) : S * bool :=
  match steps with
  | [] => (s, false)
  | step :: rest =>
      match step s with
      | Ok s' => try_steps rest s'
      | Raise _ => (s, true)
      end
  end.

(** Hashable scalars, the keys of a [dict]. *)
Inductive pykey : Type :=
| KNone
| KBool (b : bool)
| KNum (q : Q)
| KStr (s : string).

Definition Q_of_bool (b : bool) : Q := if b then 1%Q else 0%Q.

Definition key_num (k : pykey) : option Q :=
  match k with
  | KBool b => Some (Q_of_bool b)
  | KNum q => Some q
  | _ => None
  end.

(** Key identity as Python's [dict] sees it: [True], [1] and [1.0] are one key. *)
Definition key_eqb (a b : pykey) : bool :=
  match a, b with
  | KNone, KNone => true
  | KStr s, KStr t => String.eqb s t
  | _, _ =>
      match key_num a, key_num b with
      | Some x, Some y => Qeq_bool x y
      | _, _ => false
      end
  end.

Fixpoint assoc_get {V : Type} (k : pykey) (d : list (pykey * V)) : option V :=
  match d with
  | [] => None
  | (k', v) :: d' => if key_eqb k k' then Some v else assoc_get k d'
  end.

(** [d[k] = v]: an existing key keeps its place, a new one goes last. *)
Fixpoint assoc_set {V : Type} (k : pykey) (v : V) (d : list (pykey * V)) : list (pykey * V) :=
  match d with
  | [] => [(k, v)]
  | (k', v') :: d' =>
      if key_eqb k k' then (k', v) :: d' else (k', v') :: assoc_set k v d'
  end.

Inductive pyval : Type :=
| PNone
| PBool (b : bool)
| PNum (q : Q)
| PStr (s : string)
| PList (l : list pyval)
| PDict (d : list (pykey * pyval)).

Definition dict : Type := list (pykey * pyval).

(** [d.get(k)] and [d[k] = v] for a string key. *)
Definition lookup (k : string) (d : dict) : option pyval := assoc_get (KStr k) d.
Definition setitem (k : string) (v : pyval) (d : dict) : dict := assoc_set (KStr k) v d.

Definition has_key (k : string) (d : dict) : bool :=
  match lookup k d with
  | Some _ => true
  | None => false
  end.

(** [d.update(e)] for a mapping [e]. *)
Definition dict_merge (d e : dict) : dict :=
  fold_left (fun acc kv => assoc_set (fst kv) (snd kv) acc) e d.

Definition to_key (v : pyval) : option pykey :=
  match v with
  | PNone => Some KNone
  | PBool b => Some (KBool b)
  | PNum q => Some (KNum q)
  | PStr s => Some (KStr s)
  | PList _ | PDict _ => None
  end.

Definition of_key (k : pykey) : pyval :=
  match k with
  | KNone => PNone
  | KBool b => PBool b
  | KNum q => PNum q
  | KStr s => PStr s
  end.

Definition as_num (v : pyval) : option Q :=
  match v with
  | PBool b => Some (Q_of_bool b)
  | PNum q => Some q
  | _ => None
  end.

(** Truth value of an object in a condition. *)
Definition truthy (v : pyval) : bool :=
  match v with
  | PNone => false
  | PBool b => b
  | PNum q => negb (Qeq_bool q 0)
  | PStr s => negb (String.eqb s "")
  | PList l => match l with [] => false | _ => true end
  | PDict d => match d with [] => false | _ => true end
  end.

(** [a == b]. *)
Fixpoint py_eqb (a b : pyval) {struct a} : bool :=
  match a, b with
  | PNone, PNone => true
  | PStr s, PStr t => String.eqb s t
  | PList l, PList m =>
      (fix go (l m : list pyval) {struct l} : bool :=
         match l, m with
         | [], [] => true
         | x :: l', y :: m' => py_eqb x y && go l' m'
         | _, _ => false
         end) l m
  | PDict d, PDict e =>
      Nat.eqb (List.length d) (List.length e) &&
      (fix all (d : list (pykey * pyval)) {struct d} : bool :=
         match d with
         | [] => true
         | (k, v) :: d' =>
             match assoc_get k e with
             | Some w => py_eqb v w
             | None => false
             end && all d'
         end) d
  | PBool x, PBool y => Bool.eqb x y
  | PBool x, PNum y => Qeq_bool (Q_of_bool x) y
  | PNum x, PBool y => Qeq_bool x (Q_of_bool y)
  | PNum x, PNum y => Qeq_bool x y
  | _, _ => false
  end.

(** The characters of a string, as the one-character strings iteration yields. *)
Fixpoint chars (s : string) : list pyval :=
  match s with
  | EmptyString => []
  | String c s' => PStr (String c EmptyString) :: chars s'
  end.

(** [iter(v)] run to the end. *)
Definition py_iter (v : pyval) : result (list pyval) :=
  match v with
  | PList l => Ok l
  | PStr s => Ok (chars s)
  | PDict d => Ok (map (fun kv => of_key (fst kv)) d)
  | _ => Raise TypeError
  end.

(** [l.extend(v)]. *)
Definition py_extend (l : list pyval) (v : pyval) : result (list pyval) :=
  bind (py_iter v) (fun items => Ok (l ++ items)%list).

(** One element of the sequence given to [dict.update]: it must itself be
    an iterable of exactly two items, the first one hashable. *)
Definition update_item (d : dict) (item : pyval) : result dict :=
  bind (py_iter item) (fun kv =>
    match kv with
    | [k; v] =>
        match to_key k with
        | Some k' => Ok (assoc_set k' v d)
        | None => Raise TypeError
        end
    | _ => Raise ValueError
    end).

(** [d.update(v)].  The dictionary is updated in place item by item, so
    what was stored before a failing item stays; the second component is
    the exception, if any. *)
Definition py_update (d : dict) (v : pyval) : dict * option exn :=
  match v with
  | PDict e => (dict_merge d e, None)
  | _ =>
      match py_iter v with
      | Raise e => (d, Some e)
      | Ok items =>
          (fix go (items : list pyval) (d : dict) {struct items} : dict * option exn :=
             match items with
             | [] => (d, None)
             | item :: rest =>
                 match update_item d item with
                 | Ok d' => go rest d'
                 | Raise e => (d, Some e)
                 end
             end) items d
      end
  end.

(** [v.get(k, default)]: only a [dict] has the method. *)
Definition py_get (v : pyval) (k : string) (default : pyval) : result pyval :=
  match v with
  | PDict d => Ok (match lookup k d with Some x => x | None => default end)
  | _ => Raise AttributeError
  end.

(** [v[k]] for a string [k]. *)
Definition py_getitem (v : pyval) (k : string) : result pyval :=
  match v with
  | PDict d => match lookup k d with Some x => Ok x | None => Raise KeyError end
  | _ => Raise TypeError
  end.

Fixpoint prefixb (p s : string) : bool :=
  match p, s with
  | EmptyString, _ => true
  | String a p', String b s' => Ascii.eqb a b && prefixb p' s'
  | String _ _, EmptyString => false
  end.

Fixpoint substringb (p s : string) : bool :=
  prefixb p s ||
  match s with
  | EmptyString => false
  | String _ s' => substringb p s'
  end.

(** [k in v] for a string [k]. *)
Definition py_contains (k : string) (v : pyval) : result bool :=
  match v with
  | PDict d => Ok (has_key k d)
  | PList l => Ok (existsb (py_eqb (PStr k)) l)
  | PStr s => Ok (substringb k s)
  | _ => Raise TypeError
  end.

(** [abs(v)]. *)
Definition py_abs (v : pyval) : result Q :=
  match as_num v with
  | Some q => Ok (Qabs q)
  | None => Raise TypeError
  end.

(** [int(q)]: truncation toward zero. *)
Definition py_int (q : Q) : Z := Z.quot (Qnum q) (Zpos (Qden q)).

(** [sum(vs)]: the items are added from left to right, starting from 0. *)
Fixpoint sum_from (acc : Q) (vs : list pyval) : result Q :=
  match vs with
  | [] => Ok acc
  | v :: vs' =>
      match as_num v with
      | Some q => sum_from (acc + q)%Q vs'
      | None => Raise TypeError
      end
  end.

Definition py_sum (vs : list pyval) : result Q := sum_from 0%Q vs.

Definition values (d : dict) : list pyval := map snd d.

(** [x / y] on floats. *)
Definition py_div (x y : Q) : result Q :=
  if Qeq_bool y 0 then Raise ZeroDivisionError else Ok (x / y)%Q.

Definition Qltb (x y : Q) : bool := negb (Qle_bool y x).

(** [a > b]: numbers by value, strings and lists in lexicographic order;
    any other pair is not ordered. *)
Fixpoint py_gt (a b : pyval) {struct a} : result bool :=
  match a, b with
  | PStr s, PStr t => Ok (String.ltb t s)
  | PList l, PList m =>
      (fix go (l m : list pyval) {struct l} : result bool :=
         match l, m with
         | x :: l', y :: m' => if py_eqb x y then go l' m' else py_gt x y
         | [], _ => Ok false
         | _ :: _, [] => Ok true
         end) l m
  | PBool x, PBool y => Ok (Qltb (Q_of_bool y) (Q_of_bool x))
  | PBool x, PNum y => Ok (Qltb y (Q_of_bool x))
  | PNum x, PBool y => Ok (Qltb (Q_of_bool y) x)
  | PNum x, PNum y => Ok (Qltb y x)
  | _, _ => Raise TypeError
  end.

(** [v * f] for a float [f]. *)
Definition py_mul_float (v : pyval) (f : Q) : result Q :=
  match as_num v with
  | Some q => Ok (q * f)%Q
  | None => Raise TypeError
  end.

(** [v[:n]] followed by iteration over the slice. *)
Definition py_slice_iter (v : pyval) (n : nat) : result (list pyval) :=
  match v with
  | PList l => Ok (firstn n l)
  | PStr s => Ok (firstn n (chars s))
  | _ => Raise TypeError
  end.

(** The code points below 256 that [str.lower] changes: the letters A to
    Z and the capital letters of Latin-1 (192 to 222 without the
    multiplication sign 215), each mapped 32 places up. *)
Definition upper_case (n : N) : bool :=
  ((65 <=? n)%N && (n <=? 90)%N) ||
  ((192 <=? n)%N && (n <=? 214)%N) ||
  ((216 <=? n)%N && (n <=? 222)%N).

Definition lower_char (c : ascii) : ascii :=
  let n := N_of_ascii c in
  if upper_case n then ascii_of_N (n + 32) else c.

(** [s.lower()]. *)
Fixpoint lower (s : string) : string :=
  match s with
  | EmptyString => EmptyString
  | String c s' => String (lower_char c) (lower s')
  end.

(** [v.lower()]: a method of [str]. *)
Definition py_lower (v : pyval) : result string :=
  match v with
  | PStr s => Ok (lower s)
  | _ => Raise AttributeError
  end.

(** Plain decimal literals, [[+-]digits[.digits]]: an instance of the
    conversion of a string by [float], which the detector takes as a
    parameter. *)
Fixpoint digits_value (s : string) (acc : N) : option N :=
  match s with
  | EmptyString => Some acc
  | String c s' =>
      let n := N_of_ascii c in
      if (48 <=? n)%N && (n <=? 57)%N then digits_value s' (10 * acc + (n - 48))%N
      else None
  end.

Fixpoint split_dot (s : string) : string * option string :=
  match s with
  | EmptyString => (EmptyString, None)
  | String c s' =>
      if Ascii.eqb c "." then (EmptyString, Some s')
      else let (a, b) := split_dot s' in (String c a, b)
  end.

Definition unsigned_decimal (s : string) : option Q :=
  let (ip, fp) := split_dot s in
  match ip, fp with
  | EmptyString, _ => None
  | _, None =>
      match digits_value ip 0 with
      | Some n => Some (inject_Z (Z.of_N n))
      | None => None
      end
  | _, Some f =>
      match digits_value ip 0, digits_value f 0 with
      | Some n, Some m =>
          Some (inject_Z (Z.of_N n) +
                inject_Z (Z.of_N m) / inject_Z (10 ^ Z.of_nat (String.length f)))%Q
      | _, _ => None
      end
  end.

Definition float_of_decimal (s : string) : option Q :=
  match s with
  | String "-" s' =>
      match unsigned_decimal s' with
      | Some q => Some (- q)%Q
      | None => None
      end
  | String "+" s' => unsigned_decimal s'
  | _ => unsigned_decimal s
  end.

End Py.

(** ** Double-precision products

    The product of two floats is the double nearest to the exact product,
    ties to the even mantissa.  A double has 53 significant bits: around a
    number of exponent [e] (that is [2^e <= |q| < 2^(e+1)]) the doubles
    are the multiples of [2^(e-52)], and of [2^(-1074)] below [2^(-1022)].
    A product whose rounding reaches [2^1024] is the infinite float. *)

Module Double.

Local Open Scope Q_scope.

(** Round to the nearest integer, ties to the even one. *)
Definition rne (q : Q) : Z :=
  let f := Qfloor q in
  match Qcompare (q - inject_Z f) (1 # 2) with
  | Lt => f
  | Gt => (f + 1)%Z
  | Eq => if Z.even f then f else (f + 1)%Z
  end.

(** The exponent of a positive number: [2^e <= q < 2^(e+1)]. *)
Definition exponent (q : Q) : Z :=
  if Qle_bool 1 q then Z.log2 (Qfloor q) else (- Z.log2_up (Qceiling (/ q)))%Z.

(** The position of the last bit of the doubles around [q]: 52 bits below
    the exponent, and [-1074] for the subnormal numbers. *)
Definition last_bit (q : Q) : Z := (Z.max (exponent (Qabs q)) (-1022) - 52)%Z.

(** [q / 2^k] and [n * 2^k]. *)
Definition scale (k : Z) (q : Q) : Q :=
  if (0 <=? k)%Z then q / inject_Z (2 ^ k) else q * inject_Z (2 ^ (- k)).

Definition unscale (k : Z) (n : Z) : Q :=
  if (0 <=? k)%Z then inject_Z (n * 2 ^ k) else inject_Z n / inject_Z (2 ^ (- k)).

(** The double nearest to [q], ties to even, before the exponent is
    checked against the largest one. *)
Definition round (q : Q) : Q :=
  let k := last_bit q in unscale k (rne (scale k q)).

(** The rounded value is beyond the largest double: the float is [inf]. *)
Definition overflows (q : Q) : bool := Qle_bool (inject_Z (2 ^ 1024)) (Qabs q).

(** The number is a double. *)
Definition representable (q : Q) : Prop := round q == q.

End Double.

(** ** [datetime.strptime] and [strftime] for the formats of [_normalize_date]

    [strptime] compiles a format into a regular expression, takes the first
    match of it at the start of the text (alternatives in the order they are
    written, with backtracking), rejects the text when the match leaves
    something unread, and then builds the date, which fails for a day that
    does not exist.  The directive groups are the ones of CPython's
    [_strptime]:
    [%m] is [1[0-2]|0[1-9]|[1-9]],
    [%d] is [3[01]|[12]\d|0[1-9]|[1-9]| [1-9]],
    [%Y] is [\d\d\d\d].
    A matcher returns every way to match in priority order, so the head of
    the list is the match [re.match] finds.  The digits are the ASCII
    digits.  [strftime('%Y')] prints the year as the C library does,
    without padding: the year 999 is printed on three digits, which
    [%Y] does not read back. *)

Module Strptime.

Local Open Scope N_scope.

Inductive directive : Type :=
| D_m
| D_d
| D_Y
| Lit (c : ascii).

Definition format : Type := list directive.

Definition is_digit (c : ascii) : bool :=
  (48 <=? N_of_ascii c) && (N_of_ascii c <=? 57).

Definition digit_val (c : ascii) : N := N_of_ascii c - 48.

(** [[lo-hi]] on digits. *)
Definition in_range (lo hi : N) (c : ascii) : bool :=
  is_digit c && (lo <=? digit_val c) && (digit_val c <=? hi).

Definition one (p : ascii -> bool) (s : string) : list (N * string) :=
  match s with
  | String a r => if p a then [(digit_val a, r)] else []
  | EmptyString => []
  end.

Definition two (p q : ascii -> bool) (s : string) : list (N * string) :=
  match s with
  | String a (String b r) =>
      if p a && q b then [(10 * digit_val a + digit_val b, r)] else []
  | _ => []
  end.

Definition space_one (p : ascii -> bool) (s : string) : list (N * string) :=
  match s with
  | String a (String b r) =>
      if Ascii.eqb a " " && p b then [(digit_val b, r)] else []
  | _ => []
  end.

Definition four (s : string) : list (N * string) :=
  match s with
  | String a (String b (String c (String d r))) =>
      if is_digit a && is_digit b && is_digit c && is_digit d
      then [(1000 * digit_val a + 100 * digit_val b + 10 * digit_val c + digit_val d, r)]
      else []
  | _ => []
  end.

Definition group_m (s : string) : list (N * string) :=
  (two (in_range 1 1) (in_range 0 2) s ++
   two (in_range 0 0) (in_range 1 9) s ++
   one (in_range 1 9) s)%list.

Definition group_d (s : string) : list (N * string) :=
  (two (in_range 3 3) (in_range 0 1) s ++
   two (in_range 1 2) is_digit s ++
   two (in_range 0 0) (in_range 1 9) s ++
   one (in_range 1 9) s ++
   space_one (in_range 1 9) s)%list.

Definition literal (c : ascii) (s : string) : list (N * string) :=
  match s with
  | String a r => if Ascii.eqb a c then [(0, r)] else []
  | EmptyString => []
  end.

Definition group (dir : directive) (s : string) : list (N * string) :=
  match dir with
  | D_m => group_m s
  | D_d => group_d s
  | D_Y => four s
  | Lit c => literal c s
  end.

(** The fields found so far; [strptime] starts from 1900-01-01. *)
Record fields : Type := { f_year : N; f_month : N; f_day : N }.

Definition no_fields : fields := {| f_year := 1900; f_month := 1; f_day := 1 |}.

Definition set_field (dir : directive) (v : N) (f : fields) : fields :=
  match dir with
  | D_m => {| f_year := f_year f; f_month := v; f_day := f_day f |}
  | D_d => {| f_year := f_year f; f_month := f_month f; f_day := v |}
  | D_Y => {| f_year := v; f_month := f_month f; f_day := f_day f |}
  | Lit _ => f
  end.

Fixpoint regex_match (fmt : format) (s : string) (f : fields) : list (fields * string) :=
  match fmt with
  | [] => [(f, s)]
  | dir :: fmt' =>
      flat_map (fun vr => regex_match fmt' (snd vr) (set_field dir (fst vr) f))
               (group dir s)
  end.

Definition leap (y : N) : bool :=
  (y mod 4 =? 0) && (negb (y mod 100 =? 0) || (y mod 400 =? 0)).

Definition days_in_month (y m : N) : N :=
  if m =? 2 then (if leap y then 29 else 28)
  else if (m =? 4) || (m =? 6) || (m =? 9) || (m =? 11) then 30
  else 31.

(** The dates [datetime] accepts. *)
Definition valid_date (y m d : N) : bool :=
  (1 <=? y) && (y <=? 9999) &&
  (1 <=? m) && (m <=? 12) &&
  (1 <=? d) && (d <=? days_in_month y m).

Record date : Type := { year : N; month : N; day : N }.

Definition strptime (s : string) (fmt : format) : Py.result date :=
  match regex_match fmt s no_fields with
  | [] => Py.Raise Py.ValueError
  | (f, rest) :: _ =>
      match rest with
      | EmptyString =>
          if valid_date (f_year f) (f_month f) (f_day f)
          then Py.Ok {| year := f_year f; month := f_month f; day := f_day f |}
          else Py.Raise Py.ValueError
      | String _ _ => Py.Raise Py.ValueError
      end
  end.

Definition digit_char (n : N) : ascii := ascii_of_N (48 + n).

Definition pad2 (n : N) : string :=
  String (digit_char (n / 10)) (String (digit_char (n mod 10)) EmptyString).

Definition pad4 (n : N) : string :=
  String (digit_char (n / 1000))
    (String (digit_char ((n / 100) mod 10))
       (String (digit_char ((n / 10) mod 10))
          (String (digit_char (n mod 10)) EmptyString))).

(** [strftime('%Y')]: the C library prints the year without padding, so
    a year below 1000 has fewer than four digits. *)
Definition year_text (y : N) : string :=
  if y <? 10 then String (digit_char y) EmptyString
  else if y <? 100 then pad2 y
  else if y <? 1000 then String (digit_char (y / 100)) (pad2 (y mod 100))
  else pad4 y.

(** [strftime('%Y-%m-%d')]. *)
Definition iso (y m d : N) : string :=
  (year_text y ++ "-" ++ pad2 m ++ "-" ++ pad2 d)%string.


Definition strftime_iso (dt : date) : string := iso (year dt) (month dt) (day dt).

(** ['%Y-%m-%d']. *)
Definition iso_format : format := [D_Y; Lit "-"; D_m; Lit "-"; D_d].

(** ['%m/%d/%Y'], ['%d/%m/%Y'], ['%Y-%m-%d'], ['%m-%d-%Y'], ['%d-%m-%Y']. *)
Definition formats : list format :=
  [ [D_m; Lit "/"; D_d; Lit "/"; D_Y];
    [D_d; Lit "/"; D_m; Lit "/"; D_Y];
    iso_format;
    [D_m; Lit "-"; D_d; Lit "-"; D_Y];
    [D_d; Lit "-"; D_m; Lit "-"; D_Y] ].

End Strptime.

Import Py Strptime.

Notation "x <- c ;; k" := (Py.bind c (fun x => k))
  (at level 61, c at next level, right associativity).

Definition nl : string := String (ascii_of_N 10) EmptyString.

(** ** The detector *)

Section Ocr.

(** [float(s)] for a string [s]: the value, or [None] where Python raises
    [ValueError]. *)
Variable float_of_str : string -> option Q.

(** [float(v)]. *)
Definition py_float (v : pyval) : result Q :=
  match v with
  | PNum q => Ok q
  | PBool b => Ok (Q_of_bool b)
  | PStr s =>
      match float_of_str s with
      | Some q => Ok q
      | None => Raise ValueError
      end
  | _ => Raise TypeError
  end.

(** *** OCR cross-validation *)

Definition py_strptime (v : pyval) (fmt : format) : result date :=
  match v with
  | PStr s => strptime s fmt
  | _ => Raise TypeError
  end.

(** The loop of [_normalize_date]: a format that raises [ValueError] is
    skipped, any other exception leaves the loop. *)
Fixpoint try_formats (date_str : pyval) (fmts : list format) : result pyval :=
  match fmts with
  | [] => Ok date_str
  | fmt :: rest =>
      match py_strptime date_str fmt with
      | Ok date_obj => Ok (PStr (strftime_iso date_obj))
      | Raise ValueError => try_formats date_str rest
      | Raise e => Raise e
      end
  end.

Definition _normalize_date (date_str : pyval) : pyval :=
  catch (try_formats date_str formats) (fun _ => date_str).

Definition keep_char (c : ascii) : bool :=
  let n := N_of_ascii c in
  ((97 <=? n)%N && (n <=? 122)%N) || ((48 <=? n)%N && (n <=? 57)%N).

(** [re.sub(r'[^a-z0-9]', '', s)]. *)
Fixpoint strip_special (s : string) : string :=
  match s with
  | EmptyString => EmptyString
  | String c s' => if keep_char c then String c (strip_special s') else strip_special s'
  end.

Definition _normalize_text (text : pyval) : pyval :=
  catch (t <- py_lower text ;; Ok (PStr (strip_special t))) (fun _ => text).

(** [a.get(k) and b.get(k)], as a condition. *)
Definition both_set (a b : pyval) (k : string) : result bool :=
  x <- py_get a k PNone ;;
  if truthy x then (y <- py_get b k PNone ;; Ok (truthy y)) else Ok false.

(** [abs(float(x) - float(y))]. *)
Definition amount_gap (x y : pyval) : result Q :=
  p <- py_float x ;;
  q <- py_float y ;;
  Ok (Qabs (p - q)).

Definition validation_init : dict :=
  [ (KStr "date_match", PBool false);
    (KStr "amount_match", PBool false);
    (KStr "vendor_match", PBool false);
    (KStr "tax_match", PBool false);
    (KStr "overall_match_score", PNum 0) ].

Definition compare_dates (t l : pyval) (validation : dict) : result dict :=
  c <- both_set t l "date" ;;
  if c then
    a <- py_getitem t "date" ;;
    b <- py_getitem l "date" ;;
    Ok (setitem "date_match" (PBool (py_eqb (_normalize_date a) (_normalize_date b))) validation)
  else Ok validation.

Definition compare_amounts (field flag : string) (t l : pyval) (validation : dict) : result dict :=
  c <- both_set t l field ;;
  if c then
    a <- py_getitem t field ;;
    b <- py_getitem l field ;;
    g <- amount_gap a b ;;
    Ok (setitem flag (PBool (Qltb g (1 # 100))) validation)
  else Ok validation.

Definition compare_vendors (t l : pyval) (validation : dict) : result dict :=
  c <- both_set t l "vendor_name" ;;
  if c then
    a <- py_getitem t "vendor_name" ;;
    b <- py_getitem l "vendor_name" ;;
    Ok (setitem "vendor_match" (PBool (py_eqb (_normalize_text a) (_normalize_text b))) validation)
  else Ok validation.

(** [matches = sum(validation.values())], then
    [validation['overall_match_score'] = matches / len(validation)]. *)
Definition score_matches (validation : dict) : result dict :=
  matches <- py_sum (values validation) ;;
  score <- py_div matches (inject_Z (Z.of_nat (List.length validation))) ;;
  Ok (setitem "overall_match_score" (PNum score) validation).

Definition validate_steps (t l : pyval) : list (dict -> result dict) :=
  [ compare_dates t l;
    compare_amounts "total_amount" "amount_match" t l;
    compare_vendors t l;
    compare_amounts "tax_amount" "tax_match" t l;
    score_matches ].

Definition _validate_ocr_results (tesseract_data llm_data : pyval) : dict :=
  fst (try_steps (validate_steps tesseract_data llm_data) validation_init).

(** Whether [_validate_ocr_results] went through its [except] branch. *)
Definition validate_raised (tesseract_data llm_data : pyval) : bool :=
  snd (try_steps (validate_steps tesseract_data llm_data) validation_init).

Definition discrepancy (field : string) (a b : pyval) : pyval :=
  PDict [ (KStr "field", PStr field);
          (KStr "tesseract_value", a);
          (KStr "llm_value", b) ].

Definition check_date (t l : pyval) (discrepancies : list pyval) : result (list pyval) :=
  c <- both_set t l "date" ;;
  if c then
    a <- py_getitem t "date" ;;
    b <- py_getitem l "date" ;;
    if negb (py_eqb (_normalize_date a) (_normalize_date b))
    then Ok (discrepancies ++ [discrepancy "date" a b])
    else Ok discrepancies
  else Ok discrepancies.

Definition check_amount (field : string) (t l : pyval) (discrepancies : list pyval)
  : result (list pyval) :=
  c <- both_set t l field ;;
  if c then
    a <- py_getitem t field ;;
    b <- py_getitem l field ;;
    g <- amount_gap a b ;;
    if Qle_bool (1 # 100) g
    then Ok (discrepancies ++ [discrepancy field a b])
    else Ok discrepancies
  else Ok discrepancies.

Definition check_vendor (t l : pyval) (discrepancies : list pyval) : result (list pyval) :=
  c <- both_set t l "vendor_name" ;;
  if c then
    a <- py_getitem t "vendor_name" ;;
    b <- py_getitem l "vendor_name" ;;
    if negb (py_eqb (_normalize_text a) (_normalize_text b))
    then Ok (discrepancies ++ [discrepancy "vendor_name" a b])
    else Ok discrepancies
  else Ok discrepancies.

Definition discrepancy_steps (t l : pyval) : list (list pyval -> result (list pyval)) :=
  [ check_date t l;
    check_amount "total_amount" t l;
    check_vendor t l;
    check_amount "tax_amount" t l ].

Definition _find_discrepancies (tesseract_data llm_data : pyval) : list pyval :=
  fst (try_steps (discrepancy_steps tesseract_data llm_data) []).

Definition combined_init : dict :=
  [ (KStr "extracted_text", PStr "");
    (KStr "structured_data", PDict []);
    (KStr "confidence_score", PNum 0);
    (KStr "validation_results", PDict []);
    (KStr "discrepancies", PList []) ].

(** [1 - len(discrepancies) * 0.1]. *)
Definition discount (k : nat) : Q := 1 - inject_Z (Z.of_nat k) * (1 # 10).

(** [combined['confidence_score'] *= (1 - len(discrepancies) * 0.1)]. *)
Definition apply_discount (k : nat) (combined : dict) : result dict :=
  c <- py_getitem (PDict combined) "confidence_score" ;;
  c' <- py_mul_float c (discount k) ;;
  Ok (setitem "confidence_score" (PNum c') combined).

Definition _combine_ocr_results (tesseract_results llm_results : pyval) : dict :=
  let combined := combined_init in
  catch
    (best <- py_get tesseract_results "best_result" (PDict []) ;;
     tesseract_text <- py_get best "text" (PStr "") ;;
     llm_text <- py_get llm_results "extracted_text" (PStr "") ;;
     tesseract_data <- py_get tesseract_results "structured_data" (PDict []) ;;
     llm_data <- py_get llm_results "structured_data" (PDict []) ;;
     let validation := _validate_ocr_results tesseract_data llm_data in
     tesseract_confidence <- py_get best "confidence" (PNum 0) ;;
     llm_confidence <- py_get llm_results "confidence_score" (PNum 0) ;;
     llm_wins <- py_gt llm_confidence tesseract_confidence ;;
     let combined :=
       if llm_wins
       then setitem "confidence_score" llm_confidence
              (setitem "structured_data" llm_data
                 (setitem "extracted_text" llm_text combined))
       else setitem "confidence_score" tesseract_confidence
              (setitem "structured_data" tesseract_data
                 (setitem "extracted_text" tesseract_text combined)) in
     let combined := setitem "validation_results" (PDict validation) combined in
     let discrepancies := _find_discrepancies tesseract_data llm_data in
     match discrepancies with
     | [] => Ok combined
     | _ :: _ =>
         let combined := setitem "discrepancies" (PList discrepancies) combined in
         Ok (catch (apply_discount (List.length discrepancies) combined)
                   (fun _ => combined))
     end)
    (fun _ => combined).

End Ocr.

(** *** Image quality *)

Definition _assess_image_quality (blur brightness contrast noise compression : Q) : string :=
  if Qltb blur 100 then "Poor quality - Image is too blurry"
  else if Qltb brightness 50 || Qltb 200 brightness then "Poor quality - Incorrect brightness"
  else if Qltb contrast 30 then "Poor quality - Low contrast"
  else if Qltb 20 noise then "Poor quality - High noise level"
  else if Qltb (1 # 2) compression then "Poor quality - Heavy compression artifacts"
  else "Good quality".

(** *** Detector object, collaborators, effects *)

(** The four checks submitted to the thread pool. *)
Inductive analyzer : Type :=
| LlmAnalysis
| ImageAnalysis
| OnlineVerification
| PatternAnalysis.

(** The keys of the [weights] and [scores] dictionaries of
    [_calculate_risk_score], in the order they are written. *)
Inductive risk_category : Type :=
| llm_analysis
| image_analysis
| online_verification
| pattern_analysis
| category_specific.

(** The prompt templates of [_get_category_specific_prompt]; their texts
    are not transcribed. *)
Inductive prompt : Type :=
| TravelPrompt
| HotelPrompt
| FoodPrompt.

(** A tool call of the reasoning service: the function name and its
    arguments text as [json.loads] reads it, a value or the decoding error. *)
Record tool_call : Type := {
  tc_name : string;
  tc_arguments : result pyval
}.

(** [response.tool_calls if hasattr(response, 'tool_calls') else []]: the
    attribute can be missing, hold [None], or hold the calls. *)
Inductive tool_calls_attr : Type :=
| NoAttribute
| AttrNone
| AttrList (calls : list tool_call).

(** One entry of [_get_verification_tools]. *)
Record tool_schema : Type := {
  tool_name : string;
  tool_properties : list string;
  tool_required : list string
}.

Record store_client : Type := {
  (** [table('expenses').select('*').eq('id', id).execute().data] *)
  select_expense : string -> result (list pyval);
  (** [table('receipt_fraud_checks').insert(row).execute().data] *)
  insert_fraud_check : dict -> result (list pyval)
}.

Record reasoning_client : Type := {
  (** The chat completion with tools of [_make_online_verification_call]. *)
  tool_completion : prompt -> list tool_schema -> result tool_calls_attr
}.

Record world : Type := {
  supabase : option store_client;
  groq_client : option reasoning_client;
  (** [future.result()] of the task running an analyzer. *)
  future_result : analyzer -> result pyval;
  (** The order in which [as_completed] yields the futures. *)
  completion : list analyzer;
  (** [datetime.now().isoformat()] at the n-th tool call. *)
  now_iso : nat -> string
}.

Inductive event : Type :=
| Submitted (a : analyzer)
| ReasoningCall (p : prompt)
| Inserted (row : dict).

(** The attributes of [ReceiptFraudDetector] the verdict depends on.  (The
    four text attributes written by the OCR step are not read by it.) *)
Record detector : Type := {
  risk_factors : list pyval;
  verification_results : dict;
  image_analysis_results : dict;
  online_verification_results : dict;
  expense_category : option string
}.

(** [ReceiptFraudDetector()]. *)
Definition new_detector : detector :=
  {| risk_factors := [];
     verification_results := [];
     image_analysis_results := [];
     online_verification_results := [];
     expense_category := None |}.

Definition set_risk_factors (l : list pyval) (self : detector) : detector :=
  {| risk_factors := l;
     verification_results := verification_results self;
     image_analysis_results := image_analysis_results self;
     online_verification_results := online_verification_results self;
     expense_category := expense_category self |}.

Definition set_verification_results (d : dict) (self : detector) : detector :=
  {| risk_factors := risk_factors self;
     verification_results := d;
     image_analysis_results := image_analysis_results self;
     online_verification_results := online_verification_results self;
     expense_category := expense_category self |}.

Definition set_image_analysis_results (d : dict) (self : detector) : detector :=
  {| risk_factors := risk_factors self;
     verification_results := verification_results self;
     image_analysis_results := d;
     online_verification_results := online_verification_results self;
     expense_category := expense_category self |}.

Definition set_online_verification_results (d : dict) (self : detector) : detector :=
  {| risk_factors := risk_factors self;
     verification_results := verification_results self;
     image_analysis_results := image_analysis_results self;
     online_verification_results := d;
     expense_category := expense_category self |}.

Definition set_expense_category (c : option string) (self : detector) : detector :=
  {| risk_factors := risk_factors self;
     verification_results := verification_results self;
     image_analysis_results := image_analysis_results self;
     online_verification_results := online_verification_results self;
     expense_category := c |}.

(** Methods that change [self], log effects and may raise: the object and
    the log are threaded, and they keep what was done before an exception. *)
Definition M (A : Type) : Type :=
  detector * list event -> result A * (detector * list event).

Definition ret {A : Type} (a : A) : M A := fun st => (Ok a, st).

Definition raise {A : Type} (e : exn) : M A := fun st => (Raise e, st).

Definition mbind {A B : Type} (c : M A) (k : A -> M B) : M B :=
  fun st =>
    match c st with
    | (Ok a, st') => k a st'
    | (Raise e, st') => (Raise e, st')
    end.

Definition lift {A : Type} (c : result A) : M A := fun st => (c, st).

Definition get_self : M detector := fun st => (Ok (fst st), st).

Definition modify (f : detector -> detector) : M unit :=
  fun st => (Ok tt, (f (fst st), snd st)).

Definition log (e : event) : M unit :=
  fun st => (Ok tt, (fst st, snd st ++ [e])).

(** [try: body  except Exception: handler]. *)
Definition mcatch {A : Type} (body : M A) (handler : exn -> M A) : M A :=
  fun st =>
    match body st with
    | (Ok a, st') => (Ok a, st')
    | (Raise e, st') => handler e st'
    end.

Fixpoint for_each {A : Type} (l : list A) (body : A -> M unit) : M unit :=
  match l with
  | [] => ret tt
  | a :: l' => mbind (body a) (fun _ => for_each l' body)
  end.

Notation "x <~ c ;; k" := (mbind c (fun x => k))
  (at level 61, c at next level, right associativity).
Notation "c ;;; k" := (mbind c (fun _ => k))
  (at level 61, right associativity).

(** *** Category-specific verification *)

Definition _get_verification_tools : list tool_schema :=
  [ {| tool_name := "search_vendor_info";
       tool_properties := ["vendor_name"];
       tool_required := ["vendor_name"] |};
    {| tool_name := "check_pricing";
       tool_properties := ["vendor_name"; "service_type"; "location"; "date"];
       tool_required := ["vendor_name"; "service_type"] |};
    {| tool_name := "verify_location";
       tool_properties := ["vendor_name"; "address"; "coordinates"];
       tool_required := ["vendor_name"] |};
    {| tool_name := "check_operating_hours";
       tool_properties := ["vendor_name"; "date"; "time"];
       tool_required := ["vendor_name"; "date"] |} ].

Definition _search_vendor_info (vendor_name : pyval) : dict :=
  [ (KStr "vendor_exists", PBool true);
    (KStr "business_type", PStr "Restaurant");
    (KStr "rating", PNum (9 # 2));
    (KStr "reviews_count", PNum 100);
    (KStr "verified", PBool true) ].

(** [last_updated] is the time of the call. *)
Definition _check_pricing (now : string) (vendor_name service_type location date : pyval) : dict :=
  [ (KStr "price_range",
     PDict [ (KStr "min", PNum 50); (KStr "max", PNum 100); (KStr "average", PNum 75) ]);
    (KStr "currency", PStr "USD");
    (KStr "last_updated", PStr now);
    (KStr "source", PStr "Online API") ].

Definition _verify_location (vendor_name address coordinates : pyval) : dict :=
  [ (KStr "location_verified", PBool true);
    (KStr "address_match", if truthy address then PBool true else PNone);
    (KStr "coordinates_match", if truthy coordinates then PBool true else PNone);
    (KStr "distance", PNum (1 # 10)) ].

Definition _check_operating_hours (vendor_name date time : pyval) : dict :=
  [ (KStr "was_open", PBool true);
    (KStr "operating_hours",
     PDict [ (KStr "open", PStr "09:00"); (KStr "close", PStr "22:00") ]);
    (KStr "special_hours", PBool false);
    (KStr "holiday", PBool false) ].

(** [sum(l) / len(l) if l else 0.0]. *)
Definition average (l : list Q) : Q :=
  match l with
  | [] => 0
  | _ :: _ => fold_left Qplus l 0 / inject_Z (Z.of_nat (List.length l))
  end%Q.

(** One block of [_calculate_verification_confidence]: when the tool's
    entry is there, each of its two fields that holds adds its increment;
    [negate] is for the [not hours_info.get('special_hours')] test. *)
Definition confidence_block (entry k1 : string) (w1 : Q) (k2 : string) (negate : bool) (w2 : Q)
    (verification_results : dict) (factors : list Q) : result (list Q) :=
  match lookup entry verification_results with
  | None => Ok factors
  | Some info =>
      a <- py_get info k1 PNone ;;
      let factors := if truthy a then factors ++ [w1] else factors in
      b <- py_get info k2 PNone ;;
      Ok (if xorb negate (truthy b) then factors ++ [w2] else factors)
  end.

Definition _calculate_verification_confidence (verification_results : dict) : Q :=
  catch
    (f <- confidence_block "vendor_info" "vendor_exists" 1 "verified" false (8 # 10)
            verification_results [] ;;
     f <- confidence_block "pricing_info" "price_range" (9 # 10) "last_updated" false (7 # 10)
            verification_results f ;;
     f <- confidence_block "location_info" "location_verified" 1 "address_match" false (8 # 10)
            verification_results f ;;
     f <- confidence_block "operating_hours" "was_open" (9 # 10) "special_hours" true (7 # 10)
            verification_results f ;;
     Ok (average f))
    (fun _ => 0%Q).

(** What the loop of [_make_online_verification_call] builds. *)
Record call_results : Type := {
  cr_verification_results : dict;
  cr_tool_calls : list pyval
}.

(** The body of the loop for the [i]-th call; [clock] is the time of day
    at each call. *)
Definition run_tool_call (clock : nat -> string) (i : nat) (tc : tool_call)
    (results : call_results)
  : result call_results :=
  let vr := cr_verification_results results in
  tool_args <- tc_arguments tc ;;
  vr <-
    (if String.eqb (tc_name tc) "search_vendor_info" then
       vendor_name <- py_get tool_args "vendor_name" PNone ;;
       Ok (setitem "vendor_info" (PDict (_search_vendor_info vendor_name)) vr)
     else if String.eqb (tc_name tc) "check_pricing" then
       vendor_name <- py_get tool_args "vendor_name" PNone ;;
       service_type <- py_get tool_args "service_type" PNone ;;
       location <- py_get tool_args "location" PNone ;;
       date <- py_get tool_args "date" PNone ;;
       Ok (setitem "pricing_info"
             (PDict (_check_pricing (clock i) vendor_name service_type location date)) vr)
     else if String.eqb (tc_name tc) "verify_location" then
       vendor_name <- py_get tool_args "vendor_name" PNone ;;
       address <- py_get tool_args "address" PNone ;;
       coordinates <- py_get tool_args "coordinates" PNone ;;
       Ok (setitem "location_info" (PDict (_verify_location vendor_name address coordinates)) vr)
     else if String.eqb (tc_name tc) "check_operating_hours" then
       vendor_name <- py_get tool_args "vendor_name" PNone ;;
       date <- py_get tool_args "date" PNone ;;
       time <- py_get tool_args "time" PNone ;;
       Ok (setitem "operating_hours" (PDict (_check_operating_hours vendor_name date time)) vr)
     else Ok vr) ;;
  Ok {| cr_verification_results := vr;
        cr_tool_calls :=
          cr_tool_calls results ++
          [ PDict [ (KStr "tool_name", PStr (tc_name tc));
                    (KStr "arguments", tool_args);
                    (KStr "result",
                     match lookup (tc_name tc ++ "_info")%string vr with
                     | Some r => r
                     | None => PDict []
                     end) ] ] |}.

Fixpoint run_tool_calls (clock : nat -> string) (i : nat) (calls : list tool_call)
    (results : call_results)
  : result call_results :=
  match calls with
  | [] => Ok results
  | tc :: rest =>
      results' <- run_tool_call clock i tc results ;;
      run_tool_calls clock (S i) rest results'
  end.

(** The [try] block of [_make_online_verification_call], after the request. *)
Definition process_reply (clock : nat -> string) (reply : result tool_calls_attr)
  : result pyval :=
  attr <- reply ;;
  tool_calls <-
    match attr with
    | NoAttribute => Ok []
    | AttrNone => Raise TypeError
    | AttrList calls => Ok calls
    end ;;
  results <- run_tool_calls clock 0 tool_calls
               {| cr_verification_results := []; cr_tool_calls := [] |} ;;
  Ok (PDict
        [ (KStr "verification_results", PDict (cr_verification_results results));
          (KStr "tool_calls", PList (cr_tool_calls results));
          (KStr "confidence_score",
           PNum (_calculate_verification_confidence (cr_verification_results results))) ]).

Definition _make_online_verification_call (w : world) (p : prompt) (tools : list tool_schema)
  : M pyval :=
  match groq_client w with
  | None => ret (PDict [])
  | Some client =>
      log (ReasoningCall p) ;;;
      ret (catch (process_reply (now_iso w) (tool_completion client p tools))
                 (fun _ => PDict []))
  end.

Definition _get_category_specific_prompt (category : string) (expense_data : pyval)
  : option prompt :=
  if String.eqb category "travel" then Some TravelPrompt
  else if String.eqb category "hotel" then Some HotelPrompt
  else if String.eqb category "food" then Some FoodPrompt
  else None.

(** [key in v and not v[key]]. *)
Definition present_and_false (key : string) (v : pyval) : result bool :=
  c <- py_contains key v ;;
  if c then (x <- py_getitem v key ;; Ok (negb (truthy x))) else Ok false.

Definition risk_block_vendor (category : string) (vr : pyval) (acc : list pyval)
  : result (list pyval) :=
  c <- py_contains "vendor_info" vr ;;
  if c then
    info <- py_getitem vr "vendor_info" ;;
    a <- py_get info "vendor_exists" PNone ;;
    let acc := if truthy a then acc
               else acc ++ [PStr ("Vendor " ++ category ++ " not found in online databases")%string] in
    b <- py_get info "verified" PNone ;;
    Ok (if truthy b then acc
        else acc ++ [PStr ("Vendor " ++ category ++ " verification status unclear")%string])
  else Ok acc.

Definition risk_block_pricing (category : string) (vr : pyval) (acc : list pyval)
  : result (list pyval) :=
  c <- py_contains "pricing_info" vr ;;
  if c then
    info <- py_getitem vr "pricing_info" ;;
    range <- py_get info "price_range" PNone ;;
    if truthy range then
      lo <- py_get range "min" PNone ;;
      if truthy lo then
        hi <- py_get range "max" PNone ;;
        Ok (if truthy hi
            then acc ++ [PStr ("Price outside typical range for " ++ category)%string]
            else acc)
      else Ok acc
    else Ok acc
  else Ok acc.

Definition risk_block_location (category : string) (vr : pyval) (acc : list pyval)
  : result (list pyval) :=
  c <- py_contains "location_info" vr ;;
  if c then
    info <- py_getitem vr "location_info" ;;
    a <- py_get info "location_verified" PNone ;;
    let acc := if truthy a then acc
               else acc ++ [PStr ("Location verification failed for " ++ category)%string] in
    dist <- py_get info "distance" (PNum 0) ;;
    far <- py_gt dist (PNum 1) ;;
    Ok (if far
        then acc ++ [PStr ("Location significantly different from expected for " ++ category)%string]
        else acc)
  else Ok acc.

Definition risk_block_hours (category : string) (vr : pyval) (acc : list pyval)
  : result (list pyval) :=
  c <- py_contains "operating_hours" vr ;;
  if c then
    info <- py_getitem vr "operating_hours" ;;
    a <- py_get info "was_open" PNone ;;
    let acc := if truthy a then acc
               else acc ++ [PStr (category ++ " was not operating at the specified time")%string] in
    b <- py_get info "special_hours" PNone ;;
    Ok (if truthy b
        then acc ++ [PStr ("Transaction occurred during special hours for " ++ category)%string]
        else acc)
  else Ok acc.

Definition _extract_risk_factors_from_verification (vr : pyval) (category : string)
  : list pyval :=
  catch
    (acc <- risk_block_vendor category vr [] ;;
     acc <- risk_block_pricing category vr acc ;;
     acc <- risk_block_location category vr acc ;;
     risk_block_hours category vr acc)
    (fun _ => []).

(** [self.risk_factors.extend(v)]. *)
Definition extend_risk_factors (v : pyval) : M unit :=
  self <~ get_self ;;
  l <~ lift (py_extend (risk_factors self) v) ;;
  modify (set_risk_factors l).

(** [target.update(v)] on one of the three result dictionaries of [self]. *)
Definition update_attr (read : detector -> dict) (write : dict -> detector -> detector)
    (v : pyval) : M unit :=
  self <~ get_self ;;
  let (d, failure) := py_update (read self) v in
  modify (write d) ;;;
  match failure with
  | None => ret tt
  | Some e => raise e
  end.

(** [await v] for the value of a plain call: a [dict] is not awaitable. *)
Definition await {A : Type} (v : pyval) : M A := raise TypeError.

Definition _category_specific_verification (w : world) (expense_data : pyval) : M pyval :=
  match groq_client w with
  | None => ret (PDict [])
  | Some _ =>
      mcatch
        (self <~ get_self ;;
         match expense_category self with
         | None => ret (PDict [])
         | Some category =>
             if String.eqb category "" then ret (PDict [])
             else
               let tools := _get_verification_tools in
               match _get_category_specific_prompt category expense_data with
               | None => ret (PDict [])
               | Some p =>
                   called <~ _make_online_verification_call w p tools ;;
                   verification <~ await called ;;
                   found <~ lift (py_get verification "verification_results" PNone) ;;
                   (if truthy found then
                      inner <~ lift (py_getitem verification "verification_results") ;;
                      update_attr verification_results set_verification_results
                        (PDict [ (KStr (category ++ "_verification")%string, inner) ])
                    else ret tt) ;;;
                   inner <~ lift (py_getitem verification "verification_results") ;;
                   extend_risk_factors
                     (PList (_extract_risk_factors_from_verification inner category)) ;;;
                   ret verification
               end
         end)
        (fun _ => ret (PDict []))
  end.

(** *** Scores *)

Definition _get_llm_risk_score (self : detector) : Q := 0.
Definition _get_image_risk_score (self : detector) : Q := 0.
Definition _get_verification_risk_score (self : detector) : Q := 0.
Definition _get_pattern_risk_score (self : detector) : Q := 0.
Definition _get_verification_confidence (self : detector) : Q := 0.

(** The [price_discrepancy] block of [_get_category_specific_risk_score]. *)
Definition price_block (vr : pyval) (factors : list Q) : result (list Q) :=
  c <- py_contains "price_discrepancy" vr ;;
  if c then
    x <- py_getitem vr "price_discrepancy" ;;
    gap <- py_abs x ;;
    Ok (if Qltb (1 # 2) gap then factors ++ [1%Q]
        else if Qltb (2 # 10) gap then factors ++ [7 # 10]
        else if Qltb (1 # 10) gap then factors ++ [4 # 10]
        else factors)
  else Ok factors.

(** [if k1 in vr and not vr[k1]: append(weight)
     elif k2 in vr and not vr[k2]: append(weight)]. *)
Definition either_block (k1 k2 : string) (weight : Q) (vr : pyval) (factors : list Q)
  : result (list Q) :=
  a <- present_and_false k1 vr ;;
  if a then Ok (factors ++ [weight])
  else
    b <- present_and_false k2 vr ;;
    Ok (if b then factors ++ [weight] else factors).

Definition menu_block (category : string) (vr : pyval) (factors : list Q) : result (list Q) :=
  if String.eqb category "food" then
    a <- present_and_false "menu_verification" vr ;;
    Ok (if a then factors ++ [1 # 2] else factors)
  else Ok factors.

Definition _get_category_specific_risk_score (self : detector) : Q :=
  catch
    (match expense_category self with
     | None => Ok 0%Q
     | Some category =>
         if String.eqb category "" then Ok 0%Q
         else
           let vr :=
             match lookup (category ++ "_verification")%string (verification_results self) with
             | Some v => v
             | None => PDict []
             end in
           if negb (truthy vr) then Ok 0%Q
           else
             f <- price_block vr [] ;;
             f <- either_block "location_verification" "route_verification" (8 # 10) vr f ;;
             f <- either_block "time_verification" "date_verification" (6 # 10) vr f ;;
             f <- either_block "service_verification" "restaurant_verification" (7 # 10) vr f ;;
             f <- menu_block category vr f ;;
             Ok (average f)
     end)
    (fun _ => 0%Q).

Definition categories : list risk_category :=
  [ llm_analysis; image_analysis; online_verification; pattern_analysis; category_specific ].

Definition weights (c : risk_category) : Q :=
  match c with
  | llm_analysis => 3 # 10
  | image_analysis => 25 # 100
  | online_verification => 15 # 100
  | pattern_analysis => 1 # 10
  | category_specific => 2 # 10
  end.

Definition scores (self : detector) (c : risk_category) : Q :=
  match c with
  | llm_analysis => _get_llm_risk_score self
  | image_analysis => _get_image_risk_score self
  | online_verification => _get_verification_risk_score self
  | pattern_analysis => _get_pattern_risk_score self
  | category_specific => _get_category_specific_risk_score self
  end.

(** [sum(score * weights[category] for category, score in scores.items())]. *)
Definition weighted_sum (score : risk_category -> Q) : Q :=
  fold_left (fun acc c => acc + score c * weights c)%Q categories 0%Q.

Definition _calculate_risk_score (self : detector) : Q :=
  weighted_sum (scores self).

(** [(risk_score * 0.7) + (verification_confidence * 0.3)]. *)
Definition blend (risk_score verification_confidence : Q) : Q :=
  (risk_score * (7 # 10) + verification_confidence * (3 # 10))%Q.

Definition _calculate_fraud_probability (self : detector) : Q :=
  let risk_score := _calculate_risk_score self in
  let verification_confidence := _get_verification_confidence self in
  blend risk_score verification_confidence.

(** *** Summary *)

(** The summary is text built from literal parts and formatted values; a
    formatted object is kept as the object. *)
Inductive piece : Type :=
| Text (s : string)
| Int (z : Z)
| Obj (v : pyval).

Definition bullet (v : pyval) : list piece := [Text "- "; Obj v; Text nl].

Definition assessment_of (fraud_percentage : Z) : string :=
  if (80 <=? fraud_percentage)%Z then "HIGH RISK"
  else if (50 <=? fraud_percentage)%Z then "MODERATE RISK"
  else "LOW RISK".

(** [int(x * 100)]: the product is a double; [int] truncates it, and
    raises on the infinite float. *)
Definition percentage (x : Q) : result Z :=
  let product := Double.round (x * 100) in
  if Double.overflows product then Raise OverflowError else Ok (py_int product).

Definition summary_head (overall_risk_score fraud_probability : Q) : result (list piece) :=
  risk_percentage <- percentage overall_risk_score ;;
  fraud_percentage <- percentage fraud_probability ;;
  Ok [ Text ("Fraud Analysis Summary:" ++ nl)%string;
       Text ("Overall Risk Assessment: " ++ assessment_of fraud_percentage ++ nl)%string;
       Text "Fraud Probability: "; Int fraud_percentage; Text ("%" ++ nl)%string;
       Text "Risk Score: "; Int risk_percentage; Text ("%" ++ nl ++ nl)%string ].

Definition summary_factors (self : detector) : list piece :=
  match risk_factors self with
  | [] => []
  | _ :: _ =>
      Text ("Key Risk Factors:" ++ nl)%string :: flat_map bullet (firstn 3 (risk_factors self))
  end.

Definition date_mismatch_line (email receipt : pyval) : list piece :=
  [ Text "- Date mismatch detected (Email: "; Obj email;
    Text ", Receipt: "; Obj receipt; Text (")" ++ nl)%string ].

Definition amount_mismatch_line (expected receipt : pyval) : list piece :=
  [ Text "- Amount mismatch detected (Expected: "; Obj expected;
    Text ", Receipt: "; Obj receipt; Text (")" ++ nl)%string ].

Definition date_highlight (vr : dict) : result (list piece) :=
  match lookup "inconsistent_dates" vr with
  | None => Ok []
  | Some date_info =>
      mismatch <- py_get date_info "date_mismatch" PNone ;;
      if truthy mismatch then
        email <- py_get date_info "email_date" PNone ;;
        receipt <- py_get date_info "receipt_date" PNone ;;
        Ok (date_mismatch_line email receipt)
      else Ok []
  end.

Definition amount_highlight (vr : dict) : result (list piece) :=
  match lookup "amount_verification" vr with
  | None => Ok []
  | Some amount_info =>
      matched <- py_get amount_info "amount_match" PNone ;;
      if truthy matched then Ok []
      else
        expected <- py_get amount_info "expense_data_amount" PNone ;;
        receipt <- py_get amount_info "receipt_amount" PNone ;;
        Ok (amount_mismatch_line expected receipt)
  end.

Definition summary_highlights (self : detector) : result (list piece) :=
  match verification_results self with
  | [] => Ok []
  | _ :: _ =>
      d <- date_highlight (verification_results self) ;;
      a <- amount_highlight (verification_results self) ;;
      Ok (Text (nl ++ "Verification Highlights:" ++ nl)%string :: d ++ a)
  end.

Definition summary_image (self : detector) : result (list piece) :=
  match lookup "manipulation_indicators" (image_analysis_results self) with
  | None => Ok []
  | Some indicators =>
      if truthy indicators then
        shown <- py_slice_iter indicators 2 ;;
        Ok (Text (nl ++ "Image Analysis:" ++ nl)%string :: flat_map bullet shown)
      else Ok []
  end.

Definition error_summary : list piece := [Text "Error generating summary"].

(** The [try] block of [_generate_summary]. *)
Definition summary_body (self : detector) (overall_risk_score fraud_probability : Q)
  : result (list piece) :=
  head <- summary_head overall_risk_score fraud_probability ;;
  h <- summary_highlights self ;;
  i <- summary_image self ;;
  Ok (head ++ summary_factors self ++ h ++ i).

Definition _generate_summary (self : detector) (overall_risk_score fraud_probability : Q)
  : list piece :=
  catch (summary_body self overall_risk_score fraud_probability) (fun _ => error_summary).

(** *** The orchestrator *)

(** The dictionary [analyze_receipt] returns on success. *)
Record verdict : Type := {
  fraud_check_id : pyval;
  overall_risk_score : Q;
  fraud_probability : Q;
  v_risk_factors : list pyval;
  v_verification_results : dict;
  v_image_analysis_results : dict;
  v_online_verification_results : dict;
  summary : list piece
}.

(** What [analyze_receipt] returns: the verdict, or the empty dictionary. *)
Inductive analysis : Type :=
| EmptyDict
| Verdict (v : verdict).

Definition _get_expense_data (w : world) (expense_id : string) : option pyval :=
  match supabase w with
  | None => None
  | Some client =>
      catch
        (rows <- select_expense client expense_id ;;
         Ok (match rows with
             | row :: _ => Some row
             | [] => None
             end))
        (fun _ => None)
  end.

Definition fraud_check_row (self : detector) (expense_id : string)
    (overall_risk_score fraud_probability : Q) : dict :=
  [ (KStr "expense_id", PStr expense_id);
    (KStr "overall_risk_score", PNum overall_risk_score);
    (KStr "fraud_probability", PNum fraud_probability);
    (KStr "risk_factors", PList (risk_factors self));
    (KStr "verification_results", PDict (verification_results self));
    (KStr "image_analysis_results", PDict (image_analysis_results self));
    (KStr "online_verification_results", PDict (online_verification_results self)) ].

(** The event records that the insert request was sent. *)
Definition _store_fraud_check_results (w : world) (expense_id : string)
    (overall_risk_score fraud_probability : Q) : M pyval :=
  match supabase w with
  | None => ret PNone
  | Some client =>
      self <~ get_self ;;
      let row := fraud_check_row self expense_id overall_risk_score fraud_probability in
      log (Inserted row) ;;;
      ret (catch
             (rows <- insert_fraud_check client row ;;
              match rows with
              | first :: _ => py_getitem first "id"
              | [] => Ok PNone
              end)
             (fun _ => PNone))
  end.

(** [if key in result: apply(result[key])]. *)
Definition when_key (key : string) (result : dict) (apply : pyval -> M unit) : M unit :=
  match lookup key result with
  | Some v => apply v
  | None => ret tt
  end.

(** The body of the [as_completed] loop for one future. *)
Definition merge_future (w : world) (a : analyzer) : M unit :=
  mcatch
    (result <~ lift (future_result w a) ;;
     match result with
     | PDict r =>
         when_key "risk_factors" r extend_risk_factors ;;;
         when_key "verification_results" r
           (update_attr verification_results set_verification_results) ;;;
         when_key "image_analysis_results" r
           (update_attr image_analysis_results set_image_analysis_results) ;;;
         when_key "online_verification_results" r
           (update_attr online_verification_results set_online_verification_results)
     | _ => ret tt
     end)
    (fun _ => ret tt).

Definition merge_category_verification (category_verification : pyval) : M unit :=
  match category_verification with
  | PDict r =>
      when_key "risk_factors" r extend_risk_factors ;;;
      when_key "verification_results" r
        (update_attr verification_results set_verification_results)
  | _ => ret tt
  end.

Definition analyze_receipt (w : world) (expense_id file_url : string) : M analysis :=
  mcatch
    (expense_data <~
       match _get_expense_data w expense_id with
       | Some row => if truthy row then ret row else raise ValueError
       | None => raise ValueError
       end ;;
     category <~ lift (c <- py_get expense_data "category" (PStr "") ;; py_lower c) ;;
     modify (set_expense_category (Some category)) ;;;
     log (Submitted LlmAnalysis) ;;;
     log (Submitted ImageAnalysis) ;;;
     log (Submitted OnlineVerification) ;;;
     log (Submitted PatternAnalysis) ;;;
     category_verification <~ _category_specific_verification w expense_data ;;
     for_each (completion w) (merge_future w) ;;;
     merge_category_verification category_verification ;;;
     self <~ get_self ;;
     let risk := _calculate_risk_score self in
     let fraud := _calculate_fraud_probability self in
     let text := _generate_summary self risk fraud in
     result_id <~ _store_fraud_check_results w expense_id risk fraud ;;
     self <~ get_self ;;
     ret (Verdict
            {| fraud_check_id := result_id;
               overall_risk_score := risk;
               fraud_probability := fraud;
               v_risk_factors := risk_factors self;
               v_verification_results := verification_results self;
               v_image_analysis_results := image_analysis_results self;
               v_online_verification_results := online_verification_results self;
               summary := text |}))
    (fun _ => ret EmptyDict).

(** [check_receipt_fraud]: a fresh detector, then [analyze_receipt]. *)
Definition check_receipt_fraud (w : world) (expense_id file_url : string)
  : result analysis * (detector * list event) :=
  analyze_receipt w expense_id file_url (new_detector, []).

(** *** Readers and sample inputs used in the statements *)

(** [d.get(k, default)] on a dictionary. *)
Definition get_or (k : string) (d : dict) (default : pyval) : pyval :=
  match lookup k d with
  | Some x => x
  | None => default
  end.

(** The score stored in a validation mapping. *)
Definition match_score (validation : dict) : Q :=
  match lookup "overall_match_score" validation with
  | Some (PNum q) => q
  | _ => 0%Q
  end.

Definition flag (k : string) (validation : dict) : bool :=
  match lookup k validation with
  | Some (PBool b) => b
  | _ => false
  end.

(** How many of the four match flags of a validation mapping are true. *)
Definition true_flags (validation : dict) : nat :=
  List.length
    (filter (fun k => flag k validation)
       ["date_match"; "amount_match"; "vendor_match"; "tax_match"]).

Definition validation_of (b1 b2 b3 b4 : bool) (q : Q) : dict :=
  [ (KStr "date_match", PBool b1);
    (KStr "amount_match", PBool b2);
    (KStr "vendor_match", PBool b3);
    (KStr "tax_match", PBool b4);
    (KStr "overall_match_score", PNum q) ].

(** Fields read by the classical path from a receipt of 1 March 2024. *)
Definition tesseract_fields : pyval :=
  PDict [ (KStr "date", PStr "03/01/2024");
          (KStr "total_amount", PNum 12);
          (KStr "tax_amount", PNone);
          (KStr "vendor_name", PStr "Acme Diner");
          (KStr "items", PList []) ].

(** The same receipt as the model-based path may report it, the amount
    written with its currency. *)
Definition llm_fields_currency : pyval :=
  PDict [ (KStr "date", PStr "2024-03-01");
          (KStr "total_amount", PStr "$12.00");
          (KStr "vendor_name", PStr "ACME Diner") ].

(** The same receipt with a plain amount and another date. *)
Definition llm_fields_plain : pyval :=
  PDict [ (KStr "date", PStr "2024-03-02");
          (KStr "total_amount", PStr "12.00");
          (KStr "vendor_name", PStr "ACME Diner") ].

Definition unit_interval (x : Q) : Prop := (0 <= x <= 1)%Q.

(** The line of the summary that carries the risk label. *)
Definition label_line (label : string) : piece :=
  Text ("Overall Risk Assessment: " ++ label ++ nl)%string.

(** A bulleted section of the summary: nothing for an empty list. *)
Definition section_lines (title : string) (items : list pyval) : list piece :=
  match items with
  | [] => []
  | _ :: _ => Text title :: flat_map bullet items
  end.

(** The verification highlights: nothing when no verification entry is
    recorded, and otherwise the title, the line of the date mismatch and
    the line of the amount mismatch. *)
Definition highlight_lines (vr : dict) (date_line amount_line : list piece) : list piece :=
  match vr with
  | [] => []
  | _ :: _ => Text (nl ++ "Verification Highlights:" ++ nl)%string :: date_line ++ amount_line
  end.

(** The least fraud probability whose percentage is 80, and the least
    whose percentage is 50: the product with 100 is half a step of the
    doubles below 80, and below 50. *)
Definition high_threshold : Q := ((80 - 1 / inject_Z (2 ^ 47)) / 100)%Q.
Definition moderate_threshold : Q := ((50 - 1 / inject_Z (2 ^ 48)) / 100)%Q.

(** The least double whose percentage is 80, printed 0.7999999999999999. *)
Definition least_high_double : Q := (7205759403792793 # 9007199254740992)%Q.

(** The report: the head with the label and the two percentages, the
    listed risk factors, the verification highlights, the listed
    manipulation indicators. *)
Definition report (label : string) (fraud_percentage risk_percentage : Z)
    (factors : list pyval) (highlights : list piece) (indicators : list pyval) : list piece :=
  [ Text ("Fraud Analysis Summary:" ++ nl)%string;
    label_line label;
    Text "Fraud Probability: "; Int fraud_percentage; Text ("%" ++ nl)%string;
    Text "Risk Score: "; Int risk_percentage; Text ("%" ++ nl ++ nl)%string ] ++
  section_lines ("Key Risk Factors:" ++ nl)%string factors ++
  highlights ++
  section_lines (nl ++ "Image Analysis:" ++ nl)%string indicators.


(** Whether the future of the analyzer behind a risk category raised. *)
Definition failed (w : world) (c : risk_category) : bool :=
  match c with
  | llm_analysis => raised (future_result w LlmAnalysis)
  | image_analysis => raised (future_result w ImageAnalysis)
  | online_verification => raised (future_result w OnlineVerification)
  | pattern_analysis => raised (future_result w PatternAnalysis)
  | category_specific => false
  end.

(** The same run with the futures that raised left out of the loop. *)
Definition without_failed (w : world) : world :=
  {| supabase := supabase w;
     groq_client := groq_client w;
     future_result := future_result w;
     completion := filter (fun a => negb (raised (future_result w a))) (completion w);
     now_iso := now_iso w |}.

(** A computation that logs nothing. *)
Definition quiet {A : Type} (c : M A) : Prop :=
  forall (self : detector) (events : list event),
  exists r self', c (self, events) = (r, (self', events)).


(** Whether the lookup of [analyze_receipt] finds an expense record. *)
Definition expense_found (w : world) (expense_id : string) : bool :=
  match _get_expense_data w expense_id with
  | Some row => truthy row
  | None => false
  end.

(** A store that holds no expense. *)
Definition empty_store : store_client :=
  {| select_expense := fun _ => Ok [];
     insert_fraud_check := fun _ => Ok [ PDict [ (KStr "id", PStr "check-1") ] ] |}.

(** A world whose store holds no expense, whose futures all return the
    empty dictionary. *)
Definition world_without_expense : world :=
  {| supabase := Some empty_store;
     groq_client := None;
     future_result := fun _ => Ok (PDict []);
     completion := [LlmAnalysis; ImageAnalysis; OnlineVerification; PatternAnalysis];
     now_iso := fun _ => "2024-03-01T12:00:00" |}.


(** A detector whose language-model check reported on the amount in a
    sentence. *)
Definition detector_with_sentence : detector :=
  set_verification_results
    [ (KStr "amount_verification", PStr "The amount matches the expense record") ]
    new_detector.


(** The sum [sum(validation.values())] computes from the four flags and
    the initial score. *)
Definition flags_sum (b1 b2 b3 b4 : bool) : Q :=
  (0 + Q_of_bool b1 + Q_of_bool b2 + Q_of_bool b3 + Q_of_bool b4 + 0)%Q.



(** Results of the two OCR paths on the sample receipt: the classical
    path matched one pattern in four, the model reports 0.9 and another
    date. *)
Definition tesseract_sample : dict :=
  [ (KStr "original_text", PStr "Acme Diner");
    (KStr "best_result",
     PDict [ (KStr "method", PStr "basic");
             (KStr "text", PStr "Acme Diner");
             (KStr "confidence", PNum (1 # 4)) ]);
    (KStr "structured_data", tesseract_fields) ].

Definition llm_sample : dict :=
  [ (KStr "extracted_text", PStr "ACME Diner");
    (KStr "structured_data", llm_fields_plain);
    (KStr "confidence_score", PNum (9 # 10));
    (KStr "ocr_method", PStr "llm") ].

(** A detector with four risk factors and three manipulation indicators. *)
Definition detector_sample : detector :=
  set_image_analysis_results
    [ (KStr "manipulation_indicators",
       PList [ PStr "Possible copy-move forgery detected";
               PStr "Inconsistent noise patterns detected";
               PStr "No metadata found" ]) ]
    (set_risk_factors
       [ PStr "Vendor food not found in online databases";
         PStr "Price outside typical range for food";
         PStr "Location verification failed for food";
         PStr "food was not operating at the specified time" ]
       new_detector).

(** The sample detector after a check that found another date on the
    receipt and the same amount. *)
Definition detector_with_mismatch : detector :=
  set_verification_results
    [ (KStr "inconsistent_dates",
       PDict [ (KStr "date_mismatch", PBool true);
               (KStr "email_date", PStr "2024-03-01");
               (KStr "receipt_date", PStr "2024-03-05") ]);
      (KStr "amount_verification", PDict [ (KStr "amount_match", PBool true) ]) ]
    detector_sample.

(** The reply of the scenario: one call of [check_pricing] for a ride
    with CityCab, without location or date. *)
Definition citycab_call : tool_call :=
  {| tc_name := "check_pricing";
     tc_arguments :=
       Ok (PDict [ (KStr "vendor_name", PStr "CityCab");
                   (KStr "service_type", PStr "ride") ]) |}.

Definition citycab_client : reasoning_client :=
  {| tool_completion := fun _ _ => Ok (AttrList [citycab_call]) |}.

Definition expense_row : pyval :=
  PDict [ (KStr "id", PStr "e-1");
          (KStr "user_id", PStr "u-1");
          (KStr "amount", PNum 100);
          (KStr "vendor_name", PStr "CityCab");
          (KStr "category", PStr "Travel");
          (KStr "transaction_date", PStr "2024-03-01") ].

Definition expense_store : store_client :=
  {| select_expense := fun _ => Ok [expense_row];
     insert_fraud_check := fun _ => Ok [ PDict [ (KStr "id", PStr "check-1") ] ] |}.

(** A world where the expense exists, the language-model and the image
    futures raise, and the two others return. *)
Definition world_partial_failure : world :=
  {| supabase := Some expense_store;
     groq_client := Some citycab_client;
     future_result := fun a =>
       match a with
       | LlmAnalysis => Raise UpstreamError
       | ImageAnalysis => Raise ValueError
       | OnlineVerification =>
           Ok (PDict [ (KStr "online_verification_results",
                        PDict [ (KStr "vendor_verification", PDict []);
                                (KStr "amount_verification", PDict []);
                                (KStr "date_verification", PDict []) ]) ])
       | PatternAnalysis =>
           Ok (PDict [ (KStr "risk_factors", PList [PStr "Unusual amount"]);
                       (KStr "verification_results",
                        PDict [ (KStr "pattern_analysis", PDict []) ]) ])
       end;
     completion := [PatternAnalysis; LlmAnalysis; OnlineVerification; ImageAnalysis];
     now_iso := fun _ => "2024-03-01T12:00:00" |}.

(** A world where the language-model check reports on the amount in a
    sentence. *)
Definition world_sentence_reply : world :=
  {| supabase := Some expense_store;
     groq_client := None;
     future_result := fun a =>
       match a with
       | LlmAnalysis =>
           Ok (PDict [ (KStr "risk_factors", PList []);
                       (KStr "verification_results",
                        PDict [ (KStr "amount_verification",
                                 PStr "The amount matches the expense record") ]);
                       (KStr "confidence_score", PNum (9 # 10)) ])
       | _ => Ok (PDict [])
       end;
     completion := [LlmAnalysis; ImageAnalysis; OnlineVerification; PatternAnalysis];
     now_iso := fun _ => "2024-03-01T12:00:00" |}.

(** *** Definitions used in the further properties *)

(** Every character of a text satisfies a test. *)
Fixpoint all_chars (p : ascii -> bool) (s : string) : bool :=
  match s with
  | EmptyString => true
  | String c s' => p c && all_chars p s'
  end.

(** Whether the list of discrepancies has an entry for a field. *)
Definition reported (field : string) (discrepancies : list pyval) : bool :=
  existsb
    (fun entry =>
       match entry with
       | PDict e =>
           match lookup "field" e with
           | Some (PStr f) => String.eqb f field
           | _ => false
           end
       | _ => false
       end)
    discrepancies.

(** A number lies between two bounds. *)
Definition between (lo hi x : Q) : Prop := (lo <= x <= hi)%Q.

(** The increment [_get_category_specific_risk_score] takes from a price
    discrepancy [d]: the thresholds are on its absolute value. *)
Definition price_tier (d : Q) : Q :=
  if Qltb (1 # 2) (Qabs d) then 1
  else if Qltb (2 # 10) (Qabs d) then 7 # 10
  else if Qltb (1 # 10) (Qabs d) then 4 # 10
  else 0.

(** A detector that holds one verification entry for its category. *)
Definition detector_with_entry (category : string) (entry : pyval) : detector :=
  set_verification_results [ (KStr (category ++ "_verification")%string, entry) ]
    (set_expense_category (Some category) new_detector).

(** What the tool loop leaves under the four tool keys: nothing or the
    result of the tool; [priced] tells whether a pricing check ran. *)
Definition tool_entries (priced : bool) (vr : dict) : Prop :=
  (lookup "vendor_info" vr = None \/
   exists x, lookup "vendor_info" vr = Some (PDict (_search_vendor_info x))) /\
  (if priced
   then exists n a b c d,
          lookup "pricing_info" vr = Some (PDict (_check_pricing n a b c d))
   else lookup "pricing_info" vr = None) /\
  (lookup "location_info" vr = None \/
   exists v a c, lookup "location_info" vr = Some (PDict (_verify_location v a c))) /\
  (lookup "operating_hours" vr = None \/
   exists v d t, lookup "operating_hours" vr = Some (PDict (_check_operating_hours v d t))).

Definition is_pricing_call (tc : tool_call) : bool := String.eqb (tc_name tc) "check_pricing".

Definition no_results : call_results :=
  {| cr_verification_results := []; cr_tool_calls := [] |}.

(** A reply with a call whose arguments are not JSON, after a call that is
    well formed. *)
Definition broken_reply : list tool_call :=
  [ citycab_call;
    {| tc_name := "search_vendor_info"; tc_arguments := Raise ValueError |} ].

Definition broken_client : reasoning_client :=
  {| tool_completion := fun _ _ => Ok (AttrList broken_reply) |}.

Definition world_broken_reply : world :=
  {| supabase := Some expense_store;
     groq_client := Some broken_client;
     future_result := fun _ => Ok (PDict []);
     completion := [LlmAnalysis; ImageAnalysis; OnlineVerification; PatternAnalysis];
     now_iso := fun _ => "2024-03-01T12:00:00" |}.

(** The request [_category_specific_verification] sends: one call of the
    reasoning service when a client is configured and the category of the
    detector has a prompt, nothing otherwise. *)
Definition category_request (w : world) (self : detector) (expense_data : pyval)
  : list event :=
  match groq_client w, expense_category self with
  | Some _, Some category =>
      if String.eqb category "" then []
      else
        match _get_category_specific_prompt category expense_data with
        | Some p => [ReasoningCall p]
        | None => []
        end
  | _, _ => []
  end.

(** The four submissions, in the order of the source. *)
Definition submissions : list event :=
  [ Submitted LlmAnalysis; Submitted ImageAnalysis;
    Submitted OnlineVerification; Submitted PatternAnalysis ].

(** The identifier [_store_fraud_check_results] reads from the reply of
    the insert. *)
Definition stored_id (reply : result (list pyval)) : pyval :=
  catch
    (rows <- reply ;;
     match rows with
     | first :: _ => py_getitem first "id"
     | [] => Ok PNone
     end)
    (fun _ => PNone).

(** The value a key holds in a mapping: the one written last. *)
Definition last_value (k : string) (e : dict) : option pyval :=
  assoc_get (KStr k) (rev e).

(** A store whose insert fails. *)
Definition failing_store : store_client :=
  {| select_expense := fun _ => Ok [expense_row];
     insert_fraud_check := fun _ => Raise UpstreamError |}.

(** A world whose insert fails and where two checks report on the amount,
    the pattern check after the language-model check. *)
Definition world_insert_fails : world :=
  {| supabase := Some failing_store;
     groq_client := Some citycab_client;
     future_result := fun a =>
       match a with
       | LlmAnalysis =>
           Ok (PDict [ (KStr "risk_factors", PList [PStr "Amount looks altered"]);
                       (KStr "verification_results",
                        PDict [ (KStr "amount_check", PStr "first") ]) ])
       | PatternAnalysis =>
           Ok (PDict [ (KStr "risk_factors", PStr "no");
                       (KStr "verification_results",
                        PDict [ (KStr "amount_check", PStr "second") ]) ])
       | ImageAnalysis =>
           Ok (PDict [ (KStr "risk_factors", PNum 3);
                       (KStr "verification_results",
                        PDict [ (KStr "amount_check", PStr "third") ]) ])
       | OnlineVerification => Ok (PDict [])
       end;
     completion := [LlmAnalysis; PatternAnalysis; ImageAnalysis; OnlineVerification];
     now_iso := fun _ => "2024-03-01T12:00:00" |}.

(** Every key of [d] is a key of [d']. *)
Definition keys_kept (d d' : dict) : Prop :=
  forall k : pykey, assoc_get k d <> None -> assoc_get k d' <> None.

(** Nothing was removed from the four collections of the detector. *)
Definition grows (self self' : detector) : Prop :=
  (exists added, risk_factors self' = (risk_factors self ++ added)%list) /\
  keys_kept (verification_results self) (verification_results self') /\
  keys_kept (image_analysis_results self) (image_analysis_results self') /\
  keys_kept (online_verification_results self) (online_verification_results self').

(** A computation that removes nothing from the detector. *)
Definition accumulating {A : Type} (c : M A) : Prop :=
  forall (self : detector) (events : list event) (r : result A) (self' : detector)
         (events' : list event),
    c (self, events) = (r, (self', events')) -> grows self self'.

(** A detector that has already analysed a receipt. *)
Definition used_detector : detector :=
  {| risk_factors := [PStr "Unusual amount"];
     verification_results := [ (KStr "pattern_analysis", PDict []) ];
     image_analysis_results := [];
     online_verification_results := [];
     expense_category := Some "food" |}.

(** A detector that holds two earlier verification entries. *)
Definition detector_with_checks : detector :=
  set_verification_results
    [ (KStr "amount_check", PStr "old"); (KStr "vendor_check", PStr "kept") ]
    new_detector.

(** The text [a<sep>b<sep>y] with two digits, two digits and four digits. *)
Definition numeric_date (sep : ascii) (a b y : N) : string :=
  (pad2 a ++ String sep (pad2 b ++ String sep (pad4 y)))%string.

(** *** Image analysis *)

Section ImageAnalysis.

(** [float(s)] for a string, as in the OCR cross-validation. *)
Variable float_of_str : string -> option Q.

(** [re.search(pattern, text)] finds a match. *)
Variable search : string -> string -> bool.

(** [_extract_structured_data], which reads the fields of a receipt off a
    text with regular expressions and always returns a dictionary. *)
Variable _extract_structured_data : string -> dict.

(** What [_analyze_text_patterns] returns for a text that is not empty. *)
Variable text_patterns : pyval -> dict.

(** White space as [str.strip] sees it, among the code points below 256. *)
Definition is_space (c : ascii) : bool :=
  let n := N_of_ascii c in
  ((9 <=? n)%N && (n <=? 13)%N) || ((28 <=? n)%N && (n <=? 32)%N) ||
  (n =? 133)%N || (n =? 160)%N.

(** [not text.strip()]. *)
Definition blank (text : string) : bool := all_chars is_space text.

Definition receipt_elements : list string :=
  [ "\d{1,2}[-/]\d{1,2}[-/]\d{2,4}";
    "\$\d+\.\d{2}";
    "TOTAL|SUBTOTAL|TAX";
    "\d{4}[- ]?\d{4}[- ]?\d{4}[- ]?\d{4}" ].

(** [min(a, b)] on floats: the first of the smallest. *)
Definition py_min (a b : Q) : Q := if Qltb b a then b else a.

Definition element_matches (text : string) : nat :=
  List.length (filter (fun pattern => search pattern text) receipt_elements).

Definition _calculate_ocr_confidence (text : string) : Q :=
  if blank text then 0
  else
    py_min 1 (inject_Z (Z.of_nat (element_matches text)) /
              inject_Z (Z.of_nat (List.length receipt_elements))).

(** One entry of [preprocessing_results]. *)
Definition preprocessing_result (method text : string) : pyval :=
  PDict [ (KStr "method", PStr method);
          (KStr "text", PStr text);
          (KStr "confidence", PNum (_calculate_ocr_confidence text)) ].

(** [max(first :: rest, key=key)]: the first of the largest. *)
Definition py_max_by {A : Type} (key : A -> Q) (first : A) (rest : list A) : A :=
  fold_left (fun best x => if Qltb (key best) (key x) then x else best) rest first.

(** The arguments are what Tesseract reads off the image and off its three
    preprocessed versions; a failure of the preprocessing or of the
    engine is the exception. *)
Definition _tesseract_ocr_analysis
    (original basic contrast_enhanced denoised : result string) : dict :=
  catch
    (original_text <- original ;;
     basic_text <- basic ;;
     contrast_text <- contrast_enhanced ;;
     denoised_text <- denoised ;;
     let best :=
       py_max_by (fun mt => _calculate_ocr_confidence (snd mt))
         ("basic", basic_text)
         [ ("contrast_enhanced", contrast_text); ("denoised", denoised_text) ] in
     Ok [ (KStr "original_text", PStr original_text);
          (KStr "best_result", preprocessing_result (fst best) (snd best));
          (KStr "all_preprocessing_results",
           PList [ preprocessing_result "basic" basic_text;
                   preprocessing_result "contrast_enhanced" contrast_text;
                   preprocessing_result "denoised" denoised_text ]);
          (KStr "structured_data", PDict (_extract_structured_data (snd best))) ])
    (fun _ => []).

(** [reply] is the decoded content of the reply of the reasoning service,
    or the exception of the request or of the decoding. *)
Definition _llm_ocr_analysis (w : world) (reply : result pyval) : pyval :=
  match groq_client w with
  | None => PDict []
  | Some _ =>
      catch
        (llm_response <- reply ;;
         match llm_response with
         | PDict d => Ok (PDict (setitem "ocr_method" (PStr "llm") d))
         | _ => Raise TypeError
         end)
        (fun _ => PDict [])
  end.

(** [copied] is the outcome of [image.copy()]. *)
Definition _enhanced_ocr_analysis (copied : result unit)
    (tesseract_results llm_results : pyval) : dict :=
  catch
    (_ <- copied ;;
     let results :=
       [ (KStr "tesseract_analysis", tesseract_results);
         (KStr "llm_analysis", llm_results);
         (KStr "combined_analysis",
          PDict (_combine_ocr_results float_of_str tesseract_results llm_results)) ] in
     _ <- py_get tesseract_results "original_text" (PStr "") ;;
     best <- py_get tesseract_results "best_result" (PDict []) ;;
     _ <- py_get best "text" (PStr "") ;;
     _ <- py_get llm_results "extracted_text" (PStr "") ;;
     _ <- py_get llm_results "structured_data" (PDict []) ;;
     Ok results)
    (fun _ => []).

Definition text_patterns_init : dict :=
  [ (KStr "suspicious_patterns", PList []);
    (KStr "text_consistency", PDict []);
    (KStr "format_analysis", PDict []) ].

Definition _analyze_text_patterns (ocr_results : pyval) : dict :=
  let results := text_patterns_init in
  catch
    (text <- py_get ocr_results "extracted_text" (PStr "") ;;
     if negb (truthy text) then Ok results else Ok (text_patterns text))
    (fun _ => results).

Definition suspicious_software : list string := ["photoshop"; "gimp"; "paint.net"].

(** [info] is [image.info]. *)
Definition _check_metadata (info : dict) : list pyval :=
  catch
    (let anomalies :=
       if negb (truthy (PDict info)) then [PStr "No metadata found"] else [] in
     anomalies <-
       match lookup "Software" info with
       | Some v =>
           software <- py_lower v ;;
           Ok (if existsb (fun s => substringb s software) suspicious_software
               then anomalies ++
                    [PStr ("Suspicious editing software detected: " ++ software)%string]
               else anomalies)
       | None => Ok anomalies
       end ;;
     match lookup "Comment" info with
     | Some v =>
         comment <- py_lower v ;;
         Ok (if substringb "saved" comment
             then anomalies ++ [PStr "Image appears to have been saved multiple times"]
             else anomalies)
     | None => Ok anomalies
     end)
    (fun _ => [PStr "Error checking metadata"]).

(** What the imaging libraries report about a downloaded image: the
    statistics of the gray image (variance of the Laplacian, mean, standard
    deviation), the estimates of noise and compression, the outcome of
    the copy and of the conversion to an array, the four texts Tesseract
    reads, the reply of the reasoning service, the verdicts of the four
    forgery detectors, and the metadata. *)
Record image : Type := {
  gray_statistics : result (Q * Q * Q);
  noise_estimate : result Q;
  compression_estimate : result Q;
  copied : result unit;
  as_array : result unit;
  ocr_original : result string;
  ocr_basic : result string;
  ocr_contrast_enhanced : result string;
  ocr_denoised : result string;
  llm_reply : result pyval;
  copy_move : bool;
  jpeg_inconsistent : bool;
  noise_inconsistent : bool;
  edge_inconsistent : bool;
  info : dict
}.

(** [_estimate_noise] and [_detect_compression_artifacts] return 0.0 when
    the measurement fails. *)
Definition _estimate_noise (img : image) : Q := catch (noise_estimate img) (fun _ => 0%Q).

Definition _detect_compression_artifacts (img : image) : Q :=
  catch (compression_estimate img) (fun _ => 0%Q).

Definition _analyze_image_quality (img : image) : dict :=
  catch
    (statistics <- gray_statistics img ;;
     let '(blur_score, brightness, contrast) := statistics in
     let noise := _estimate_noise img in
     let compression_score := _detect_compression_artifacts img in
     Ok [ (KStr "blur_score", PNum blur_score);
          (KStr "brightness", PNum brightness);
          (KStr "contrast", PNum contrast);
          (KStr "noise_level", PNum noise);
          (KStr "compression_artifacts", PNum compression_score);
          (KStr "quality_assessment",
           PStr (_assess_image_quality blur_score brightness contrast noise
                   compression_score)) ])
    (fun _ => []).

Definition when_detected (detected : bool) (message : string) : list pyval :=
  if detected then [PStr message] else [].

Definition _check_image_manipulation (img : image) : list pyval :=
  catch
    (_ <- as_array img ;;
     Ok (when_detected (copy_move img) "Possible copy-move forgery detected" ++
         when_detected (jpeg_inconsistent img) "Inconsistent JPEG compression detected" ++
         when_detected (noise_inconsistent img) "Inconsistent noise patterns detected" ++
         when_detected (edge_inconsistent img) "Inconsistent edge patterns detected" ++
         _check_metadata (info img)))
    (fun _ => []).

(** [download] is the image behind the URL, or the exception of the
    request or of the decoding. *)
Definition _image_analysis (w : world) (download : result image) : pyval :=
  catch
    (img <- download ;;
     let ocr_analysis :=
       _enhanced_ocr_analysis (copied img)
         (PDict (_tesseract_ocr_analysis (ocr_original img) (ocr_basic img)
                   (ocr_contrast_enhanced img) (ocr_denoised img)))
         (_llm_ocr_analysis w (llm_reply img)) in
     let results :=
       [ (KStr "image_quality", PDict (_analyze_image_quality img));
         (KStr "ocr_analysis", PDict ocr_analysis);
         (KStr "manipulation_indicators", PList (_check_image_manipulation img));
         (KStr "text_pattern_analysis",
          PDict (_analyze_text_patterns (PDict ocr_analysis))) ] in
     Ok (PDict [ (KStr "image_analysis_results", PDict results) ]))
    (fun _ => PDict []).

End ImageAnalysis.

(** *** Online verification and pattern analysis *)

Definition _verify_vendor (vendor_name : pyval) : dict := [].
Definition _verify_amount (amount vendor date : pyval) : dict := [].
Definition _verify_date (date vendor : pyval) : dict := [].
Definition _check_unusual_amounts (current_expense : pyval) (recent_expenses : list pyval)
  : dict := [].
Definition _check_frequency_patterns (current_expense : pyval) (recent_expenses : list pyval)
  : dict := [].
Definition _check_vendor_patterns (current_expense : pyval) (recent_expenses : list pyval)
  : dict := [].
Definition _convert_patterns_to_risk_factors (patterns : dict) : list pyval := [].

Definition _online_verification (expense_data : pyval) : result pyval :=
  vendor_name <- py_get expense_data "vendor_name" PNone ;;
  vendor_verification <- Ok (_verify_vendor vendor_name) ;;
  amount <- py_get expense_data "amount" PNone ;;
  vendor <- py_get expense_data "vendor_name" PNone ;;
  date <- py_get expense_data "transaction_date" PNone ;;
  amount_verification <- Ok (_verify_amount amount vendor date) ;;
  date' <- py_get expense_data "transaction_date" PNone ;;
  vendor' <- py_get expense_data "vendor_name" PNone ;;
  date_verification <- Ok (_verify_date date' vendor') ;;
  let results :=
    [ (KStr "vendor_verification", PDict vendor_verification);
      (KStr "amount_verification", PDict amount_verification);
      (KStr "date_verification", PDict date_verification) ] in
  Ok (PDict [ (KStr "online_verification_results", PDict results) ]).

(** [recent] is the query for the ten latest expenses of a user, [None]
    when no store is configured. *)
Definition _pattern_analysis (recent : option (pyval -> result (list pyval)))
    (expense_data : pyval) : pyval :=
  catch
    (user_id <- py_get expense_data "user_id" PNone ;;
     if negb (truthy user_id) then Ok (PDict [])
     else
       match recent with
       | None => Ok (PDict [])
       | Some query =>
           recent_expenses <- query user_id ;;
           match recent_expenses with
           | [] => Ok (PDict [])
           | _ :: _ =>
               let patterns :=
                 [ (KStr "unusual_amounts",
                    PDict (_check_unusual_amounts expense_data recent_expenses));
                   (KStr "frequency_patterns",
                    PDict (_check_frequency_patterns expense_data recent_expenses));
                   (KStr "vendor_patterns",
                    PDict (_check_vendor_patterns expense_data recent_expenses)) ] in
               Ok (PDict [ (KStr "risk_factors",
                            PList (_convert_patterns_to_risk_factors patterns));
                           (KStr "verification_results",
                            PDict [ (KStr "pattern_analysis", PDict patterns) ]) ])
           end
       end)
    (fun _ => PDict []).

(** *** Analysis by the language model *)

(** [reply] is the decoded content of the reply, or the exception of the
    request or of the decoding. *)
Definition _llm_analysis (w : world) (reply : result pyval) : pyval :=
  match groq_client w with
  | None => PDict []
  | Some _ => catch reply (fun _ => PDict [])
  end.

(** A search that only knows the words of a total. *)
Definition total_word_search (pattern text : string) : bool :=
  String.eqb pattern "TOTAL|SUBTOTAL|TAX" &&
  (substringb "TOTAL" text || substringb "TAX" text).

(** An image of which the libraries report nothing unusual, without
    metadata. *)
Definition plain_image : image :=
  {| gray_statistics := Ok (150, 120, 40)%Q;
     noise_estimate := Raise UpstreamError;
     compression_estimate := Ok (1 # 10)%Q;
     copied := Ok tt;
     as_array := Ok tt;
     ocr_original := Ok "CityCab";
     ocr_basic := Ok "CityCab";
     ocr_contrast_enhanced := Ok "CityCab TOTAL 100.00";
     ocr_denoised := Ok "CityCab TAX 8.00";
     llm_reply := Ok (PDict [ (KStr "extracted_text", PStr "CityCab TOTAL 100.00");
                              (KStr "confidence_score", PNum (9 # 10)) ]);
     copy_move := false;
     jpeg_inconsistent := false;
     noise_inconsistent := false;
     edge_inconsistent := false;
     info := [] |}.

(** The items a [risk_factors] entry adds, and the entries a result
    dictionary adds. *)
Definition items_of (entry : option pyval) : list pyval :=
  match entry with
  | Some v => catch (py_iter v) (fun _ => [])
  | None => []
  end.

Definition entries_of (entry : option pyval) : dict :=
  match entry with
  | Some (PDict e) => e
  | _ => []
  end.

(** What the three pattern checks return. *)
Definition pattern_stubs : dict :=
  [ (KStr "unusual_amounts", PDict []);
    (KStr "frequency_patterns", PDict []);
    (KStr "vendor_patterns", PDict []) ].

(** What the three online checks return. *)
Definition online_stubs : dict :=
  [ (KStr "vendor_verification", PDict []);
    (KStr "amount_verification", PDict []);
    (KStr "date_verification", PDict []) ].

(** A store with the history of the user, and a world whose four checks
    return what the detector's methods compute, without reasoning
    service. *)
Definition history (user_id : pyval) : result (list pyval) := Ok [expense_row].

Definition world_offline : world :=
  {| supabase := Some expense_store;
     groq_client := None;
     future_result := fun a =>
       match a with
       | LlmAnalysis => Ok (PDict [])
       | ImageAnalysis =>
           Ok (_image_analysis float_of_decimal total_word_search (fun _ => [])
                 (fun _ => [])
                 {| supabase := Some expense_store;
                    groq_client := None;
                    future_result := fun _ => Ok (PDict []);
                    completion := [];
                    now_iso := fun _ => "2024-03-01T12:00:00" |}
                 (Ok plain_image))
       | OnlineVerification => _online_verification expense_row
       | PatternAnalysis => Ok (_pattern_analysis (Some history) expense_row)
       end;
     completion := [OnlineVerification; PatternAnalysis; ImageAnalysis; LlmAnalysis];
     now_iso := fun _ => "2024-03-01T12:00:00" |}.

(** A detector that holds no risk factor and no verification entry but,
    possibly, the one of the pattern analysis. *)
Definition nothing_reported (self : detector) : Prop :=
  risk_factors self = [] /\
  forall k, lookup k (verification_results self) <> None -> k = "pattern_analysis".

(** The keys under which the tool loop stores results. *)
Definition tool_keys (vr : dict) : Prop :=
  forall k, lookup k vr <> None ->
            In k ["vendor_info"; "pricing_info"; "location_info"; "operating_hours"].

(** The entry the tool loop logs for a call. *)
Definition logged (tc : tool_call) (entry : pyval) : Prop :=
  exists args r,
    tc_arguments tc = Ok args /\
    entry = PDict [ (KStr "tool_name", PStr (tc_name tc));
                    (KStr "arguments", args);
                    (KStr "result", r) ] /\
    (In (tc_name tc) (map tool_name _get_verification_tools) -> r = PDict []).

(** * Properties *)

(** ** Rational comparisons *)

Lemma Qltb_lt (x y : Q) : Qltb x y = true <-> (x < y)%Q.
Proof.
  unfold Qltb. rewrite negb_true_iff. split; intro H.
  - apply Qnot_le_lt. intro L. apply Qle_bool_iff in L. congruence.
  - destruct (Qle_bool y x) eqn:E; [|reflexivity].
    apply Qle_bool_iff in E. exfalso. apply (Qlt_not_le _ _ H E).
Qed.

Lemma Qltb_ge (x y : Q) : Qltb x y = false <-> (y <= x)%Q.
Proof.
  unfold Qltb. rewrite negb_false_iff. apply Qle_bool_iff.
Qed.

(** ** Image quality *)

(** C6. [_assess_image_quality] checks its thresholds in priority order,
    the first one met deciding the answer: blur below 100, brightness
    outside [50, 200], contrast below 30, noise above 20, compression above
    0.5, and good quality otherwise.  With a blur score of 50 the answer is
    "too blurry" whatever the other four metrics are. *)
Theorem assess_image_quality_priority :
  forall blur brightness contrast noise compression : Q,
    let verdict := _assess_image_quality blur brightness contrast noise compression in
    ((blur < 100)%Q -> verdict = "Poor quality - Image is too blurry") /\
    ((100 <= blur)%Q -> (brightness < 50 \/ 200 < brightness)%Q ->
       verdict = "Poor quality - Incorrect brightness") /\
    ((100 <= blur)%Q -> (50 <= brightness <= 200)%Q -> (contrast < 30)%Q ->
       verdict = "Poor quality - Low contrast") /\
    ((100 <= blur)%Q -> (50 <= brightness <= 200)%Q -> (30 <= contrast)%Q ->
     (20 < noise)%Q ->
       verdict = "Poor quality - High noise level") /\
    ((100 <= blur)%Q -> (50 <= brightness <= 200)%Q -> (30 <= contrast)%Q ->
     (noise <= 20)%Q -> (1 # 2 < compression)%Q ->
       verdict = "Poor quality - Heavy compression artifacts") /\
    ((100 <= blur)%Q -> (50 <= brightness <= 200)%Q -> (30 <= contrast)%Q ->
     (noise <= 20)%Q -> (compression <= 1 # 2)%Q ->
       verdict = "Good quality") /\
    _assess_image_quality 50 brightness contrast noise compression
      = "Poor quality - Image is too blurry".
Proof.
  intros blur brightness contrast noise compression verdict.
  subst verdict. unfold _assess_image_quality.
  repeat split; intros;
    repeat match goal with
      | H : (_ < _)%Q |- _ => apply Qltb_lt in H
      | H : (_ <= _)%Q |- _ => apply Qltb_ge in H
      | H : _ /\ _ |- _ => destruct H
      | H : _ \/ _ |- _ => destruct H
      end;
    repeat match goal with
      | H : Qltb _ _ = _ |- _ => rewrite H; clear H
      end;
    try reflexivity;
    rewrite ?orb_true_r; reflexivity.
Qed.

(** ** Scores *)

Lemma fold_left_Qplus_bounds (l : list Q) :
  Forall unit_interval l ->
  forall a : Q,
    (a <= fold_left Qplus l a)%Q /\
    (fold_left Qplus l a <= a + inject_Z (Z.of_nat (List.length l)))%Q.
Proof.
  induction 1 as [|x l [Hx0 Hx1] _ IH]; intro a.
  - simpl. split; [apply Qle_refl|]. unfold inject_Z. simpl. lra.
  - cbn [fold_left List.length]. destruct (IH (a + x)%Q) as [L U]. split.
    + lra.
    + rewrite Nat2Z.inj_succ. unfold Z.succ. rewrite inject_Z_plus.
      change (inject_Z 1) with 1%Q. lra.
Qed.

Lemma average_unit (l : list Q) : Forall unit_interval l -> unit_interval (average l).
Proof.
  intro H. destruct l as [|x l].
  - unfold average, unit_interval. lra.
  - unfold average.
    destruct (fold_left_Qplus_bounds (x :: l) H 0%Q) as [L U].
    set (n := inject_Z (Z.of_nat (List.length (x :: l)))) in *.
    assert (Hn : (0 < n)%Q).
    { unfold n. change 0%Q with (inject_Z 0). rewrite <- Zlt_Qlt.
      cbn [List.length]. lia. }
    split.
    + apply Qle_shift_div_l; [exact Hn|]. lra.
    + apply Qle_shift_div_r; [exact Hn|]. lra.
Qed.

Lemma Forall_unit_snoc (l : list Q) (x : Q) :
  Forall unit_interval l -> unit_interval x -> Forall unit_interval (l ++ [x]).
Proof.
  intros Hl Hx. apply Forall_app. split; [exact Hl|]. constructor; [exact Hx|constructor].
Qed.

Ltac unit_const := unfold unit_interval; split; unfold Qle; simpl; lia.

Lemma price_block_unit (vr : pyval) (f f' : list Q) :
  price_block vr f = Ok f' -> Forall unit_interval f -> Forall unit_interval f'.
Proof.
  unfold price_block, bind. intros H Hf.
  destruct (py_contains "price_discrepancy" vr) as [[|]|]; try discriminate.
  - destruct (py_getitem vr "price_discrepancy"); try discriminate.
    destruct (py_abs a); try discriminate.
    injection H as <-.
    repeat match goal with
      | |- context [if ?b then _ else _] => destruct b
      end; try exact Hf; apply Forall_unit_snoc; try exact Hf; unit_const.
  - injection H as <-. exact Hf.
Qed.

Lemma either_block_unit (k1 k2 : string) (weight : Q) (vr : pyval) (f f' : list Q) :
  unit_interval weight ->
  either_block k1 k2 weight vr f = Ok f' -> Forall unit_interval f -> Forall unit_interval f'.
Proof.
  unfold either_block, bind. intros Hw H Hf.
  destruct (present_and_false k1 vr) as [[|]|]; try discriminate.
  - injection H as <-. apply Forall_unit_snoc; assumption.
  - destruct (present_and_false k2 vr) as [[|]|]; try discriminate;
      injection H as <-; [apply Forall_unit_snoc|]; assumption.
Qed.

Lemma menu_block_unit (category : string) (vr : pyval) (f f' : list Q) :
  menu_block category vr f = Ok f' -> Forall unit_interval f -> Forall unit_interval f'.
Proof.
  unfold menu_block, bind. intros H Hf.
  destruct (String.eqb category "food").
  - destruct (present_and_false "menu_verification" vr) as [[|]|]; try discriminate;
      injection H as <-; [apply Forall_unit_snoc; [assumption|unit_const]|assumption].
  - injection H as <-. exact Hf.
Qed.

Lemma category_specific_risk_score_unit (self : detector) :
  unit_interval (_get_category_specific_risk_score self).
Proof.
  assert (Z : unit_interval 0) by unit_const.
  unfold _get_category_specific_risk_score, catch.
  destruct (expense_category self) as [category|]; [|exact Z].
  destruct (String.eqb category ""); [exact Z|].
  set (vr := match lookup _ _ with Some v => v | None => PDict [] end).
  destruct (negb (truthy vr)); [exact Z|].
  unfold bind.
  destruct (price_block vr []) as [f1|] eqn:E1; [|exact Z].
  destruct (either_block "location_verification" _ _ vr f1) as [f2|] eqn:E2; [|exact Z].
  destruct (either_block "time_verification" _ _ vr f2) as [f3|] eqn:E3; [|exact Z].
  destruct (either_block "service_verification" _ _ vr f3) as [f4|] eqn:E4; [|exact Z].
  destruct (menu_block category vr f4) as [f5|] eqn:E5; [|exact Z].
  apply average_unit.
  apply (menu_block_unit _ _ _ _ E5).
  eapply either_block_unit; [|exact E4|]; [unit_const|].
  eapply either_block_unit; [|exact E3|]; [unit_const|].
  eapply either_block_unit; [|exact E2|]; [unit_const|].
  apply (price_block_unit _ _ _ E1). constructor.
Qed.

Lemma weighted_sum_formula (score : risk_category -> Q) :
  (weighted_sum score ==
   (3 # 10) * score llm_analysis + (25 # 100) * score image_analysis +
   (15 # 100) * score online_verification + (1 # 10) * score pattern_analysis +
   (2 # 10) * score category_specific)%Q.
Proof.
  unfold weighted_sum, categories, weights. cbn [fold_left]. ring.
Qed.

Lemma weighted_sum_unit (score : risk_category -> Q) :
  (forall c, unit_interval (score c)) -> unit_interval (weighted_sum score).
Proof.
  intro H. unfold unit_interval in *. rewrite weighted_sum_formula.
  pose proof (H llm_analysis). pose proof (H image_analysis).
  pose proof (H online_verification). pose proof (H pattern_analysis).
  pose proof (H category_specific). lra.
Qed.

Lemma scores_unit (self : detector) (c : risk_category) : unit_interval (scores self c).
Proof.
  destruct c; try (cbn; unit_const). apply category_specific_risk_score_unit.
Qed.

(** C3. The overall risk score is
    0.3*llm_analysis + 0.25*image_analysis + 0.15*online_verification +
    0.1*pattern_analysis + 0.2*category_specific over the five category
    scores; the weights sum to 1, so the weighted sum of scores that each
    lie in [0,1] lies in [0,1]. *)
Theorem calculate_risk_score_weighted :
  (forall self : detector,
     (_calculate_risk_score self ==
      (3 # 10) * _get_llm_risk_score self +
      (25 # 100) * _get_image_risk_score self +
      (15 # 100) * _get_verification_risk_score self +
      (1 # 10) * _get_pattern_risk_score self +
      (2 # 10) * _get_category_specific_risk_score self)%Q) /\
  (weights llm_analysis + weights image_analysis + weights online_verification +
   weights pattern_analysis + weights category_specific == 1)%Q /\
  (forall score : risk_category -> Q,
     (forall c, 0 <= score c <= 1)%Q ->
     (0 <= weighted_sum score <= 1)%Q) /\
  (forall self : detector, (0 <= _calculate_risk_score self <= 1)%Q).
Proof.
  split; [|split; [|split]].
  - intro self. unfold _calculate_risk_score. rewrite weighted_sum_formula. reflexivity.
  - reflexivity.
  - intros score H. apply (weighted_sum_unit score H).
  - intro self. apply (weighted_sum_unit (scores self) (scores_unit self)).
Qed.

(** C4. The fraud probability is exactly
    0.7*risk_score + 0.3*verification_confidence; the expression has no
    clamp, and for a risk score and a confidence in [0,1] it lies in [0,1]. *)
Theorem calculate_fraud_probability_blend :
  (forall self : detector,
     (_calculate_fraud_probability self ==
      (7 # 10) * _calculate_risk_score self +
      (3 # 10) * _get_verification_confidence self)%Q) /\
  (forall risk_score verification_confidence : Q,
     (0 <= risk_score <= 1)%Q -> (0 <= verification_confidence <= 1)%Q ->
     (blend risk_score verification_confidence ==
      (7 # 10) * risk_score + (3 # 10) * verification_confidence)%Q /\
     (0 <= blend risk_score verification_confidence <= 1)%Q) /\
  (forall self : detector, (0 <= _calculate_fraud_probability self <= 1)%Q).
Proof.
  split; [|split].
  - intro self. unfold _calculate_fraud_probability, blend. ring.
  - intros r v Hr Hv. unfold blend. split; [ring|lra].
  - intro self. unfold _calculate_fraud_probability, blend.
    pose proof (weighted_sum_unit (scores self) (scores_unit self)) as H.
    unfold unit_interval in H. fold (_calculate_risk_score self) in H.
    unfold _get_verification_confidence. lra.
Qed.

(** ** OCR cross-validation *)

Section OcrProperties.

Variable float_of_str : string -> option Q.

Lemma compare_dates_shape (t l : pyval) (b1 b2 b3 b4 : bool) (q : Q) :
  (exists e, compare_dates t l (validation_of b1 b2 b3 b4 q) = Raise e) \/
  (exists b, compare_dates t l (validation_of b1 b2 b3 b4 q) = Ok (validation_of b b2 b3 b4 q)).
Proof.
  unfold compare_dates, bind.
  destruct (both_set t l "date") as [[|]|e]; [| right; eauto | left; eauto].
  destruct (py_getitem t "date") as [a|e]; [|left; eauto].
  destruct (py_getitem l "date") as [b|e]; [|left; eauto].
  right. eexists. reflexivity.
Qed.

Lemma compare_vendors_shape (t l : pyval) (b1 b2 b3 b4 : bool) (q : Q) :
  (exists e, compare_vendors t l (validation_of b1 b2 b3 b4 q) = Raise e) \/
  (exists b, compare_vendors t l (validation_of b1 b2 b3 b4 q) = Ok (validation_of b1 b2 b b4 q)).
Proof.
  unfold compare_vendors, bind.
  destruct (both_set t l "vendor_name") as [[|]|e]; [| right; eauto | left; eauto].
  destruct (py_getitem t "vendor_name") as [a|e]; [|left; eauto].
  destruct (py_getitem l "vendor_name") as [b|e]; [|left; eauto].
  right. eexists. reflexivity.
Qed.

Lemma compare_total_shape (t l : pyval) (b1 b2 b3 b4 : bool) (q : Q) :
  (exists e, compare_amounts float_of_str "total_amount" "amount_match" t l
               (validation_of b1 b2 b3 b4 q) = Raise e) \/
  (exists b, compare_amounts float_of_str "total_amount" "amount_match" t l
               (validation_of b1 b2 b3 b4 q) = Ok (validation_of b1 b b3 b4 q)).
Proof.
  unfold compare_amounts, bind.
  destruct (both_set t l "total_amount") as [[|]|e]; [| right; eauto | left; eauto].
  destruct (py_getitem t "total_amount") as [a|e]; [|left; eauto].
  destruct (py_getitem l "total_amount") as [b|e]; [|left; eauto].
  destruct (amount_gap float_of_str a b) as [g|e]; [|left; eauto].
  right. eexists. reflexivity.
Qed.

Lemma compare_tax_shape (t l : pyval) (b1 b2 b3 b4 : bool) (q : Q) :
  (exists e, compare_amounts float_of_str "tax_amount" "tax_match" t l
               (validation_of b1 b2 b3 b4 q) = Raise e) \/
  (exists b, compare_amounts float_of_str "tax_amount" "tax_match" t l
               (validation_of b1 b2 b3 b4 q) = Ok (validation_of b1 b2 b3 b q)).
Proof.
  unfold compare_amounts, bind.
  destruct (both_set t l "tax_amount") as [[|]|e]; [| right; eauto | left; eauto].
  destruct (py_getitem t "tax_amount") as [a|e]; [|left; eauto].
  destruct (py_getitem l "tax_amount") as [b|e]; [|left; eauto].
  destruct (amount_gap float_of_str a b) as [g|e]; [|left; eauto].
  right. eexists. reflexivity.
Qed.

Lemma score_matches_shape (b1 b2 b3 b4 : bool) :
  score_matches (validation_of b1 b2 b3 b4 0) =
  Ok (validation_of b1 b2 b3 b4 (flags_sum b1 b2 b3 b4 / inject_Z 5)).
Proof. reflexivity. Qed.

(** Either the five statements of the [try] block all ran, or the handler
    returned the mapping with the flags set so far and the initial score. *)
Lemma validate_outcome (t l : pyval) :
  exists b1 b2 b3 b4,
    try_steps (validate_steps float_of_str t l) validation_init =
      (validation_of b1 b2 b3 b4 (flags_sum b1 b2 b3 b4 / inject_Z 5), false) \/
    try_steps (validate_steps float_of_str t l) validation_init =
      (validation_of b1 b2 b3 b4 0, true).
Proof.
  change validation_init with (validation_of false false false false 0).
  unfold validate_steps. cbn [try_steps].
  destruct (compare_dates_shape t l false false false false 0) as [[e ->]|[b1 ->]];
    [do 4 exists false; right; reflexivity|].
  destruct (compare_total_shape t l b1 false false false 0) as [[e ->]|[b2 ->]];
    [exists b1; do 3 exists false; right; reflexivity|].
  destruct (compare_vendors_shape t l b1 b2 false false 0) as [[e ->]|[b3 ->]];
    [exists b1, b2; do 2 exists false; right; reflexivity|].
  destruct (compare_tax_shape t l b1 b2 b3 false 0) as [[e ->]|[b4 ->]];
    [exists b1, b2, b3, false; right; reflexivity|].
  exists b1, b2, b3, b4. left. rewrite score_matches_shape. reflexivity.
Qed.

Lemma match_score_of (b1 b2 b3 b4 : bool) (q : Q) :
  match_score (validation_of b1 b2 b3 b4 q) = q.
Proof. reflexivity. Qed.

Lemma true_flags_of (b1 b2 b3 b4 : bool) (q : Q) :
  (inject_Z (Z.of_nat (true_flags (validation_of b1 b2 b3 b4 q))) == flags_sum b1 b2 b3 b4)%Q.
Proof. destruct b1, b2, b3, b4; reflexivity. Qed.

(** C10, as amended.  When no comparison raises, the score
    [_validate_ocr_results] returns is the number of true match flags
    divided by 5, the length of the mapping, which counts the score entry
    itself; when one raises, the score keeps its initial value 0 whatever
    flags were set before.  In every case the score is at most 0.8 and is
    never 1. *)
Theorem validate_ocr_results_score :
  forall tesseract_data llm_data : pyval,
    let validation := _validate_ocr_results float_of_str tesseract_data llm_data in
    (validate_raised float_of_str tesseract_data llm_data = false ->
       (match_score validation == inject_Z (Z.of_nat (true_flags validation)) / 5)%Q) /\
    (validate_raised float_of_str tesseract_data llm_data = true ->
       (match_score validation == 0)%Q) /\
    (match_score validation <= 8 # 10)%Q /\
    ~ (match_score validation == 1)%Q.
Proof.
  intros t l validation. subst validation.
  unfold _validate_ocr_results, validate_raised.
  destruct (validate_outcome t l) as (b1 & b2 & b3 & b4 & [-> | ->]); cbn [fst snd];
    rewrite match_score_of.
  - split; [|split; [|split]].
    + intros _. rewrite true_flags_of. reflexivity.
    + discriminate.
    + destruct b1, b2, b3, b4; vm_compute; discriminate.
    + destruct b1, b2, b3, b4; vm_compute; discriminate.
  - split; [|split; [|split]].
    + discriminate.
    + intros _. reflexivity.
    + vm_compute. discriminate.
    + vm_compute. discriminate.
Qed.

Lemma py_get_dict (d : dict) (k : string) (default : pyval) :
  py_get (PDict d) k default = Ok (get_or k d default).
Proof. reflexivity. Qed.

Lemma try_steps_length {A : Type} (steps : list (list A -> result (list A))) :
  Forall (fun step => forall acc acc', step acc = Ok acc' ->
                        (List.length acc' <= S (List.length acc))%nat) steps ->
  forall acc,
    (List.length (fst (try_steps steps acc)) <= List.length steps + List.length acc)%nat.
Proof.
  induction 1 as [|step steps Hstep _ IH]; intro acc; cbn [try_steps].
  - simpl. lia.
  - destruct (step acc) as [acc'|e] eqn:E.
    + specialize (IH acc'). apply Hstep in E. cbn [List.length]. lia.
    + cbn. lia.
Qed.

Ltac step_length :=
  intros acc acc'; unfold check_date, check_amount, check_vendor, bind;
  repeat match goal with
    | |- context [match ?c with Ok _ => _ | Raise _ => _ end] => destruct c
    | |- context [if ?b then _ else _] => destruct b
    end;
  let H := fresh "H" in
  intro H; try discriminate; injection H as <-;
  rewrite ?length_app; simpl; lia.

(** At most one discrepancy per compared field. *)
Lemma find_discrepancies_at_most_four (t l : pyval) :
  (List.length (_find_discrepancies float_of_str t l) <= 4)%nat.
Proof.
  unfold _find_discrepancies.
  apply (try_steps_length (discrepancy_steps float_of_str t l)).
  unfold discrepancy_steps.
  repeat (apply Forall_cons; [step_length|]). apply Forall_nil.
Qed.

Lemma discount_tenth (k : nat) :
  (discount k == 1 - (1 # 10) * inject_Z (Z.of_nat k))%Q.
Proof. unfold discount. ring. Qed.

Lemma discount_nonpositive (c : Q) (k : nat) :
  (10 <= k)%nat -> (0 < c)%Q -> (c * discount k <= 0)%Q.
Proof.
  intros Hk Hc. rewrite discount_tenth.
  assert (H : (10 <= inject_Z (Z.of_nat k))%Q).
  { change 10%Q with (inject_Z 10). rewrite <- Zle_Qle. lia. }
  setoid_replace (c * (1 - (1 # 10) * inject_Z (Z.of_nat k)))%Q
    with (- (c * ((1 # 10) * inject_Z (Z.of_nat k) - 1)))%Q by ring.
  assert (0 <= c * ((1 # 10) * inject_Z (Z.of_nat k) - 1))%Q; [|lra].
  apply Qmult_le_0_compat; lra.
Qed.

(** C5. When the two paths report the confidences [ct] and [cl], the
    selected one is [c] (the model-based one when it is strictly higher)
    and [k] field discrepancies are found, the combined confidence is
    [c * (1 - 0.1 * k)].  The factor has no floor: for [k >= 10] and
    [c > 0] the product is zero or negative.  (The four compared fields
    give [k <= 4].) *)
Theorem combine_ocr_results_confidence :
  forall (tesseract_results llm_results best : dict) (ct cl : Q),
    get_or "best_result" tesseract_results (PDict []) = PDict best ->
    get_or "confidence" best (PNum 0) = PNum ct ->
    get_or "confidence_score" llm_results (PNum 0) = PNum cl ->
    let discrepancies :=
      _find_discrepancies float_of_str
        (get_or "structured_data" tesseract_results (PDict []))
        (get_or "structured_data" llm_results (PDict [])) in
    let k := List.length discrepancies in
    let c := if Qltb ct cl then cl else ct in
    let combined :=
      _combine_ocr_results float_of_str (PDict tesseract_results) (PDict llm_results) in
    (exists q, lookup "confidence_score" combined = Some (PNum q) /\
               (q == c * (1 - (1 # 10) * inject_Z (Z.of_nat k)))%Q) /\
    lookup "discrepancies" combined = Some (PList discrepancies) /\
    (k <= 4)%nat /\
    (forall (c' : Q) (k' : nat),
       (10 <= k')%nat -> (0 < c')%Q -> (c' * discount k' <= 0)%Q).
Proof.
  intros dt dl db ct cl H1 H2 H3 discrepancies k c combined.
  split; [|split; [|split]].
  3: apply find_discrepancies_at_most_four.
  3: intros; apply discount_nonpositive; assumption.
  all: subst combined; unfold _combine_ocr_results;
    rewrite py_get_dict; cbn [bind]; rewrite H1;
    repeat (rewrite py_get_dict; cbn [bind]); rewrite H2, H3;
    cbn [bind py_gt catch]; fold discrepancies;
    subst k c; destruct discrepancies as [|d ds] eqn:E.
  - destruct (Qltb ct cl); eexists; (split; [reflexivity|]);
      unfold inject_Z; simpl; ring.
  - destruct (Qltb ct cl); eexists; (split; [reflexivity|]);
      rewrite discount_tenth; reflexivity.
  - destruct (Qltb ct cl); reflexivity.
  - destruct (Qltb ct cl); reflexivity.
Qed.

End OcrProperties.

(** ** Date normalization *)

Section DateProperties.

Local Open Scope N_scope.

Lemma N_of_digit_char (n : N) : n < 10 -> N_of_ascii (digit_char n) = 48 + n.
Proof.
  intro H. unfold digit_char. apply N_ascii_embedding. lia.
Qed.

Lemma is_digit_digit_char (n : N) : n < 10 -> is_digit (digit_char n) = true.
Proof.
  intro H. unfold is_digit. rewrite (N_of_digit_char n H).
  apply andb_true_intro. split; apply N.leb_le; lia.
Qed.

Lemma digit_val_digit_char (n : N) : n < 10 -> digit_val (digit_char n) = n.
Proof.
  intro H. unfold digit_val. rewrite (N_of_digit_char n H). lia.
Qed.



Lemma four_pad4 (y : N) (rest : string) :
  y < 10000 -> four (pad4 y ++ rest)%string = [(y, rest)].
Proof.
  intro H. unfold pad4. cbn [String.append]. unfold four.
  assert (A : y / 1000 < 10) by (apply N.Div0.div_lt_upper_bound; lia).
  assert (B : (y / 100) mod 10 < 10) by (apply N.mod_lt; lia).
  assert (C : (y / 10) mod 10 < 10) by (apply N.mod_lt; lia).
  assert (D : y mod 10 < 10) by (apply N.mod_lt; lia).
  rewrite !is_digit_digit_char, !digit_val_digit_char by assumption.
  cbn [andb]. do 3 f_equal.
  pose proof (N.div_mod y 10 ltac:(lia)) as E1.
  pose proof (N.div_mod (y / 10) 10 ltac:(lia)) as E2.
  pose proof (N.div_mod (y / 100) 10 ltac:(lia)) as E3.
  replace (y / 100) with (y / 10 / 10) in * by (rewrite N.Div0.div_div; reflexivity).
  replace (y / 1000) with (y / 10 / 10 / 10) in * by (rewrite !N.Div0.div_div; reflexivity).
  lia.
Qed.




Lemma valid_date_bounds (y m d : N) :
  valid_date y m d = true -> 1 <= y <= 9999 /\ 1 <= m <= 12 /\ 1 <= d <= 31.
Proof.
  unfold valid_date. rewrite !andb_true_iff, !N.leb_le.
  intros (((((A & B) & C) & D) & E) & F).
  assert (days_in_month y m <= 31).
  { unfold days_in_month.
    repeat match goal with
      | |- context [if ?c then _ else _] => destruct c
      end; lia. }
  lia.
Qed.





















End DateProperties.

(** ** Double-precision rounding *)

Section DoubleProperties.

Import Double.
Local Open Scope Q_scope.

Lemma rne_floor (z : Q) : (Qfloor z <= rne z <= Qfloor z + 1)%Z.
Proof.
  unfold rne. cbv zeta.
  destruct (Qcompare (z - inject_Z (Qfloor z)) (1 # 2)); [destruct (Z.even (Qfloor z))| |]; lia.
Qed.

Lemma rne_lower (z : Q) (K : Z) : inject_Z K <= z -> (K <= rne z)%Z.
Proof.
  intro H. pose proof (rne_floor z) as [L _].
  apply Qfloor_resp_le in H. rewrite Qfloor_Z in H. lia.
Qed.

Lemma rne_upper (z : Q) (K : Z) : z <= inject_Z K -> (rne z <= K)%Z.
Proof.
  intro H. pose proof (rne_floor z) as [_ U].
  pose proof (Qfloor_resp_le _ _ H) as F. rewrite Qfloor_Z in F.
  destruct (Z.eq_dec (Qfloor z) K) as [E|N]; [|lia].
  assert (Z0 : z == inject_Z K).
  { apply Qle_antisym; [exact H|]. rewrite <- E. apply Qfloor_le. }
  unfold rne. cbv zeta. rewrite E.
  assert (C : Qcompare (z - inject_Z K) (1 # 2) = Lt).
  { apply Qlt_alt. rewrite Z0. unfold Qminus. rewrite Qplus_opp_r. reflexivity. }
  rewrite C. lia.
Qed.

(** Rounding reaches an even integer from half a unit below it. *)
Lemma rne_ge_even (z : Q) (N : Z) :
  Z.even N = true -> ((N <= rne z)%Z <-> inject_Z N - (1 # 2) <= z).
Proof.
  intro Ev.
  pose proof (Qfloor_le z) as FL. pose proof (Qlt_floor z) as FU.
  rewrite inject_Z_plus in FU. change (inject_Z 1) with 1 in FU.
  unfold rne. cbv zeta.
  destruct (Qcompare (z - inject_Z (Qfloor z)) (1 # 2)) eqn:C.
  - apply Qeq_alt in C. destruct (Z.even (Qfloor z)) eqn:Ef.
    + split; intro H.
      * rewrite Zle_Qle in H. lra.
      * assert (L : inject_Z N < inject_Z (Qfloor z) + 2) by lra.
        change 2 with (inject_Z 2) in L. rewrite <- inject_Z_plus, <- Zlt_Qlt in L.
        destruct (Z.eq_dec N (Qfloor z + 1)) as [E|E]; [|lia].
        rewrite E, Z.even_add, Ef in Ev. discriminate.
    + split; intro H.
      * rewrite Zle_Qle, inject_Z_plus in H. change (inject_Z 1) with 1 in H. lra.
      * assert (L : inject_Z N < inject_Z (Qfloor z) + 2) by lra.
        change 2 with (inject_Z 2) in L. rewrite <- inject_Z_plus, <- Zlt_Qlt in L. lia.
  - apply Qlt_alt in C. split; intro H.
    + rewrite Zle_Qle in H. lra.
    + assert (L : inject_Z N < inject_Z (Qfloor z) + 1) by lra.
      change 1 with (inject_Z 1) in L. rewrite <- inject_Z_plus, <- Zlt_Qlt in L. lia.
  - apply Qgt_alt in C. split; intro H.
    + rewrite Zle_Qle, inject_Z_plus in H. change (inject_Z 1) with 1 in H. lra.
    + assert (L : inject_Z N < inject_Z (Qfloor z) + 2) by lra.
      change 2 with (inject_Z 2) in L. rewrite <- inject_Z_plus, <- Zlt_Qlt in L. lia.
Qed.

Lemma pow2_pos (k : Z) : (0 <= k)%Z -> 0 < inject_Z (2 ^ k).
Proof.
  intro H. change 0 with (inject_Z 0). rewrite <- Zlt_Qlt.
  apply Z.pow_pos_nonneg; lia.
Qed.

Lemma Qabs_of_pos (y : Q) : 0 < y -> Qabs y = y.
Proof.
  destruct y as [n d]. unfold Qlt, Qabs. cbn. intro H.
  rewrite Z.abs_eq by lia. reflexivity.
Qed.

(** A number of exponent at least 52 is at least [2^52]. *)
Lemma exponent_large (y : Q) (e : Z) :
  0 < y -> exponent y = e -> (52 <= e)%Z -> inject_Z (2 ^ e) <= y.
Proof.
  intros Hy He H52. unfold exponent in He.
  destruct (Qle_bool 1 y) eqn:E.
  - apply Qle_bool_iff in E.
    assert (F : (1 <= Qfloor y)%Z).
    { apply Qfloor_resp_le in E. exact E. }
    pose proof (Z.log2_spec (Qfloor y) ltac:(lia)) as [L _]. rewrite He in L.
    apply Qle_trans with (inject_Z (Qfloor y)); [|apply Qfloor_le].
    rewrite <- Zle_Qle. exact L.
  - pose proof (Z.log2_up_nonneg (Qceiling (/ y))). lia.
Qed.

(** The exponent of a number between two powers of two. *)
Lemma exponent_band (y : Q) (e : Z) :
  (0 <= e)%Z -> inject_Z (2 ^ e) <= y -> y < inject_Z (2 ^ (e + 1)) -> exponent y = e.
Proof.
  intros He L U. unfold exponent.
  assert (P : (1 <= 2 ^ e)%Z) by (pose proof (Z.pow_pos_nonneg 2 e); lia).
  assert (O : 1 <= y).
  { apply Qle_trans with (inject_Z (2 ^ e)); [|exact L].
    change 1 with (inject_Z 1). rewrite <- Zle_Qle. exact P. }
  apply Qle_bool_iff in O. rewrite O.
  apply Z.log2_unique; [exact He|]. split.
  - apply Qfloor_resp_le in L. rewrite Qfloor_Z in L. exact L.
  - replace (Z.succ e) with (e + 1)%Z by lia. rewrite Zlt_Qlt.
    apply Qle_lt_trans with y; [apply Qfloor_le|exact U].
Qed.

Lemma ceiling_between (x : Q) (lo hi : Z) :
  inject_Z lo < x -> x <= inject_Z hi -> (lo < Qceiling x <= hi)%Z.
Proof.
  intros L U. pose proof (Qle_ceiling x) as A. pose proof (Qceiling_lt x) as B.
  split.
  - rewrite Zlt_Qlt. apply Qlt_le_trans with x; assumption.
  - assert (C : inject_Z (Qceiling x - 1) < inject_Z hi)
      by (apply Qlt_le_trans with x; assumption).
    rewrite <- Zlt_Qlt in C. lia.
Qed.

(** The exponents of the numbers of [[1/4, 1/2)] and of [[1/2, 1)]. *)
Lemma exponent_quarter (y : Q) : 1 # 4 <= y -> y < 1 # 2 -> exponent y = (-2)%Z.
Proof.
  intros L U. unfold exponent.
  destruct (Qle_bool 1 y) eqn:E; [apply Qle_bool_iff in E; lra|].
  assert (Hy : 0 < y) by lra.
  assert (A : inject_Z 2 < / y).
  { apply Qlt_shift_inv_l; [exact Hy|]. change (inject_Z 2) with 2. lra. }
  assert (B : / y <= inject_Z 4).
  { apply Qle_shift_inv_r; [exact Hy|]. change (inject_Z 4) with 4. lra. }
  pose proof (ceiling_between _ _ _ A B) as C.
  assert (D : Qceiling (/ y) = 3%Z \/ Qceiling (/ y) = 4%Z) by lia.
  destruct D as [-> | ->]; reflexivity.
Qed.

Lemma exponent_half (y : Q) : 1 # 2 <= y -> y < 1 -> exponent y = (-1)%Z.
Proof.
  intros L U. unfold exponent.
  destruct (Qle_bool 1 y) eqn:E; [apply Qle_bool_iff in E; lra|].
  assert (Hy : 0 < y) by lra.
  assert (A : inject_Z 1 < / y).
  { apply Qlt_shift_inv_l; [exact Hy|]. change (inject_Z 1) with 1. lra. }
  assert (B : / y <= inject_Z 2).
  { apply Qle_shift_inv_r; [exact Hy|]. change (inject_Z 2) with 2. lra. }
  pose proof (ceiling_between _ _ _ A B) as C.
  assert (D : Qceiling (/ y) = 2%Z) by lia.
  rewrite D. reflexivity.
Qed.

(** Around a normal number of exponent [e] below 52 the doubles are the
    multiples of [1 / 2^(52-e)]. *)
Lemma round_band (y : Q) (e : Z) :
  (-1022 <= e < 52)%Z -> 0 < y -> exponent y = e ->
  round y = inject_Z (rne (y * inject_Z (2 ^ (52 - e)))) / inject_Z (2 ^ (52 - e)).
Proof.
  intros He Hy E. unfold round, last_bit. cbv zeta. rewrite (Qabs_of_pos y Hy), E.
  replace (Z.max e (-1022) - 52)%Z with (e - 52)%Z by lia.
  unfold scale, unscale.
  destruct (0 <=? e - 52)%Z eqn:K; [apply Z.leb_le in K; lia|].
  replace (- (e - 52))%Z with (52 - e)%Z by lia. reflexivity.
Qed.

Lemma round_lower (y : Q) (K : Z) :
  (1 <= K <= 2 ^ 52)%Z -> inject_Z K <= y -> inject_Z K <= round y.
Proof.
  intros HK H.
  assert (Hy : 0 < y).
  { apply Qlt_le_trans with (inject_Z K); [|exact H].
    change 0 with (inject_Z 0). rewrite <- Zlt_Qlt. lia. }
  unfold round. cbv zeta. set (k := last_bit y).
  unfold scale, unscale. destruct (0 <=? k)%Z eqn:Ek.
  - apply Z.leb_le in Ek.
    assert (Ee : exponent y = (k + 52)%Z).
    { unfold k, last_bit in *. rewrite (Qabs_of_pos y Hy) in *. lia. }
    pose proof (exponent_large y (k + 52) Hy Ee ltac:(lia)) as L.
    pose proof (pow2_pos k Ek) as P.
    assert (R : (2 ^ 52 <= rne (y / inject_Z (2 ^ k)))%Z).
    { apply rne_lower. apply Qle_shift_div_l; [exact P|].
      rewrite <- inject_Z_mult, <- Z.pow_add_r by lia.
      replace (52 + k)%Z with (k + 52)%Z by lia. exact L. }
    rewrite <- Zle_Qle.
    assert (1 <= 2 ^ k)%Z by (apply Z.lt_pred_le; apply Z.pow_pos_nonneg; lia).
    nia.
  - apply Z.leb_gt in Ek.
    pose proof (pow2_pos (- k) ltac:(lia)) as P.
    assert (R : (K * 2 ^ (- k) <= rne (y * inject_Z (2 ^ (- k))))%Z).
    { apply rne_lower. rewrite inject_Z_mult.
      apply Qmult_le_compat_r; [exact H|apply Qlt_le_weak; exact P]. }
    apply Qle_shift_div_l; [exact P|].
    rewrite <- inject_Z_mult, <- Zle_Qle. exact R.
Qed.

Lemma round_upper (y : Q) (K : Z) :
  (0 <= K < 2 ^ 52)%Z -> y <= inject_Z K -> round y <= inject_Z K.
Proof.
  intros HK H.
  unfold round. cbv zeta. set (k := last_bit y).
  unfold scale, unscale. destruct (0 <=? k)%Z eqn:Ek.
  - apply Z.leb_le in Ek. pose proof (pow2_pos k Ek) as P.
    destruct (Qlt_le_dec 0 y) as [Hy | Hy].
    + exfalso.
      assert (Ee : exponent y = (k + 52)%Z).
      { unfold k, last_bit in *. rewrite (Qabs_of_pos y Hy) in *. lia. }
      pose proof (exponent_large y (k + 52) Hy Ee ltac:(lia)) as L.
      pose proof (Qle_trans _ _ _ L H) as X. rewrite <- Zle_Qle in X.
      assert (2 ^ 52 <= 2 ^ (k + 52))%Z by (apply Z.pow_le_mono_r; lia).
      lia.
    + assert (R : (rne (y / inject_Z (2 ^ k)) <= 0)%Z).
      { apply rne_upper. apply Qle_shift_div_r; [exact P|].
        rewrite Qmult_0_l. exact Hy. }
      rewrite <- Zle_Qle.
      assert (0 < 2 ^ k)%Z by (apply Z.pow_pos_nonneg; lia). nia.
  - apply Z.leb_gt in Ek.
    pose proof (pow2_pos (- k) ltac:(lia)) as P.
    assert (R : (rne (y * inject_Z (2 ^ (- k))) <= K * 2 ^ (- k))%Z).
    { apply rne_upper. rewrite inject_Z_mult.
      apply Qmult_le_compat_r; [exact H|apply Qlt_le_weak; exact P]. }
    apply Qle_shift_div_r; [exact P|].
    rewrite <- inject_Z_mult, <- Zle_Qle. exact R.
Qed.

Lemma round_nonneg (y : Q) : 0 <= y -> 0 <= round y.
Proof.
  intro H. unfold round. cbv zeta. set (k := last_bit y).
  unfold scale, unscale. destruct (0 <=? k)%Z eqn:Ek.
  - apply Z.leb_le in Ek. pose proof (pow2_pos k Ek) as P.
    assert (R : (0 <= rne (y / inject_Z (2 ^ k)))%Z).
    { apply rne_lower. apply Qle_shift_div_l; [exact P|].
      rewrite Qmult_0_l. exact H. }
    change 0 with (inject_Z 0). rewrite <- Zle_Qle.
    assert (0 < 2 ^ k)%Z by (apply Z.pow_pos_nonneg; lia). nia.
  - apply Z.leb_gt in Ek.
    pose proof (pow2_pos (- k) ltac:(lia)) as P.
    assert (R : (0 <= rne (y * inject_Z (2 ^ (- k))))%Z).
    { apply rne_lower. change (inject_Z 0) with 0.
      apply Qmult_le_0_compat; [exact H|apply Qlt_le_weak; exact P]. }
    apply Qle_shift_div_l; [exact P|].
    rewrite Qmult_0_l. change 0 with (inject_Z 0). rewrite <- Zle_Qle. exact R.
Qed.

(** The rounding reaches an integer [K] of exponent [e], above [2^e],
    exactly from half a step of the doubles below [K]. *)
Lemma round_ge (y : Q) (K e : Z) :
  (0 <= e < 52)%Z -> (2 ^ e < K <= 2 ^ (e + 1))%Z ->
  (inject_Z K <= round y <-> inject_Z K - 1 / inject_Z (2 ^ (53 - e)) <= y).
Proof.
  intros He HK.
  set (s := (2 ^ (52 - e))%Z).
  assert (Hs : (0 < s)%Z) by (apply Z.pow_pos_nonneg; lia).
  assert (S2 : (2 ^ (53 - e) = 2 * s)%Z).
  { unfold s. replace (53 - e)%Z with (1 + (52 - e))%Z by lia.
    rewrite Z.pow_add_r by lia. reflexivity. }
  assert (P : 0 < inject_Z s) by (change 0 with (inject_Z 0); rewrite <- Zlt_Qlt; exact Hs).
  assert (P2 : 0 < inject_Z (2 ^ e)) by (apply pow2_pos; lia).
  assert (Eps : 1 / inject_Z (2 ^ (53 - e)) == (1 # 2) / inject_Z s).
  { rewrite S2, inject_Z_mult. change (inject_Z 2) with 2. field. lra. }
  assert (Eps1 : 0 < (1 # 2) / inject_Z s <= 1 # 2).
  { split.
    - apply Qlt_shift_div_l; [exact P|]. lra.
    - apply Qle_shift_div_r; [exact P|].
      assert (1 <= inject_Z s) by (change 1 with (inject_Z 1); rewrite <- Zle_Qle; lia).
      lra. }
  rewrite Eps.
  assert (T : (2 ^ e < 2 ^ 52)%Z) by (apply Z.pow_lt_mono_r; lia).
  assert (T1 : (2 ^ (e + 1) <= 2 ^ 52)%Z) by (apply Z.pow_le_mono_r; lia).
  assert (KQ : inject_Z (2 ^ e) + 1 <= inject_Z K).
  { change 1 with (inject_Z 1). rewrite <- inject_Z_plus, <- Zle_Qle. lia. }
  destruct (Qlt_le_dec y (inject_Z (2 ^ e))) as [Lo|Lo].
  - pose proof (round_upper y (2 ^ e) ltac:(lia) (Qlt_le_weak _ _ Lo)) as U.
    split; intro H; exfalso; lra.
  - destruct (Qlt_le_dec y (inject_Z (2 ^ (e + 1)))) as [Hi|Hi].
    + assert (Hy : 0 < y) by lra.
      pose proof (exponent_band y e ltac:(lia) Lo Hi) as E.
      rewrite (round_band y e ltac:(lia) Hy E). fold s.
      assert (Ev : Z.even (K * s) = true).
      { unfold s. replace (52 - e)%Z with (1 + (51 - e))%Z by lia.
        rewrite Z.pow_add_r by lia. rewrite Z.even_mul, Z.even_mul. cbn.
        apply orb_true_r. }
      pose proof (rne_ge_even (y * inject_Z s) (K * s) Ev) as G.
      rewrite inject_Z_mult in G.
      split; intro H.
      * assert (H1 : (K * s <= rne (y * inject_Z s))%Z).
        { rewrite Zle_Qle, inject_Z_mult.
          apply (Qmult_le_compat_r _ _ (inject_Z s)) in H; [|apply Qlt_le_weak; exact P].
          setoid_replace (inject_Z (rne (y * inject_Z s)) / inject_Z s * inject_Z s)
            with (inject_Z (rne (y * inject_Z s))) in H by (field; lra).
          exact H. }
        apply G in H1.
        apply Qmult_le_r with (inject_Z s); [exact P|].
        setoid_replace ((inject_Z K - (1 # 2) / inject_Z s) * inject_Z s)
          with (inject_Z K * inject_Z s - (1 # 2)) by (field; lra).
        exact H1.
      * apply Qle_shift_div_l; [exact P|].
        rewrite <- inject_Z_mult, <- Zle_Qle. apply G.
        apply (Qmult_le_compat_r _ _ (inject_Z s)) in H; [|apply Qlt_le_weak; exact P].
        setoid_replace ((inject_Z K - (1 # 2) / inject_Z s) * inject_Z s)
          with (inject_Z K * inject_Z s - (1 # 2)) in H by (field; lra).
        exact H.
    + assert (KH : inject_Z K <= inject_Z (2 ^ (e + 1))) by (rewrite <- Zle_Qle; lia).
      assert (K1 : (1 <= K)%Z) by (pose proof (Z.pow_pos_nonneg 2 e); lia).
      pose proof (round_lower y K ltac:(lia) ltac:(lra)) as L.
      split; intro H; [lra|exact L].
Qed.

End DoubleProperties.

(** ** Summary *)

Lemma quot_ge (a : Z) (b : positive) (k : Z) :
  (0 < k)%Z -> ((k <= Z.quot a (Zpos b))%Z <-> (k * Zpos b <= a)%Z).
Proof.
  intro Hk. split; intro H.
  - destruct (Z.lt_ge_cases a (k * Zpos b)) as [L|G]; [exfalso|exact G].
    destruct (Z.lt_ge_cases a 0) as [N|P].
    + assert (Z.quot a (Zpos b) <= 0)%Z by (apply Z.quot_le_upper_bound; lia). lia.
    + assert (Z.quot a (Zpos b) < k)%Z by (apply Z.quot_lt_upper_bound; lia). lia.
  - apply Z.quot_le_lower_bound; lia.
Qed.

Lemma percentage_ge (p : Q) (k : Z) :
  (0 < k)%Z -> ((k <=? py_int (p * 100))%Z = true <-> (inject_Z k / 100 <= p)%Q).
Proof.
  intro Hk. rewrite Z.leb_le. unfold py_int.
  destruct p as [n d]. cbn [Qmult Qnum Qden]. rewrite quot_ge by exact Hk.
  unfold Qle, Qdiv, Qinv, Qmult, inject_Z. cbn [Qnum Qden]. lia.
Qed.

Lemma assessment_tiers (p : Q) :
  ((8 # 10 <= p)%Q -> assessment_of (py_int (p * 100)) = "HIGH RISK") /\
  ((5 # 10 <= p)%Q -> (p < 8 # 10)%Q -> assessment_of (py_int (p * 100)) = "MODERATE RISK") /\
  ((p < 5 # 10)%Q -> assessment_of (py_int (p * 100)) = "LOW RISK").
Proof.
  unfold assessment_of.
  pose proof (percentage_ge p 80 eq_refl) as H80.
  pose proof (percentage_ge p 50 eq_refl) as H50.
  assert (E80 : (inject_Z 80 / 100 == 8 # 10)%Q) by reflexivity.
  assert (E50 : (inject_Z 50 / 100 == 5 # 10)%Q) by reflexivity.
  rewrite E80 in H80. rewrite E50 in H50.
  destruct (80 <=? py_int (p * 100))%Z; destruct (50 <=? py_int (p * 100))%Z;
    (split; [|split]); intros; try reflexivity; exfalso;
    repeat match goal with
      | H : true = true <-> _ |- _ => destruct H as [H _]; specialize (H eq_refl)
      | H : false = true <-> _ |- _ => destruct H as [_ H]
      end;
    try match goal with
      | H : (?a <= p)%Q -> false = true |- _ =>
          assert (a <= p)%Q by lra; intuition discriminate
      end; lra.
Qed.

Lemma summary_factors_lines (self : detector) :
  summary_factors self =
  section_lines ("Key Risk Factors:" ++ nl)%string (firstn 3 (risk_factors self)).
Proof.
  unfold summary_factors. destruct (risk_factors self); reflexivity.
Qed.

Lemma summary_image_lines (self : detector) (lines : list piece) :
  summary_image self = Ok lines ->
  exists shown,
    lines = section_lines (nl ++ "Image Analysis:" ++ nl)%string shown /\
    (List.length shown <= 2)%nat /\
    (forall l, lookup "manipulation_indicators" (image_analysis_results self) = Some (PList l) ->
               shown = firstn 2 l).
Proof.
  unfold summary_image.
  destruct (lookup "manipulation_indicators" (image_analysis_results self)) as [v|].
  - destruct v as [| b | q | s | l | d]; cbn [truthy py_slice_iter bind].
    + intro H. injection H as <-. exists []. repeat split; [simpl; lia|discriminate].
    + destruct b; [discriminate|]. intro H. injection H as <-.
      exists []. repeat split; [simpl; lia|discriminate].
    + destruct (negb (Qeq_bool q 0)); [discriminate|]. intro H. injection H as <-.
      exists []. repeat split; [simpl; lia|discriminate].
    + destruct s as [|c s]; cbn [String.eqb negb].
      * intro H. injection H as <-. exists []. repeat split; [simpl; lia|discriminate].
      * intro H. injection H as <-. exists (firstn 2 (chars (String c s))).
        repeat split; [apply firstn_le_length|discriminate].
    + destruct l as [|x l].
      * intro H. injection H as <-. exists [].
        repeat split; [simpl; lia|]. intros l' E. injection E as <-. reflexivity.
      * intro H. injection H as <-. exists (firstn 2 (x :: l)).
        repeat split; [apply firstn_le_length|]. intros l' E. injection E as <-. reflexivity.
    + destruct d; [|discriminate]. intro H. injection H as <-.
      exists []. repeat split; [simpl; lia|discriminate].
  - intro H. injection H as <-. exists []. repeat split; [simpl; lia|discriminate].
Qed.

(** [int] reaches a positive integer exactly when the float does. *)
Lemma py_int_ge (r : Q) (k : Z) :
  (0 < k)%Z -> ((k <= py_int r)%Z <-> (inject_Z k <= r)%Q).
Proof.
  intro Hk. unfold py_int. destruct r as [n d]. cbn [Qnum Qden].
  rewrite quot_ge by exact Hk. unfold Qle, inject_Z. cbn [Qnum Qden]. lia.
Qed.

Lemma py_int_bounds (r : Q) (K : Z) :
  (0 <= r)%Q -> (r <= inject_Z K)%Q -> (0 <= py_int r <= K)%Z.
Proof.
  unfold py_int. destruct r as [n d]. unfold Qle, inject_Z. cbn [Qnum Qden].
  intros L U. split.
  - apply Z.quot_pos; lia.
  - apply Z.quot_le_upper_bound; lia.
Qed.

Lemma percentage_value (x : Q) (n : Z) :
  percentage x = Ok n -> n = py_int (Double.round (x * 100)).
Proof.
  unfold percentage. cbv zeta.
  destruct (Double.overflows (Double.round (x * 100))); [discriminate|].
  intro H. injection H as <-. reflexivity.
Qed.

(** The percentage of a score between 0 and [K / 100] is an integer
    between 0 and [K]. *)
Lemma percentage_bounds (x : Q) (K : Z) :
  (0 <= K < 2 ^ 52)%Z -> (0 <= x)%Q -> (x * 100 <= inject_Z K)%Q ->
  exists n, percentage x = Ok n /\ (0 <= n <= K)%Z.
Proof.
  intros HK L U.
  assert (L' : (0 <= x * 100)%Q) by lra.
  pose proof (round_nonneg _ L') as A.
  pose proof (round_upper _ K HK U) as B.
  unfold percentage. cbv zeta.
  destruct (Double.overflows (Double.round (x * 100))) eqn:O.
  - exfalso. unfold Double.overflows in O. apply Qle_bool_iff in O.
    rewrite (Qabs_pos _ A) in O.
    pose proof (Qle_trans _ _ _ O B) as C. rewrite <- Zle_Qle in C.
    assert (2 ^ 52 <= 2 ^ 1024)%Z by (apply Z.pow_le_mono_r; lia).
    lia.
  - eexists. split; [reflexivity|]. apply py_int_bounds; assumption.
Qed.

Lemma thresholds_order :
  (moderate_threshold < 5 # 10)%Q /\
  (5 # 10 < high_threshold)%Q /\
  (high_threshold <= least_high_double)%Q /\
  (least_high_double < 8 # 10)%Q.
Proof.
  split; [reflexivity|]. split; [reflexivity|]. split; [discriminate|reflexivity].
Qed.

(** The percentage is at least 80 exactly from [high_threshold], and at
    least 50 exactly from [moderate_threshold]. *)
Lemma percentage_high (p : Q) (fp : Z) :
  percentage p = Ok fp -> ((80 <= fp)%Z <-> (high_threshold <= p)%Q).
Proof.
  intro H. rewrite (percentage_value p fp H).
  rewrite py_int_ge by lia.
  rewrite (round_ge (p * 100) 80 6) by (cbn; lia).
  unfold high_threshold.
  change (53 - 6)%Z with 47%Z. change (inject_Z 80) with 80%Q.
  set (eps := (1 / inject_Z (2 ^ 47))%Q).
  split; intro G.
  - apply Qle_shift_div_r; [reflexivity|exact G].
  - apply (Qmult_le_compat_r _ _ 100) in G; [|discriminate].
    setoid_replace ((80 - eps) / 100 * 100)%Q with (80 - eps)%Q in G by (field).
    exact G.
Qed.

Lemma percentage_moderate (p : Q) (fp : Z) :
  percentage p = Ok fp -> ((50 <= fp)%Z <-> (moderate_threshold <= p)%Q).
Proof.
  intro H. rewrite (percentage_value p fp H).
  rewrite py_int_ge by lia.
  rewrite (round_ge (p * 100) 50 5) by (cbn; lia).
  unfold moderate_threshold.
  change (53 - 5)%Z with 48%Z. change (inject_Z 50) with 50%Q.
  set (eps := (1 / inject_Z (2 ^ 48))%Q).
  split; intro G.
  - apply Qle_shift_div_r; [reflexivity|exact G].
  - apply (Qmult_le_compat_r _ _ 100) in G; [|discriminate].
    setoid_replace ((50 - eps) / 100 * 100)%Q with (50 - eps)%Q in G by (field).
    exact G.
Qed.

(** A double is a multiple of the step of the doubles around it. *)
Lemma representable_grid (p : Q) (e : Z) :
  (-1022 <= e < 52)%Z -> (0 < p)%Q -> Double.exponent p = e -> Double.representable p ->
  exists n : Z, (p * inject_Z (2 ^ (52 - e)) == inject_Z n)%Q.
Proof.
  intros He Hp E R. unfold Double.representable in R.
  rewrite (round_band p e He Hp E) in R.
  pose proof (pow2_pos (52 - e) ltac:(lia)) as P.
  exists (Double.rne (p * inject_Z (2 ^ (52 - e)))).
  rewrite <- R at 1. field. lra.
Qed.

(** No double lies between [moderate_threshold] and 0.5, and none
    between [high_threshold] and [least_high_double]. *)
Lemma double_below_half (p : Q) :
  Double.representable p -> (p < 5 # 10)%Q -> (p < moderate_threshold)%Q.
Proof.
  intros R H.
  assert (M : (1 # 4 < moderate_threshold)%Q) by reflexivity.
  destruct (Qlt_le_dec p (1 # 4)) as [Lo|Lo]; [lra|].
  assert (U : (p < 1 # 2)%Q) by lra.
  destruct (representable_grid p (-2) ltac:(lia) ltac:(lra)
              (exponent_quarter p Lo U) R) as [n G].
  change (52 - -2)%Z with 54%Z in G.
  assert (N : (inject_Z n < inject_Z (2 ^ 53))%Q).
  { rewrite <- G. apply Qlt_le_trans with ((1 # 2) * inject_Z (2 ^ 54))%Q; [|discriminate].
    apply Qmult_lt_compat_r; [reflexivity|exact U]. }
  rewrite <- Zlt_Qlt in N.
  assert (N' : (n <= 2 ^ 53 - 1)%Z) by lia.
  rewrite Zle_Qle, <- G in N'.
  apply Qle_lt_trans with (inject_Z (2 ^ 53 - 1) / inject_Z (2 ^ 54))%Q; [|reflexivity].
  apply Qle_shift_div_l; [reflexivity|exact N'].
Qed.

Lemma double_high (p : Q) :
  Double.representable p -> (high_threshold <= p)%Q -> (least_high_double <= p)%Q.
Proof.
  intros R H. pose proof thresholds_order as (_ & T1 & _ & T3).
  destruct (Qlt_le_dec p 1) as [Lo|Lo]; [|lra].
  assert (L : (1 # 2 <= p)%Q) by lra.
  destruct (representable_grid p (-1) ltac:(lia) ltac:(lra)
              (exponent_half p L Lo) R) as [n G].
  change (52 - -1)%Z with 53%Z in G.
  assert (N : (inject_Z 7205759403792792 < inject_Z n)%Q).
  { rewrite <- G.
    apply Qlt_le_trans with (high_threshold * inject_Z (2 ^ 53))%Q; [reflexivity|].
    apply Qmult_le_compat_r; [exact H|discriminate]. }
  rewrite <- Zlt_Qlt in N.
  assert (N' : (7205759403792793 <= n)%Z) by lia.
  rewrite Zle_Qle, <- G in N'.
  unfold least_high_double.
  setoid_replace (7205759403792793 # 9007199254740992)%Q
    with (inject_Z 7205759403792793 / inject_Z (2 ^ 53))%Q by reflexivity.
  apply Qle_shift_div_r; [reflexivity|exact N'].
Qed.

Lemma assessment_cases (fp : Z) :
  (assessment_of fp = "HIGH RISK" <-> (80 <= fp)%Z) /\
  (assessment_of fp = "MODERATE RISK" <-> (50 <= fp < 80)%Z) /\
  (assessment_of fp = "LOW RISK" <-> (fp < 50)%Z).
Proof.
  unfold assessment_of.
  destruct (80 <=? fp)%Z eqn:A; [apply Z.leb_le in A|apply Z.leb_gt in A];
    [|destruct (50 <=? fp)%Z eqn:B; [apply Z.leb_le in B|apply Z.leb_gt in B]];
    repeat split; intros; try reflexivity; try discriminate; lia.
Qed.

Lemma date_highlight_shape (vr : dict) (date_line : list piece) :
  date_highlight vr = Ok date_line ->
  date_line = [] \/ exists email receipt, date_line = date_mismatch_line email receipt.
Proof.
  unfold date_highlight, bind.
  destruct (lookup "inconsistent_dates" vr) as [date_info|];
    [|intro H; injection H as <-; left; reflexivity].
  destruct (py_get date_info "date_mismatch" PNone) as [mismatch|]; [|discriminate].
  destruct (truthy mismatch); [|intro H; injection H as <-; left; reflexivity].
  destruct (py_get date_info "email_date" PNone) as [email|]; [|discriminate].
  destruct (py_get date_info "receipt_date" PNone) as [receipt|]; [|discriminate].
  intro H. injection H as <-. right. exists email, receipt. reflexivity.
Qed.

Lemma amount_highlight_shape (vr : dict) (amount_line : list piece) :
  amount_highlight vr = Ok amount_line ->
  amount_line = [] \/
  exists expected receipt, amount_line = amount_mismatch_line expected receipt.
Proof.
  unfold amount_highlight, bind.
  destruct (lookup "amount_verification" vr) as [amount_info|];
    [|intro H; injection H as <-; left; reflexivity].
  destruct (py_get amount_info "amount_match" PNone) as [matched|]; [|discriminate].
  destruct (truthy matched); [intro H; injection H as <-; left; reflexivity|].
  destruct (py_get amount_info "expense_data_amount" PNone) as [expected|]; [|discriminate].
  destruct (py_get amount_info "receipt_amount" PNone) as [receipt|]; [|discriminate].
  intro H. injection H as <-. right. exists expected, receipt. reflexivity.
Qed.

Lemma summary_highlights_lines (self : detector) (lines : list piece) :
  summary_highlights self = Ok lines ->
  exists date_line amount_line,
    date_highlight (verification_results self) = Ok date_line /\
    amount_highlight (verification_results self) = Ok amount_line /\
    lines = highlight_lines (verification_results self) date_line amount_line.
Proof.
  unfold summary_highlights, bind.
  destruct (verification_results self) as [|x vr] eqn:E.
  - intro H. injection H as <-. exists [], []. repeat split.
  - destruct (date_highlight (x :: vr)) as [d|]; [|discriminate].
    destruct (amount_highlight (x :: vr)) as [a|]; [|discriminate].
    intro H. injection H as <-. exists d, a. repeat split.
Qed.

(** The labels of the summary, by the fraud probability. *)
Lemma summary_labels (p : Q) (fp : Z) :
  percentage p = Ok fp ->
  (assessment_of fp = "HIGH RISK" <-> (high_threshold <= p)%Q) /\
  (assessment_of fp = "MODERATE RISK" <->
     (moderate_threshold <= p)%Q /\ (p < high_threshold)%Q) /\
  (assessment_of fp = "LOW RISK" <-> (p < moderate_threshold)%Q).
Proof.
  intro H. pose proof (percentage_high p fp H) as H80.
  pose proof (percentage_moderate p fp H) as H50.
  destruct (assessment_cases fp) as (A & B & C).
  rewrite A, B, C, H80.
  split; [tauto|]. split.
  - rewrite <- H50. split.
    + intros [X Y]. split; [exact X|]. apply Qnot_le_lt. intro Z'. apply H80 in Z'. lia.
    + intros [X Y]. split; [exact X|].
      apply Z.lt_nge. intro Z'. apply H80 in Z'. apply (Qlt_not_le _ _ Y Z').
  - split.
    + intro X. apply Qnot_le_lt. intro Z'. apply H50 in Z'. lia.
    + intro X. apply Z.lt_nge. intro Z'. apply H50 in Z'. apply (Qlt_not_le _ _ X Z').
Qed.

(** The labels when the fraud probability is a double. *)
Lemma summary_labels_double (p : Q) (fp : Z) :
  percentage p = Ok fp -> Double.representable p ->
  (assessment_of fp = "HIGH RISK" <-> (least_high_double <= p)%Q) /\
  (assessment_of fp = "MODERATE RISK" <->
     (5 # 10 <= p)%Q /\ (p < least_high_double)%Q) /\
  (assessment_of fp = "LOW RISK" <-> (p < 5 # 10)%Q).
Proof.
  intros H R. destruct (summary_labels p fp H) as (A & B & C).
  pose proof thresholds_order as (T0 & T1 & T2 & T3).
  assert (Hi : (high_threshold <= p)%Q <-> (least_high_double <= p)%Q).
  { split; [apply double_high; exact R|intro; lra]. }
  assert (Lo : (p < moderate_threshold)%Q <-> (p < 5 # 10)%Q).
  { split; [intro; lra|apply double_below_half; exact R]. }
  rewrite A, B, C. split; [exact Hi|]. split; [|exact Lo].
  split; intros [X Y]; split.
  - apply Qnot_lt_le. intro Z'. apply Lo in Z'. apply (Qlt_not_le _ _ Z' X).
  - apply Qnot_le_lt. intro Z'. apply Hi in Z'. apply (Qlt_not_le _ _ Y Z').
  - apply Qnot_lt_le. intro Z'. apply Lo in Z'. apply (Qlt_not_le _ _ Z' X).
  - apply Qnot_le_lt. intro Z'. apply Hi in Z'. apply (Qlt_not_le _ _ Y Z').
Qed.

(** C7, as amended.  Unless building the report raises, in which case the
    summary is the fixed text "Error generating summary", the summary is
    the head, the section of the first 3 accumulated risk factors at
    most, the verification highlights (a title and at most the line of
    the date mismatch and the line of the amount mismatch), and the
    section of the first 2 manipulation indicators at most.  The label
    follows the printed percentage [int(fraud_probability * 100)], a
    product in double precision: HIGH RISK exactly from [high_threshold],
    which lies below 0.8, LOW RISK exactly below [moderate_threshold],
    which lies below 0.5, MODERATE RISK between the two.  For a fraud
    probability that is a double, LOW RISK is exactly below 0.5 and HIGH
    RISK is exactly from [least_high_double], the double printed
    0.7999999999999999.  With scores between 0 and 1 the percentages do
    not raise. *)
Theorem generate_summary_report :
  (forall (self : detector) (overall_risk_score fraud_probability : Q),
    let text := _generate_summary self overall_risk_score fraud_probability in
    (raised (summary_body self overall_risk_score fraud_probability) = true ->
       text = error_summary) /\
    (raised (summary_body self overall_risk_score fraud_probability) = false ->
       exists (fraud_percentage risk_percentage : Z) (date_line amount_line : list piece)
              (shown : list pyval),
         percentage fraud_probability = Ok fraud_percentage /\
         percentage overall_risk_score = Ok risk_percentage /\
         date_highlight (verification_results self) = Ok date_line /\
         amount_highlight (verification_results self) = Ok amount_line /\
         text = report (assessment_of fraud_percentage) fraud_percentage risk_percentage
                  (firstn 3 (risk_factors self))
                  (highlight_lines (verification_results self) date_line amount_line)
                  shown /\
         (date_line = [] \/
          exists email receipt, date_line = date_mismatch_line email receipt) /\
         (amount_line = [] \/
          exists expected receipt, amount_line = amount_mismatch_line expected receipt) /\
         (assessment_of fraud_percentage = "HIGH RISK" <->
            (high_threshold <= fraud_probability)%Q) /\
         (assessment_of fraud_percentage = "MODERATE RISK" <->
            (moderate_threshold <= fraud_probability)%Q /\
            (fraud_probability < high_threshold)%Q) /\
         (assessment_of fraud_percentage = "LOW RISK" <->
            (fraud_probability < moderate_threshold)%Q) /\
         ((8 # 10 <= fraud_probability)%Q -> assessment_of fraud_percentage = "HIGH RISK") /\
         (Double.representable fraud_probability ->
            (assessment_of fraud_percentage = "HIGH RISK" <->
               (least_high_double <= fraud_probability)%Q) /\
            (assessment_of fraud_percentage = "MODERATE RISK" <->
               (5 # 10 <= fraud_probability)%Q /\
               (fraud_probability < least_high_double)%Q) /\
            (assessment_of fraud_percentage = "LOW RISK" <->
               (fraud_probability < 5 # 10)%Q)) /\
         (List.length (firstn 3 (risk_factors self)) <= 3)%nat /\
         (List.length shown <= 2)%nat /\
         (forall l,
            lookup "manipulation_indicators" (image_analysis_results self) = Some (PList l) ->
            shown = firstn 2 l))) /\
  (forall x : Q, (0 <= x <= 1)%Q ->
     exists n, percentage x = Ok n /\ (0 <= n <= 100)%Z) /\
  (moderate_threshold < 5 # 10)%Q /\
  (5 # 10 < high_threshold)%Q /\
  (high_threshold <= least_high_double)%Q /\
  (least_high_double < 8 # 10)%Q.
Proof.
  split; [|split; [|exact thresholds_order]].
  - intros self r p text. subst text.
    unfold _generate_summary, summary_body, summary_head, bind.
    destruct (percentage r) as [rp|e] eqn:Er; cbn [raised catch];
      [|split; [reflexivity|discriminate]].
    destruct (percentage p) as [fp|e] eqn:Ep; cbn [raised catch];
      [|split; [reflexivity|discriminate]].
    destruct (summary_highlights self) as [h|e] eqn:Eh; cbn [raised catch];
      [|split; [reflexivity|discriminate]].
    destruct (summary_image self) as [i|e] eqn:Ei; cbn [raised catch];
      [|split; [reflexivity|discriminate]].
    split; [discriminate|]. intros _.
    destruct (summary_image_lines self i Ei) as (shown & -> & Hlen & Hshown).
    destruct (summary_highlights_lines self h Eh) as (d & a & Ed & Ea & ->).
    destruct (summary_labels p fp Ep) as (L1 & L2 & L3).
    pose proof thresholds_order as (_ & _ & T2 & T3).
    exists fp, rp, d, a, shown.
    split; [reflexivity|]. split; [reflexivity|].
    split; [exact Ed|]. split; [exact Ea|].
    split; [rewrite summary_factors_lines; reflexivity|].
    split; [exact (date_highlight_shape _ _ Ed)|].
    split; [exact (amount_highlight_shape _ _ Ea)|].
    split; [exact L1|]. split; [exact L2|]. split; [exact L3|].
    split; [intro G; apply L1; lra|].
    split; [intro R; exact (summary_labels_double p fp Ep R)|].
    split; [apply firstn_le_length|]. split; [exact Hlen|exact Hshown].
  - intros x [L U].
    apply (percentage_bounds x 100); [split; [lia|reflexivity]|exact L|].
    change (inject_Z 100) with 100%Q. lra.
Qed.

(** ** Dictionaries *)

Lemma key_eqb_str (k : string) (k' : pykey) :
  key_eqb (KStr k) k' = true -> k' = KStr k.
Proof.
  destruct k'; cbn; try discriminate. intro H. apply String.eqb_eq in H. congruence.
Qed.

Lemma lookup_setitem_same (k : string) (v : pyval) (d : dict) :
  lookup k (setitem k v d) = Some v.
Proof.
  unfold lookup, setitem. induction d as [|[k' v'] d IH]; cbn [assoc_set assoc_get].
  - cbn. rewrite String.eqb_refl. reflexivity.
  - destruct (key_eqb (KStr k) k') eqn:E; cbn [assoc_get]; rewrite E; [reflexivity|exact IH].
Qed.

Lemma lookup_setitem_other (k k' : string) (v : pyval) (d : dict) :
  k <> k' -> lookup k (setitem k' v d) = lookup k d.
Proof.
  intro H. unfold lookup, setitem.
  induction d as [|[k0 v0] d IH]; cbn [assoc_set assoc_get].
  - cbn. destruct (String.eqb k k') eqn:E; [|reflexivity].
    apply String.eqb_eq in E. contradiction.
  - destruct (key_eqb (KStr k') k0) eqn:E; cbn [assoc_get].
    + apply key_eqb_str in E. subst k0. cbn.
      destruct (String.eqb k k') eqn:E'; [|reflexivity].
      apply String.eqb_eq in E'. contradiction.
    + rewrite IH. reflexivity.
Qed.

(** ** Tool calls of the category verifier *)




(** ** The orchestrator *)

Lemma merge_future_failed (w : world) (a : analyzer) (e : exn) (st : detector * list event) :
  future_result w a = Raise e -> merge_future w a st = (Ok tt, st).
Proof.
  intro H. unfold merge_future, mcatch, mbind, lift. rewrite H. reflexivity.
Qed.

Lemma quiet_ret {A : Type} (a : A) : quiet (ret a).
Proof. intros self events. unfold ret. eauto. Qed.

Lemma quiet_raise {A : Type} (e : exn) : quiet (@raise A e).
Proof. intros self events. unfold raise. eauto. Qed.

Lemma quiet_lift {A : Type} (c : result A) : quiet (lift c).
Proof. intros self events. unfold lift. eauto. Qed.

Lemma quiet_get_self : quiet get_self.
Proof. intros self events. unfold get_self. eauto. Qed.

Lemma quiet_modify (f : detector -> detector) : quiet (modify f).
Proof. intros self events. unfold modify. cbn. eauto. Qed.

Lemma quiet_mbind {A B : Type} (c : M A) (k : A -> M B) :
  quiet c -> (forall a, quiet (k a)) -> quiet (mbind c k).
Proof.
  intros Hc Hk self events. unfold mbind.
  destruct (Hc self events) as (r & self' & ->).
  destruct r as [a|e]; [apply Hk|eauto].
Qed.

Lemma quiet_mcatch {A : Type} (c : M A) (h : exn -> M A) :
  quiet c -> (forall e, quiet (h e)) -> quiet (mcatch c h).
Proof.
  intros Hc Hh self events. unfold mcatch.
  destruct (Hc self events) as (r & self' & ->).
  destruct r as [a|e]; [eauto|apply Hh].
Qed.

Lemma quiet_extend_risk_factors (v : pyval) : quiet (extend_risk_factors v).
Proof.
  unfold extend_risk_factors.
  apply quiet_mbind; [apply quiet_get_self|intro self].
  apply quiet_mbind; [apply quiet_lift|intro l]. apply quiet_modify.
Qed.

Lemma quiet_update_attr (read : detector -> dict) (write : dict -> detector -> detector)
    (v : pyval) : quiet (update_attr read write v).
Proof.
  unfold update_attr.
  apply quiet_mbind; [apply quiet_get_self|intro self].
  destruct (py_update (read self) v) as [d failure].
  apply quiet_mbind; [apply quiet_modify|intros _].
  destruct failure; [apply quiet_raise|apply quiet_ret].
Qed.

Lemma quiet_when_key (key : string) (r : dict) (apply : pyval -> M unit) :
  (forall v, quiet (apply v)) -> quiet (when_key key r apply).
Proof.
  intro H. unfold when_key. destruct (lookup key r); [apply H|apply quiet_ret].
Qed.

Lemma quiet_merge_future (w : world) (a : analyzer) : quiet (merge_future w a).
Proof.
  unfold merge_future.
  apply quiet_mcatch; [|intros _; apply quiet_ret].
  apply quiet_mbind; [apply quiet_lift|intro result].
  destruct result; try apply quiet_ret.
  repeat (apply quiet_mbind; [|intros _]);
    apply quiet_when_key; intro v;
    first [apply quiet_extend_risk_factors | apply quiet_update_attr].
Qed.

(** A failure inside the loop body is caught there: the body returns. *)
Lemma merge_future_returns (w : world) (a : analyzer) (self : detector) (events : list event) :
  exists self', merge_future w a (self, events) = (Ok tt, (self', events)).
Proof.
  destruct (quiet_merge_future w a self events) as (r & self' & E).
  exists self'. rewrite E. f_equal.
  unfold merge_future, mcatch in E.
  match type of E with
  | (match ?b with _ => _ end) = _ => destruct b as [[[]|e] st']
  end; unfold ret in E; injection E as <- _; reflexivity.
Qed.

Lemma for_each_merge_returns (w : world) (l : list analyzer) (self : detector)
    (events : list event) :
  exists self', for_each l (merge_future w) (self, events) = (Ok tt, (self', events)).
Proof.
  revert self. induction l as [|a l IH]; intro self; cbn [for_each].
  - exists self. reflexivity.
  - unfold mbind. destruct (merge_future_returns w a self events) as (self1 & ->).
    apply IH.
Qed.

(** The futures that raised can be left out of the loop. *)
Lemma for_each_merge_without_failed (w : world) (l : list analyzer)
    (st : detector * list event) :
  for_each (filter (fun a => negb (raised (future_result w a))) l) (merge_future w) st =
  for_each l (merge_future w) st.
Proof.
  revert st. induction l as [|a l IH]; intro st; [reflexivity|].
  cbn [filter for_each].
  destruct (future_result w a) as [v|e] eqn:E; cbn [raised negb].
  - cbn [for_each]. unfold mbind.
    destruct (merge_future w a st) as [[[]|e] st1]; [apply IH|reflexivity].
  - unfold mbind. rewrite (merge_future_failed w a e st E). apply IH.
Qed.

(** The category verifier always comes back with the empty dictionary and
    leaves the detector as it was: the value of the plain call it awaits
    is not awaitable, and the handler of the method catches that. *)
Lemma category_specific_verification_empty (w : world) (expense_data : pyval)
    (self : detector) (events : list event) :
  exists events',
    _category_specific_verification w expense_data (self, events)
      = (Ok (PDict []), (self, events')) /\
    (forall e, In e events' -> In e events \/ exists p, e = ReasoningCall p).
Proof.
  unfold _category_specific_verification.
  destruct (groq_client w) as [client|] eqn:Ec; [|exists events; split; [reflexivity|auto]].
  unfold mcatch, mbind, get_self. cbn [fst snd].
  destruct (expense_category self) as [category|];
    [|exists events; split; [reflexivity|auto]].
  destruct (String.eqb category ""); [exists events; split; [reflexivity|auto]|].
  destruct (_get_category_specific_prompt category expense_data) as [p|];
    [|exists events; split; [reflexivity|auto]].
  unfold _make_online_verification_call. rewrite Ec.
  unfold mbind, log, ret, await, raise. cbn [fst snd].
  exists (events ++ [ReasoningCall p]). split; [reflexivity|].
  intros e H. apply in_app_or in H as [H|[<-|[]]]; eauto.
Qed.

Lemma store_fraud_check_results_returns (w : world) (expense_id : string) (r p : Q)
    (self : detector) (events : list event) :
  exists id events',
    _store_fraud_check_results w expense_id r p (self, events) = (Ok id, (self, events')).
Proof.
  unfold _store_fraud_check_results.
  destruct (supabase w); unfold mbind, get_self, log, ret; cbn [fst snd]; eauto.
Qed.

Lemma analyze_receipt_returns (w : world) (expense_id file_url : string)
    (st : detector * list event) :
  exists a st', analyze_receipt w expense_id file_url st = (Ok a, st').
Proof.
  unfold analyze_receipt, mcatch.
  match goal with
  | |- context [match ?b with _ => _ end] => destruct b as [[a|e] st']
  end; unfold ret; eauto.
Qed.

(** C1, as amended.  When the expense id does not resolve to an expense
    record, [analyze_receipt] catches the failure itself: it returns the
    empty dictionary, no exception reaches the caller (none ever does), no
    analyzer is dispatched, the reasoning service is not called, nothing is
    persisted and no verdict is produced; the detector and the log of
    effects are as before the call. *)
Theorem analyze_receipt_missing_expense :
  forall (w : world) (expense_id file_url : string) (self : detector) (events : list event),
    (expense_found w expense_id = false ->
       analyze_receipt w expense_id file_url (self, events) = (Ok EmptyDict, (self, events))) /\
    (forall e, fst (analyze_receipt w expense_id file_url (self, events)) <> Raise e).
Proof.
  intros w expense_id file_url self events. split.
  - unfold expense_found, analyze_receipt, mcatch, mbind, raise, ret. intro H.
    destruct (_get_expense_data w expense_id) as [row|]; [|reflexivity].
    rewrite H. reflexivity.
  - intros e H.
    destruct (analyze_receipt_returns w expense_id file_url (self, events)) as (a & st' & E).
    rewrite E in H. discriminate.
Qed.

Lemma mbind_ext {A B : Type} (c : M A) (k k' : A -> M B) (st : detector * list event) :
  (forall a st', k a st' = k' a st') -> mbind c k st = mbind c k' st.
Proof.
  intro H. unfold mbind. destruct (c st) as [[a|e] st']; [apply H|reflexivity].
Qed.

Lemma analyze_receipt_without_failed (w : world) (expense_id file_url : string)
    (st : detector * list event) :
  analyze_receipt (without_failed w) expense_id file_url st =
  analyze_receipt w expense_id file_url st.
Proof.
  unfold analyze_receipt.
  change (_get_expense_data (without_failed w)) with (_get_expense_data w).
  change (_category_specific_verification (without_failed w))
    with (_category_specific_verification w).
  change (_store_fraud_check_results (without_failed w)) with (_store_fraud_check_results w).
  change (merge_future (without_failed w)) with (merge_future w).
  change (completion (without_failed w))
    with (filter (fun a => negb (raised (future_result w a))) (completion w)).
  unfold mcatch.
  match goal with
  | |- (let (_, _) := ?b1 st in _) = (let (_, _) := ?b2 st in _) =>
      assert (E : b1 st = b2 st); [|rewrite E; reflexivity]
  end.
  repeat (apply mbind_ext; intros).
  unfold mbind. rewrite for_each_merge_without_failed. reflexivity.
Qed.

Lemma weighted_sum_failed_zero (w : world) (self : detector) :
  (weighted_sum (scores self) ==
   weighted_sum (fun c => if failed w c then 0 else scores self c))%Q.
Proof.
  rewrite !weighted_sum_formula. cbn [failed scores].
  unfold _get_llm_risk_score, _get_image_risk_score, _get_verification_risk_score,
    _get_pattern_risk_score.
  destruct (raised (future_result w LlmAnalysis)),
           (raised (future_result w ImageAnalysis)),
           (raised (future_result w OnlineVerification)),
           (raised (future_result w PatternAnalysis)); reflexivity.
Qed.

(** C2. Whatever subset of the four futures raises, [analyze_receipt]
    on a found expense (whose category can be lower-cased) returns a
    verdict.  A future that raised contributes nothing: the loop body
    leaves the detector as it was, and the whole run is the run with the
    failed futures left out.  The overall risk score of the verdict is the
    weighted sum of the category scores with 0 for every failed category. *)
Theorem analyze_receipt_isolates_failures :
  forall (w : world) (expense_id file_url : string) (row : pyval) (category : string)
         (self : detector) (events : list event),
    _get_expense_data w expense_id = Some row ->
    truthy row = true ->
    (c <- py_get row "category" (PStr "") ;; py_lower c) = Ok category ->
    exists (v : verdict) (st' : detector * list event),
      analyze_receipt w expense_id file_url (self, events) = (Ok (Verdict v), st') /\
      (overall_risk_score v ==
       weighted_sum (fun c => if failed w c then 0 else scores (fst st') c))%Q /\
      analyze_receipt (without_failed w) expense_id file_url (self, events) =
        analyze_receipt w expense_id file_url (self, events) /\
      (forall (a : analyzer) (e : exn) (st : detector * list event),
         future_result w a = Raise e -> merge_future w a st = (Ok tt, st)).
Proof.
  intros w expense_id file_url row category self events Hrow Htruthy Hcategory.
  unfold analyze_receipt at 1.
  unfold mcatch, mbind at 1. rewrite Hrow, Htruthy. unfold ret at 1.
  unfold mbind at 1, lift at 1. rewrite Hcategory.
  unfold mbind at 1, modify at 1. cbn [fst snd].
  do 4 (unfold mbind at 1, log at 1; cbn [fst snd]).
  unfold mbind at 1.
  match goal with
  | |- context [_category_specific_verification w row (?s, ?ev)] =>
      destruct (category_specific_verification_empty w row s ev) as (ev1 & -> & _);
      set (self1 := s)
  end.
  unfold mbind at 1.
  destruct (for_each_merge_returns w (completion w) self1 ev1) as (self2 & ->).
  unfold mbind at 1, merge_category_verification, when_key. cbn [lookup assoc_get].
  unfold mbind at 1, ret at 1 2. unfold mbind at 1, get_self at 1. cbn [fst snd].
  unfold mbind at 1.
  destruct (store_fraud_check_results_returns w expense_id (_calculate_risk_score self2)
              (_calculate_fraud_probability self2) self2 ev1) as (id & ev2 & ->).
  unfold mbind, get_self, ret. cbn [fst snd].
  eexists. eexists. split; [reflexivity|].
  cbn [overall_risk_score fst]. split; [|split].
  - unfold _calculate_risk_score. apply weighted_sum_failed_zero.
  - apply analyze_receipt_without_failed.
  - intros a e st. apply merge_future_failed.
Qed.

(** An expense whose category is null stops the run before the dispatch:
    [None] has no [lower], and the handler returns the empty dictionary. *)
Lemma analyze_receipt_null_category (w : world) (expense_id file_url : string) (row : pyval)
    (self : detector) (events : list event) :
  _get_expense_data w expense_id = Some row ->
  truthy row = true ->
  py_get row "category" (PStr "") = Ok PNone ->
  analyze_receipt w expense_id file_url (self, events) = (Ok EmptyDict, (self, events)).
Proof.
  intros Hrow Htruthy Hcategory.
  unfold analyze_receipt, mcatch, mbind at 1. rewrite Hrow, Htruthy. unfold ret at 1.
  unfold mbind at 1, lift at 1. rewrite Hcategory. reflexivity.
Qed.

(** The fallback text of the summary is reached from [analyze_receipt]. *)
Lemma analyze_receipt_fallback_summary :
  exists v st',
    check_receipt_fraud world_sentence_reply "e-1" "https://files/receipt.png"
      = (Ok (Verdict v), st') /\
    summary v = error_summary.
Proof.
  eexists. eexists. split; [vm_compute; reflexivity|reflexivity].
Qed.

(** * The properties on sample inputs *)

(** C1 as it was stated fails: with a store that holds no expense the call
    does not raise, it returns the empty dictionary. *)
Lemma analyze_receipt_not_found_counterexample :
  expense_found world_without_expense "e-404" = false /\
  fst (check_receipt_fraud world_without_expense "e-404" "https://files/receipt.png")
    = Ok EmptyDict /\
  ~ (exists e,
       fst (check_receipt_fraud world_without_expense "e-404" "https://files/receipt.png")
         = Raise e).
Proof.
  split; [reflexivity|]. split; [reflexivity|].
  intros [e H]. vm_compute in H. discriminate.
Qed.

(** C1 as amended, on the store that holds no expense. *)
Lemma analyze_receipt_missing_expense_witness :
  expense_found world_without_expense "e-404" = false /\
  analyze_receipt world_without_expense "e-404" "https://files/receipt.png" (new_detector, [])
    = (Ok EmptyDict, (new_detector, [])).
Proof.
  split; [reflexivity|].
  apply (proj1 (analyze_receipt_missing_expense world_without_expense "e-404"
                  "https://files/receipt.png" new_detector [])).
  reflexivity.
Defined.

(** C2 on a run where the language-model and the image futures raise. *)
Lemma analyze_receipt_isolates_failures_witness :
  _get_expense_data world_partial_failure "e-1" = Some expense_row /\
  truthy expense_row = true /\
  (c <- py_get expense_row "category" (PStr "") ;; py_lower c) = Ok "travel" /\
  exists (v : verdict) (st' : detector * list event),
    analyze_receipt world_partial_failure "e-1" "https://files/receipt.png" (new_detector, [])
      = (Ok (Verdict v), st') /\
    (overall_risk_score v ==
     weighted_sum (fun c => if failed world_partial_failure c then 0 else scores (fst st') c))%Q /\
    analyze_receipt (without_failed world_partial_failure) "e-1" "https://files/receipt.png"
      (new_detector, []) =
    analyze_receipt world_partial_failure "e-1" "https://files/receipt.png" (new_detector, []) /\
    (forall (a : analyzer) (e : exn) (st : detector * list event),
       future_result world_partial_failure a = Raise e ->
       merge_future world_partial_failure a st = (Ok tt, st)).
Proof.
  split; [reflexivity|]. split; [reflexivity|]. split; [reflexivity|].
  apply (analyze_receipt_isolates_failures world_partial_failure "e-1"
           "https://files/receipt.png" expense_row "travel" new_detector []);
    reflexivity.
Defined.

(** C3 with every category score at 0.5. *)
Lemma calculate_risk_score_weighted_witness :
  (forall c : risk_category, 0 <= (fun _ => 1 # 2) c <= 1)%Q /\
  (0 <= weighted_sum (fun _ => 1 # 2) <= 1)%Q.
Proof.
  assert (H : forall c : risk_category, (0 <= (fun _ : risk_category => 1 # 2) c <= 1)%Q).
  { intros _. split; discriminate. }
  split; [exact H|].
  apply (proj1 (proj2 (proj2 calculate_risk_score_weighted)) (fun _ => 1 # 2) H).
Defined.

(** C4 with a risk score of 0.5 and a confidence of 0.25. *)
Lemma calculate_fraud_probability_blend_witness :
  (0 <= 1 # 2 <= 1)%Q /\ (0 <= 1 # 4 <= 1)%Q /\
  (blend (1 # 2) (1 # 4) == (7 # 10) * (1 # 2) + (3 # 10) * (1 # 4))%Q /\
  (0 <= blend (1 # 2) (1 # 4) <= 1)%Q.
Proof.
  assert (H1 : (0 <= 1 # 2 <= 1)%Q) by (split; discriminate).
  assert (H2 : (0 <= 1 # 4 <= 1)%Q) by (split; discriminate).
  split; [exact H1|]. split; [exact H2|].
  apply (proj1 (proj2 calculate_fraud_probability_blend) (1 # 2) (1 # 4) H1 H2).
Defined.

(** C5 on the sample receipt: the model path wins with 0.9 and one
    discrepancy (the date) brings the confidence to 0.81. *)
Lemma combine_ocr_results_confidence_witness :
  get_or "best_result" tesseract_sample (PDict []) =
    PDict [ (KStr "method", PStr "basic"); (KStr "text", PStr "Acme Diner");
            (KStr "confidence", PNum (1 # 4)) ] /\
  (exists q,
     lookup "confidence_score"
       (_combine_ocr_results float_of_decimal (PDict tesseract_sample) (PDict llm_sample))
       = Some (PNum q) /\
     (q == (9 # 10) * (1 - (1 # 10) * inject_Z 1))%Q) /\
  ((10 <= 10)%nat -> (0 < 1)%Q -> (1 * discount 10 <= 0)%Q).
Proof.
  split; [reflexivity|].
  pose proof (combine_ocr_results_confidence float_of_decimal tesseract_sample llm_sample
                [ (KStr "method", PStr "basic"); (KStr "text", PStr "Acme Diner");
                  (KStr "confidence", PNum (1 # 4)) ]
                (1 # 4) (9 # 10) eq_refl eq_refl eq_refl) as (Hq & _ & _ & Hd).
  split; [exact Hq|]. exact (Hd 1%Q 10%nat).
Defined.

(** C6 on a blurry image and on a sharp, noisy one. *)
Lemma assess_image_quality_priority_witness :
  (50 < 100)%Q /\
  _assess_image_quality 50 128 60 5 (1 # 10) = "Poor quality - Image is too blurry" /\
  (100 <= 150)%Q /\ (50 <= 128 <= 200)%Q /\ (30 <= 60)%Q /\ (25 > 20)%Q /\
  _assess_image_quality 150 128 60 25 (1 # 10) = "Poor quality - High noise level".
Proof.
  assert (A : (50 < 100)%Q) by reflexivity.
  assert (B : (100 <= 150)%Q) by discriminate.
  assert (C : (50 <= 128 <= 200)%Q) by (split; discriminate).
  assert (D : (30 <= 60)%Q) by discriminate.
  assert (E : (20 < 25)%Q) by reflexivity.
  split; [exact A|]. split.
  - apply (proj1 (assess_image_quality_priority 50 128 60 5 (1 # 10)) A).
  - split; [exact B|]. split; [exact C|]. split; [exact D|]. split; [exact E|].
    apply (proj1 (proj2 (proj2 (proj2
             (assess_image_quality_priority 150 128 60 25 (1 # 10))))) B C D E).
Defined.

(** C7 as it was stated fails twice.  With a verification entry that is
    a sentence the summary is the fallback text, which carries no label,
    at a fraud probability of 0.9.  And the double printed
    0.7999999999999999 lies between 0.5 and 0.8, yet its percentage is 80
    and the label is HIGH RISK. *)
Lemma generate_summary_counterexample :
  ((8 # 10 <= 9 # 10)%Q /\
   _generate_summary detector_with_sentence (1 # 2) (9 # 10) = error_summary /\
   ~ In (label_line "HIGH RISK") (_generate_summary detector_with_sentence (1 # 2) (9 # 10))) /\
  (Double.representable least_high_double /\
   (5 # 10 <= least_high_double)%Q /\
   (least_high_double < 8 # 10)%Q /\
   percentage least_high_double = Ok 80%Z /\
   raised (summary_body detector_sample (1 # 2) least_high_double) = false /\
   In (label_line "HIGH RISK") (_generate_summary detector_sample (1 # 2) least_high_double) /\
   ~ In (label_line "MODERATE RISK")
       (_generate_summary detector_sample (1 # 2) least_high_double)).
Proof.
  split.
  - split; [discriminate|]. split; [vm_compute; reflexivity|].
    vm_compute. intros [H|[]]. discriminate.
  - split; [vm_compute; reflexivity|]. split; [discriminate|].
    split; [reflexivity|]. split; [vm_compute; reflexivity|].
    split; [vm_compute; reflexivity|]. split.
    + vm_compute. right. left. reflexivity.
    + vm_compute. intro H.
      repeat (destruct H as [H|H]; [discriminate|]). exact H.
Qed.

(** C7 as amended, on a detector with four risk factors, three
    indicators and a date mismatch, at a fraud probability of 0.85. *)
Lemma generate_summary_report_witness :
  raised (summary_body detector_with_mismatch (1 # 2) (85 # 100)) = false /\
  exists (fraud_percentage risk_percentage : Z) (date_line amount_line : list piece)
         (shown : list pyval),
    percentage (85 # 100) = Ok fraud_percentage /\
    percentage (1 # 2) = Ok risk_percentage /\
    date_highlight (verification_results detector_with_mismatch) = Ok date_line /\
    amount_highlight (verification_results detector_with_mismatch) = Ok amount_line /\
    _generate_summary detector_with_mismatch (1 # 2) (85 # 100) =
      report (assessment_of fraud_percentage) fraud_percentage risk_percentage
        (firstn 3 (risk_factors detector_with_mismatch))
        (highlight_lines (verification_results detector_with_mismatch) date_line amount_line)
        shown /\
    (date_line = [] \/
     exists email receipt, date_line = date_mismatch_line email receipt) /\
    (amount_line = [] \/
     exists expected receipt, amount_line = amount_mismatch_line expected receipt) /\
    (assessment_of fraud_percentage = "HIGH RISK" <-> (high_threshold <= 85 # 100)%Q) /\
    (assessment_of fraud_percentage = "MODERATE RISK" <->
       (moderate_threshold <= 85 # 100)%Q /\ (85 # 100 < high_threshold)%Q) /\
    (assessment_of fraud_percentage = "LOW RISK" <-> (85 # 100 < moderate_threshold)%Q) /\
    ((8 # 10 <= 85 # 100)%Q -> assessment_of fraud_percentage = "HIGH RISK") /\
    (Double.representable (85 # 100) ->
       (assessment_of fraud_percentage = "HIGH RISK" <-> (least_high_double <= 85 # 100)%Q) /\
       (assessment_of fraud_percentage = "MODERATE RISK" <->
          (5 # 10 <= 85 # 100)%Q /\ (85 # 100 < least_high_double)%Q) /\
       (assessment_of fraud_percentage = "LOW RISK" <-> (85 # 100 < 5 # 10)%Q)) /\
    (List.length (firstn 3 (risk_factors detector_with_mismatch)) <= 3)%nat /\
    (List.length shown <= 2)%nat /\
    (forall l,
       lookup "manipulation_indicators" (image_analysis_results detector_with_mismatch)
         = Some (PList l) ->
       shown = firstn 2 l).
Proof.
  split; [vm_compute; reflexivity|].
  apply (proj2 (proj1 generate_summary_report detector_with_mismatch (1 # 2) (85 # 100))).
  vm_compute. reflexivity.
Defined.





(** C10 as it was stated fails: the date flag is set, then the conversion
    of the amount written with its currency raises, and the score stays 0
    with one flag true. *)
Lemma validate_ocr_results_score_counterexample :
  true_flags (_validate_ocr_results float_of_decimal tesseract_fields llm_fields_currency)
    = 1%nat /\
  match_score (_validate_ocr_results float_of_decimal tesseract_fields llm_fields_currency)
    = 0%Q /\
  ~ (match_score (_validate_ocr_results float_of_decimal tesseract_fields llm_fields_currency)
     == inject_Z
          (Z.of_nat
             (true_flags
                (_validate_ocr_results float_of_decimal tesseract_fields llm_fields_currency)))
        / 5)%Q.
Proof.
  split; [reflexivity|]. split; [reflexivity|]. vm_compute. discriminate.
Qed.

(** C10 as amended, on a pair that runs through and on one that raises. *)
Lemma validate_ocr_results_score_witness :
  validate_raised float_of_decimal tesseract_fields llm_fields_plain = false /\
  (match_score (_validate_ocr_results float_of_decimal tesseract_fields llm_fields_plain) ==
   inject_Z (Z.of_nat
               (true_flags
                  (_validate_ocr_results float_of_decimal tesseract_fields llm_fields_plain)))
   / 5)%Q /\
  validate_raised float_of_decimal tesseract_fields llm_fields_currency = true /\
  (match_score (_validate_ocr_results float_of_decimal tesseract_fields llm_fields_currency)
   == 0)%Q.
Proof.
  split; [reflexivity|]. split.
  - apply (proj1 (validate_ocr_results_score float_of_decimal tesseract_fields
                    llm_fields_plain)).
    reflexivity.
  - split; [reflexivity|].
    apply (proj1 (proj2 (validate_ocr_results_score float_of_decimal tesseract_fields
                           llm_fields_currency))).
    reflexivity.
Defined.

(** * Further properties of the detector *)

(** ** Text normalization *)

Lemma upper_case_spec (n : N) :
  upper_case n = true <->
  (65 <= n <= 90 \/ 192 <= n <= 214 \/ 216 <= n <= 222)%N.
Proof.
  unfold upper_case. rewrite !orb_true_iff, !andb_true_iff, !N.leb_le. tauto.
Qed.

Lemma lower_char_kept (c : ascii) : keep_char c = true -> lower_char c = c.
Proof.
  unfold keep_char, lower_char. cbv zeta. intro H.
  destruct (upper_case (N_of_ascii c)) eqn:E; [|reflexivity].
  exfalso. apply upper_case_spec in E.
  apply orb_prop in H as [H|H]; apply andb_prop in H as [H1 H2];
    apply N.leb_le in H1, H2; lia.
Qed.

Lemma lower_char_idempotent (c : ascii) : lower_char (lower_char c) = lower_char c.
Proof.
  destruct (upper_case (N_of_ascii c)) eqn:E.
  - assert (L : lower_char c = ascii_of_N (N_of_ascii c + 32)).
    { unfold lower_char. cbv zeta. rewrite E. reflexivity. }
    rewrite L. unfold lower_char. cbv zeta.
    apply upper_case_spec in E.
    rewrite N_ascii_embedding by lia.
    replace (upper_case (N_of_ascii c + 32)) with false; [reflexivity|].
    symmetry. destruct (upper_case (N_of_ascii c + 32)) eqn:F; [|reflexivity].
    apply upper_case_spec in F. lia.
  - assert (L : lower_char c = c).
    { unfold lower_char. cbv zeta. rewrite E. reflexivity. }
    rewrite !L. reflexivity.
Qed.

Lemma lower_idempotent (s : string) : lower (lower s) = lower s.
Proof.
  induction s as [|c s IH]; [reflexivity|].
  cbn [lower]. rewrite lower_char_idempotent, IH. reflexivity.
Qed.

Lemma strip_special_kept (s : string) : all_chars keep_char (strip_special s) = true.
Proof.
  induction s as [|c s IH]; [reflexivity|].
  cbn [strip_special]. destruct (keep_char c) eqn:E; [|exact IH].
  cbn [all_chars]. rewrite E, IH. reflexivity.
Qed.

Lemma kept_fixed (s : string) :
  all_chars keep_char s = true -> strip_special (lower s) = s.
Proof.
  induction s as [|c s IH]; [reflexivity|].
  cbn [all_chars lower strip_special]. intro H. apply andb_prop in H as [Hc Hs].
  rewrite (lower_char_kept c Hc), Hc, (IH Hs). reflexivity.
Qed.

Lemma lower_append (s t : string) : lower (s ++ t)%string = (lower s ++ lower t)%string.
Proof.
  induction s as [|c s IH]; [reflexivity|]. cbn [String.append lower]. rewrite IH. reflexivity.
Qed.

Lemma strip_special_append (s t : string) :
  strip_special (s ++ t)%string = (strip_special s ++ strip_special t)%string.
Proof.
  induction s as [|c s IH]; [reflexivity|].
  cbn [String.append strip_special]. destruct (keep_char c); rewrite IH; reflexivity.
Qed.

(** X1. [_normalize_text] gives a canonical form: normalizing twice is
    normalizing once; lower-casing the input first does not change the
    result; a character whose lower-case form is not one of a to z, 0 to
    9 can be dropped from the input without changing the result; the
    result holds only the letters a to z and the digits.  A value that is
    not a string is returned as it is. *)
Theorem normalize_text_canonical :
  (forall text : pyval, _normalize_text (_normalize_text text) = _normalize_text text) /\
  (forall s : string, _normalize_text (PStr (lower s)) = _normalize_text (PStr s)) /\
  (forall (s1 s2 : string) (c : ascii),
     keep_char (lower_char c) = false ->
     _normalize_text (PStr (s1 ++ String c s2)) = _normalize_text (PStr (s1 ++ s2))) /\
  (forall s t : string,
     _normalize_text (PStr s) = PStr t -> all_chars keep_char t = true) /\
  (forall text : pyval,
     (forall s, text <> PStr s) -> _normalize_text text = text).
Proof.
  split; [|split; [|split; [|split]]].
  - intros [| b | q | s | l | d]; try reflexivity.
    cbn. f_equal. apply kept_fixed. apply strip_special_kept.
  - intro s. cbn. rewrite lower_idempotent. reflexivity.
  - intros s1 s2 c H. cbn. f_equal.
    rewrite !lower_append, !strip_special_append. cbn [lower strip_special].
    rewrite H. reflexivity.
  - intros s t H. cbn in H. injection H as <-. apply strip_special_kept.
  - intros [| b | q | s | l | d] H; try reflexivity. exfalso. apply (H s). reflexivity.
Qed.

(** X1 on a vendor name written with capitals and punctuation. *)
Lemma normalize_text_canonical_witness :
  keep_char (lower_char "-") = false /\
  _normalize_text (PStr ("Acme" ++ String "-" "Diner")) = _normalize_text (PStr ("Acme" ++ "Diner")) /\
  _normalize_text (PStr "Acme Diner!") = PStr "acmediner" /\
  all_chars keep_char "acmediner" = true /\
  _normalize_text (PNum 7) = PNum 7.
Proof.
  split; [reflexivity|]. split.
  - apply (proj1 (proj2 (proj2 normalize_text_canonical)) "Acme" "Diner" "-"%char).
    reflexivity.
  - split; [reflexivity|]. split.
    + apply (proj1 (proj2 (proj2 (proj2 normalize_text_canonical))) "Acme Diner!" "acmediner").
      reflexivity.
    + apply (proj2 (proj2 (proj2 (proj2 normalize_text_canonical))) (PNum 7)).
      intros s H. discriminate.
Defined.

(** ** Matches and discrepancies of the two OCR paths *)

Section OcrConsistency.

Variable float_of_str : string -> option Q.

(** Whether the two mappings both hold something under a key. *)
Let compared (t l : pyval) (k : string) : bool :=
  match both_set t l k with
  | Ok b => b
  | Raise _ => false
  end.

Lemma reported_snoc (field g : string) (a b : pyval) (acc : list pyval) :
  reported field (acc ++ [discrepancy g a b]) = reported field acc || String.eqb g field.
Proof.
  unfold reported. rewrite existsb_app. cbn. rewrite orb_false_r. reflexivity.
Qed.

(** The two methods run the same comparison on the dates: they raise
    together, skip together, and otherwise one sets the flag exactly when
    the other reports nothing. *)
Lemma date_joint (t l : pyval) (b1 b2 b3 b4 : bool) (acc : list pyval) :
  ((exists e, compare_dates t l (validation_of b1 b2 b3 b4 0) = Raise e) /\
   (exists e, check_date t l acc = Raise e)) \/
  (compare_dates t l (validation_of b1 b2 b3 b4 0) = Ok (validation_of b1 b2 b3 b4 0) /\
   check_date t l acc = Ok acc /\ compared t l "date" = false) \/
  (compare_dates t l (validation_of b1 b2 b3 b4 0) = Ok (validation_of true b2 b3 b4 0) /\
   check_date t l acc = Ok acc /\ compared t l "date" = true) \/
  (exists a b,
     compare_dates t l (validation_of b1 b2 b3 b4 0) = Ok (validation_of false b2 b3 b4 0) /\
     check_date t l acc = Ok (acc ++ [discrepancy "date" a b]) /\
     compared t l "date" = true).
Proof.
  unfold compare_dates, check_date, compared, bind.
  destruct (both_set t l "date") as [[|]|e]; [| right; left; auto | left; split; eauto].
  destruct (py_getitem t "date") as [a|e]; [|left; split; eauto].
  destruct (py_getitem l "date") as [b|e]; [|left; split; eauto].
  destruct (py_eqb (_normalize_date a) (_normalize_date b)); cbn [negb].
  - right. right. left. auto.
  - right. right. right. exists a, b. auto.
Qed.

Lemma vendor_joint (t l : pyval) (b1 b2 b3 b4 : bool) (acc : list pyval) :
  ((exists e, compare_vendors t l (validation_of b1 b2 b3 b4 0) = Raise e) /\
   (exists e, check_vendor t l acc = Raise e)) \/
  (compare_vendors t l (validation_of b1 b2 b3 b4 0) = Ok (validation_of b1 b2 b3 b4 0) /\
   check_vendor t l acc = Ok acc /\ compared t l "vendor_name" = false) \/
  (compare_vendors t l (validation_of b1 b2 b3 b4 0) = Ok (validation_of b1 b2 true b4 0) /\
   check_vendor t l acc = Ok acc /\ compared t l "vendor_name" = true) \/
  (exists a b,
     compare_vendors t l (validation_of b1 b2 b3 b4 0) = Ok (validation_of b1 b2 false b4 0) /\
     check_vendor t l acc = Ok (acc ++ [discrepancy "vendor_name" a b]) /\
     compared t l "vendor_name" = true).
Proof.
  unfold compare_vendors, check_vendor, compared, bind.
  destruct (both_set t l "vendor_name") as [[|]|e]; [| right; left; auto | left; split; eauto].
  destruct (py_getitem t "vendor_name") as [a|e]; [|left; split; eauto].
  destruct (py_getitem l "vendor_name") as [b|e]; [|left; split; eauto].
  destruct (py_eqb (_normalize_text a) (_normalize_text b)); cbn [negb].
  - right. right. left. auto.
  - right. right. right. exists a, b. auto.
Qed.

Lemma total_joint (t l : pyval) (b1 b2 b3 b4 : bool) (acc : list pyval) :
  ((exists e, compare_amounts float_of_str "total_amount" "amount_match" t l
                (validation_of b1 b2 b3 b4 0) = Raise e) /\
   (exists e, check_amount float_of_str "total_amount" t l acc = Raise e)) \/
  (compare_amounts float_of_str "total_amount" "amount_match" t l
     (validation_of b1 b2 b3 b4 0) = Ok (validation_of b1 b2 b3 b4 0) /\
   check_amount float_of_str "total_amount" t l acc = Ok acc /\
   compared t l "total_amount" = false) \/
  (compare_amounts float_of_str "total_amount" "amount_match" t l
     (validation_of b1 b2 b3 b4 0) = Ok (validation_of b1 true b3 b4 0) /\
   check_amount float_of_str "total_amount" t l acc = Ok acc /\
   compared t l "total_amount" = true) \/
  (exists a b,
     compare_amounts float_of_str "total_amount" "amount_match" t l
       (validation_of b1 b2 b3 b4 0) = Ok (validation_of b1 false b3 b4 0) /\
     check_amount float_of_str "total_amount" t l acc
       = Ok (acc ++ [discrepancy "total_amount" a b]) /\
     compared t l "total_amount" = true).
Proof.
  unfold compare_amounts, check_amount, compared, bind.
  destruct (both_set t l "total_amount") as [[|]|e];
    [| right; left; auto | left; split; eauto].
  destruct (py_getitem t "total_amount") as [a|e]; [|left; split; eauto].
  destruct (py_getitem l "total_amount") as [b|e]; [|left; split; eauto].
  destruct (amount_gap float_of_str a b) as [g|e]; [|left; split; eauto].
  unfold Qltb. destruct (Qle_bool (1 # 100) g); cbn [negb].
  - right. right. right. exists a, b. auto.
  - right. right. left. auto.
Qed.

Lemma tax_joint (t l : pyval) (b1 b2 b3 b4 : bool) (acc : list pyval) :
  ((exists e, compare_amounts float_of_str "tax_amount" "tax_match" t l
                (validation_of b1 b2 b3 b4 0) = Raise e) /\
   (exists e, check_amount float_of_str "tax_amount" t l acc = Raise e)) \/
  (compare_amounts float_of_str "tax_amount" "tax_match" t l
     (validation_of b1 b2 b3 b4 0) = Ok (validation_of b1 b2 b3 b4 0) /\
   check_amount float_of_str "tax_amount" t l acc = Ok acc /\
   compared t l "tax_amount" = false) \/
  (compare_amounts float_of_str "tax_amount" "tax_match" t l
     (validation_of b1 b2 b3 b4 0) = Ok (validation_of b1 b2 b3 true 0) /\
   check_amount float_of_str "tax_amount" t l acc = Ok acc /\
   compared t l "tax_amount" = true) \/
  (exists a b,
     compare_amounts float_of_str "tax_amount" "tax_match" t l
       (validation_of b1 b2 b3 b4 0) = Ok (validation_of b1 b2 b3 false 0) /\
     check_amount float_of_str "tax_amount" t l acc
       = Ok (acc ++ [discrepancy "tax_amount" a b]) /\
     compared t l "tax_amount" = true).
Proof.
  unfold compare_amounts, check_amount, compared, bind.
  destruct (both_set t l "tax_amount") as [[|]|e];
    [| right; left; auto | left; split; eauto].
  destruct (py_getitem t "tax_amount") as [a|e]; [|left; split; eauto].
  destruct (py_getitem l "tax_amount") as [b|e]; [|left; split; eauto].
  destruct (amount_gap float_of_str a b) as [g|e]; [|left; split; eauto].
  unfold Qltb. destruct (Qle_bool (1 # 100) g); cbn [negb].
  - right. right. right. exists a, b. auto.
  - right. right. left. auto.
Qed.

Ltac joint_case H :=
  destruct H as [[[? ->] [? ->]] | [(-> & -> & ->) | [(-> & -> & ->) | (? & ? & -> & -> & ->)]]].

(** X2. [_validate_ocr_results] and [_find_discrepancies] never disagree
    on the four fields they compare (date, total amount, vendor name, tax
    amount): a field whose match flag is set is not reported as a
    discrepancy, and when the validation runs through, the true flags and
    the discrepancies together are at most the fields that both paths
    hold (an amount that is not a number is neither within 0.01 of the
    other nor at least 0.01 away from it). *)
Theorem matches_exclude_discrepancies :
  forall tesseract_data llm_data : pyval,
    let validation := _validate_ocr_results float_of_str tesseract_data llm_data in
    let discrepancies := _find_discrepancies float_of_str tesseract_data llm_data in
    (flag "date_match" validation = true -> reported "date" discrepancies = false) /\
    (flag "amount_match" validation = true -> reported "total_amount" discrepancies = false) /\
    (flag "vendor_match" validation = true -> reported "vendor_name" discrepancies = false) /\
    (flag "tax_match" validation = true -> reported "tax_amount" discrepancies = false) /\
    (validate_raised float_of_str tesseract_data llm_data = false ->
       (true_flags validation + List.length discrepancies <=
        List.length
          (filter (fun k => match both_set tesseract_data llm_data k with
                            | Ok b => b
                            | Raise _ => false
                            end)
             ["date"; "total_amount"; "vendor_name"; "tax_amount"]))%nat).
Proof.
  intros t l validation discrepancies. subst validation discrepancies.
  unfold _validate_ocr_results, _find_discrepancies, validate_raised.
  change validation_init with (validation_of false false false false 0).
  unfold validate_steps, discrepancy_steps. cbn [try_steps filter].
  fold (compared t l "date") (compared t l "total_amount")
       (compared t l "vendor_name") (compared t l "tax_amount").
  pose proof (date_joint t l false false false false []) as H1; joint_case H1;
    [cbn; repeat split; discriminate| | |];
    (match goal with
     | |- context [check_amount float_of_str "total_amount" t l ?acc] =>
         match goal with
         | |- context [compare_amounts float_of_str "total_amount" "amount_match" t l
                         (validation_of ?a ?b ?c ?d 0)] =>
             pose proof (total_joint t l a b c d acc) as H2
         end
     end; joint_case H2; [cbn; repeat split; discriminate| | |]);
    (match goal with
     | |- context [check_vendor t l ?acc] =>
         match goal with
         | |- context [compare_vendors t l (validation_of ?a ?b ?c ?d 0)] =>
             pose proof (vendor_joint t l a b c d acc) as H3
         end
     end; joint_case H3; [cbn; repeat split; discriminate| | |]);
    (match goal with
     | |- context [check_amount float_of_str "tax_amount" t l ?acc] =>
         match goal with
         | |- context [compare_amounts float_of_str "tax_amount" "tax_match" t l
                         (validation_of ?a ?b ?c ?d 0)] =>
             pose proof (tax_joint t l a b c d acc) as H4
         end
     end; joint_case H4; [cbn; repeat split; discriminate| | |]);
    rewrite score_matches_shape; cbn [fst snd length filter];
    repeat split; intros; try discriminate; try reflexivity;
    cbn; rewrite ?length_app; cbn; try reflexivity; try lia.
Qed.

End OcrConsistency.

(** X2 on the sample receipt: the amount and the vendor match, the date
    differs, the tax is not read by the classical path. *)
Lemma matches_exclude_discrepancies_witness :
  flag "amount_match"
    (_validate_ocr_results float_of_decimal tesseract_fields llm_fields_plain) = true /\
  reported "total_amount"
    (_find_discrepancies float_of_decimal tesseract_fields llm_fields_plain) = false /\
  validate_raised float_of_decimal tesseract_fields llm_fields_plain = false /\
  (true_flags (_validate_ocr_results float_of_decimal tesseract_fields llm_fields_plain) +
   List.length (_find_discrepancies float_of_decimal tesseract_fields llm_fields_plain)
   <= 3)%nat.
Proof.
  pose proof (matches_exclude_discrepancies float_of_decimal tesseract_fields llm_fields_plain)
    as (_ & Hamount & _ & _ & Hcount).
  split; [reflexivity|]. split; [apply Hamount; reflexivity|].
  split; [reflexivity|]. exact (Hcount eq_refl).
Defined.

(** ** Shape and range of the combined OCR result *)

Section CombinedOcr.

Variable float_of_str : string -> option Q.

Lemma apply_discount_keys (k : nat) (combined combined' : dict) :
  map fst combined = map fst combined_init ->
  apply_discount k combined = Ok combined' ->
  map fst combined' = map fst combined_init.
Proof.
  unfold apply_discount, bind. intros Hk H.
  destruct (py_getitem (PDict combined) "confidence_score"); [|discriminate].
  destruct (py_mul_float a (discount k)); [|discriminate].
  injection H as <-.
  destruct combined as [|[k0 v0] [|[k1 v1] [|[k2 v2] [|[k3 v3] [|[k4 v4] [|? ?]]]]]];
    try discriminate.
  cbn in Hk. injection Hk as -> -> -> -> ->. reflexivity.
Qed.

(** X3. Whatever the two OCR results are, well-formed or not,
    [_combine_ocr_results] returns a mapping with exactly the five entries
    [extracted_text], [structured_data], [confidence_score],
    [validation_results] and [discrepancies], in this order. *)
Theorem combine_ocr_results_keys :
  forall tesseract_results llm_results : pyval,
    map fst (_combine_ocr_results float_of_str tesseract_results llm_results) =
    [ KStr "extracted_text"; KStr "structured_data"; KStr "confidence_score";
      KStr "validation_results"; KStr "discrepancies" ].
Proof.
  intros tr lr. unfold _combine_ocr_results.
  repeat match goal with
    | |- context [bind ?c _] =>
        lazymatch c with
        | context [bind] => fail
        | _ => destruct c; cbn [bind catch]; try reflexivity
        end
    end.
  match goal with
  | |- context [_find_discrepancies float_of_str ?t ?l] =>
      destruct (_find_discrepancies float_of_str t l) as [|d ds]
  end; cbn [catch];
    [match goal with |- context [if ?b then _ else _] => destruct b end; reflexivity|].
  match goal with
  | |- context [apply_discount ?k ?c] =>
      destruct (apply_discount k c) as [c'|e] eqn:Ed; cbn [catch]
  end.
  - eapply apply_discount_keys; [|exact Ed].
    match goal with |- context [if ?b then _ else _] => destruct b end; reflexivity.
  - match goal with |- context [if ?b then _ else _] => destruct b end; reflexivity.
Qed.

Lemma combined_confidence_value (tesseract_results llm_results best : dict) (ct cl : Q) :
  get_or "best_result" tesseract_results (PDict []) = PDict best ->
  get_or "confidence" best (PNum 0) = PNum ct ->
  get_or "confidence_score" llm_results (PNum 0) = PNum cl ->
  exists q,
    lookup "confidence_score"
      (_combine_ocr_results float_of_str (PDict tesseract_results) (PDict llm_results))
      = Some (PNum q) /\
    (q == (if Qltb ct cl then cl else ct) *
          discount (List.length
                      (_find_discrepancies float_of_str
                         (get_or "structured_data" tesseract_results (PDict []))
                         (get_or "structured_data" llm_results (PDict [])))))%Q.
Proof.
  intros H1 H2 H3. unfold _combine_ocr_results.
  rewrite py_get_dict; cbn [bind]; rewrite H1.
  repeat (rewrite py_get_dict; cbn [bind]). rewrite H2, H3.
  cbn [bind py_gt catch].
  destruct (_find_discrepancies float_of_str _ _) as [|d ds].
  - destruct (Qltb ct cl); eexists; (split; [reflexivity|]);
      unfold discount, inject_Z; simpl; ring.
  - destruct (Qltb ct cl); eexists; (split; [reflexivity|]); reflexivity.
Qed.

Lemma discount_range (k : nat) : (k <= 4)%nat -> (6 # 10 <= discount k <= 1)%Q.
Proof.
  intro H. unfold discount.
  assert (A : (0 <= inject_Z (Z.of_nat k))%Q).
  { change 0%Q with (inject_Z 0). rewrite <- Zle_Qle. lia. }
  assert (B : (inject_Z (Z.of_nat k) <= 4)%Q).
  { change 4%Q with (inject_Z 4). rewrite <- Zle_Qle. lia. }
  split; lra.
Qed.

(** X4. The combined confidence never leaves the range the selected
    confidence allows: with confidences that are not negative, the result
    lies between 0.6 times the selected confidence and the selected
    confidence itself, so it is never negative (at most four fields can
    differ). *)
Theorem combine_ocr_results_confidence_range :
  forall (tesseract_results llm_results best : dict) (ct cl : Q),
    get_or "best_result" tesseract_results (PDict []) = PDict best ->
    get_or "confidence" best (PNum 0) = PNum ct ->
    get_or "confidence_score" llm_results (PNum 0) = PNum cl ->
    (0 <= ct)%Q -> (0 <= cl)%Q ->
    exists q,
      lookup "confidence_score"
        (_combine_ocr_results float_of_str (PDict tesseract_results) (PDict llm_results))
        = Some (PNum q) /\
      ((6 # 10) * (if Qltb ct cl then cl else ct) <= q)%Q /\
      (q <= (if Qltb ct cl then cl else ct))%Q /\
      (0 <= q)%Q.
Proof.
  intros dt dl db ct cl H1 H2 H3 Hct Hcl.
  destruct (combined_confidence_value dt dl db ct cl H1 H2 H3) as (q & Hq & E).
  exists q. split; [exact Hq|].
  pose proof (discount_range _ (find_discrepancies_at_most_four float_of_str
                (get_or "structured_data" dt (PDict []))
                (get_or "structured_data" dl (PDict [])))) as [D1 D2].
  set (k := discount _) in *.
  assert (Hc : (0 <= (if Qltb ct cl then cl else ct))%Q) by (destruct (Qltb ct cl); assumption).
  set (c := if Qltb ct cl then cl else ct) in *.
  rewrite E. repeat split.
  - setoid_replace (c * k)%Q with (k * c)%Q by ring.
    apply Qmult_le_compat_r; assumption.
  - setoid_replace c with (c * 1)%Q at 2 by ring.
    setoid_replace (c * k)%Q with (k * c)%Q by ring.
    setoid_replace (c * 1)%Q with (1 * c)%Q by ring.
    apply Qmult_le_compat_r; assumption.
  - apply Qmult_le_0_compat; [assumption|lra].
Qed.

End CombinedOcr.

(** X4 on the sample receipt. *)
Lemma combine_ocr_results_confidence_range_witness :
  (0 <= 1 # 4)%Q /\ (0 <= 9 # 10)%Q /\
  exists q,
    lookup "confidence_score"
      (_combine_ocr_results float_of_decimal (PDict tesseract_sample) (PDict llm_sample))
      = Some (PNum q) /\
    ((6 # 10) * (9 # 10) <= q)%Q /\ (q <= 9 # 10)%Q /\ (0 <= q)%Q.
Proof.
  assert (A : (0 <= 1 # 4)%Q) by discriminate.
  assert (B : (0 <= 9 # 10)%Q) by discriminate.
  split; [exact A|]. split; [exact B|].
  apply (combine_ocr_results_confidence_range float_of_decimal tesseract_sample llm_sample
           [ (KStr "method", PStr "basic"); (KStr "text", PStr "Acme Diner");
             (KStr "confidence", PNum (1 # 4)) ]
           (1 # 4) (9 # 10) eq_refl eq_refl eq_refl A B).
Defined.

(** ** Ranges of the averaged scores *)

Lemma fold_left_Qplus_between (lo hi : Q) (l : list Q) :
  Forall (between lo hi) l ->
  forall a : Q,
    (a + lo * inject_Z (Z.of_nat (List.length l)) <= fold_left Qplus l a)%Q /\
    (fold_left Qplus l a <= a + hi * inject_Z (Z.of_nat (List.length l)))%Q.
Proof.
  induction 1 as [|x l [Hx0 Hx1] _ IH]; intro a.
  - simpl. unfold inject_Z. split; ring_simplify; apply Qle_refl.
  - cbn [fold_left List.length]. destruct (IH (a + x)%Q) as [L U].
    rewrite Nat2Z.inj_succ. unfold Z.succ. rewrite inject_Z_plus.
    change (inject_Z 1) with 1%Q. split; lra.
Qed.

Lemma average_between (lo hi : Q) (l : list Q) :
  Forall (between lo hi) l -> l <> [] -> between lo hi (average l).
Proof.
  intros H Hne. destruct l as [|x l]; [contradiction|].
  unfold average.
  destruct (fold_left_Qplus_between lo hi (x :: l) H 0%Q) as [L U].
  set (n := inject_Z (Z.of_nat (List.length (x :: l)))) in *.
  assert (Hn : (0 < n)%Q).
  { unfold n. change 0%Q with (inject_Z 0). rewrite <- Zlt_Qlt. cbn [List.length]. lia. }
  split.
  - apply Qle_shift_div_l; [exact Hn|]. lra.
  - apply Qle_shift_div_r; [exact Hn|]. lra.
Qed.

Lemma average_zero_or_between (lo hi : Q) (l : list Q) :
  Forall (between lo hi) l -> average l = 0%Q \/ between lo hi (average l).
Proof.
  intro H. destruct l as [|x l]; [left; reflexivity|].
  right. apply average_between; [exact H|discriminate].
Qed.

Lemma Forall_between_snoc (lo hi : Q) (l : list Q) (x : Q) :
  Forall (between lo hi) l -> between lo hi x -> Forall (between lo hi) (l ++ [x]).
Proof.
  intros Hl Hx. apply Forall_app. split; [exact Hl|]. constructor; [exact Hx|constructor].
Qed.

Ltac between_const := unfold between; split; unfold Qle; simpl; lia.

Lemma confidence_block_between (entry k1 : string) (w1 : Q) (k2 : string) (negate : bool)
    (w2 : Q) (vr : dict) (f f' : list Q) :
  between (7 # 10) 1 w1 -> between (7 # 10) 1 w2 ->
  confidence_block entry k1 w1 k2 negate w2 vr f = Ok f' ->
  Forall (between (7 # 10) 1) f -> Forall (between (7 # 10) 1) f'.
Proof.
  unfold confidence_block, bind. intros H1 H2 H Hf.
  destruct (lookup entry vr) as [info|]; [|injection H as <-; exact Hf].
  destruct (py_get info k1 PNone) as [a|]; [|discriminate].
  destruct (py_get info k2 PNone) as [b|]; [|discriminate].
  injection H as <-.
  destruct (truthy a), (xorb negate (truthy b));
    repeat apply Forall_between_snoc; assumption.
Qed.

Lemma confidence_block_not_mapping (entry k1 : string) (w1 : Q) (k2 : string) (negate : bool)
    (w2 : Q) (vr : dict) (f : list Q) (v : pyval) :
  lookup entry vr = Some v -> (forall d, v <> PDict d) ->
  exists e, confidence_block entry k1 w1 k2 negate w2 vr f = Raise e.
Proof.
  intros H Hv. unfold confidence_block. rewrite H.
  destruct v; try (eexists; reflexivity). exfalso. apply (Hv d). reflexivity.
Qed.

(** X5. The confidence [_calculate_verification_confidence] gives is
    either 0 (no tool entry contributed, or the handler was entered) or
    lies between 0.7 and 1: it never exceeds 1 and is never a small
    positive number.  A tool entry that is not a mapping sets the whole
    confidence to 0, whatever the other entries hold. *)
Theorem verification_confidence_range :
  forall verification_results : dict,
    (_calculate_verification_confidence verification_results = 0%Q \/
     (7 # 10 <= _calculate_verification_confidence verification_results <= 1)%Q) /\
    (forall (key : string) (v : pyval),
       In key ["vendor_info"; "pricing_info"; "location_info"; "operating_hours"] ->
       lookup key verification_results = Some v ->
       (forall d, v <> PDict d) ->
       _calculate_verification_confidence verification_results = 0%Q).
Proof.
  intro vr. split.
  - unfold _calculate_verification_confidence, catch, bind.
    destruct (confidence_block "vendor_info" _ _ _ _ _ vr []) as [f1|] eqn:E1; [|left; reflexivity].
    destruct (confidence_block "pricing_info" _ _ _ _ _ vr f1) as [f2|] eqn:E2;
      [|left; reflexivity].
    destruct (confidence_block "location_info" _ _ _ _ _ vr f2) as [f3|] eqn:E3;
      [|left; reflexivity].
    destruct (confidence_block "operating_hours" _ _ _ _ _ vr f3) as [f4|] eqn:E4;
      [|left; reflexivity].
    apply (average_zero_or_between (7 # 10) 1 f4).
    eapply confidence_block_between; [| |exact E4|]; [between_const|between_const|].
    eapply confidence_block_between; [| |exact E3|]; [between_const|between_const|].
    eapply confidence_block_between; [| |exact E2|]; [between_const|between_const|].
    eapply confidence_block_between; [| |exact E1|]; [between_const|between_const|].
    constructor.
  - intros key v Hin Hv Hnot.
    unfold _calculate_verification_confidence, catch, bind.
    destruct Hin as [<-|[<-|[<-|[<-|[]]]]].
    + destruct (confidence_block_not_mapping "vendor_info" "vendor_exists" 1 "verified" false
                  (8 # 10) vr [] v Hv Hnot) as [e ->]. reflexivity.
    + destruct (confidence_block "vendor_info" _ _ _ _ _ vr []) as [f1|]; [|reflexivity].
      destruct (confidence_block_not_mapping "pricing_info" "price_range" (9 # 10)
                  "last_updated" false (7 # 10) vr f1 v Hv Hnot) as [e ->]. reflexivity.
    + destruct (confidence_block "vendor_info" _ _ _ _ _ vr []) as [f1|]; [|reflexivity].
      destruct (confidence_block "pricing_info" _ _ _ _ _ vr f1) as [f2|]; [|reflexivity].
      destruct (confidence_block_not_mapping "location_info" "location_verified" 1
                  "address_match" false (8 # 10) vr f2 v Hv Hnot) as [e ->]. reflexivity.
    + destruct (confidence_block "vendor_info" _ _ _ _ _ vr []) as [f1|]; [|reflexivity].
      destruct (confidence_block "pricing_info" _ _ _ _ _ vr f1) as [f2|]; [|reflexivity].
      destruct (confidence_block "location_info" _ _ _ _ _ vr f2) as [f3|]; [|reflexivity].
      destruct (confidence_block_not_mapping "operating_hours" "was_open" (9 # 10)
                  "special_hours" true (7 # 10) vr f3 v Hv Hnot) as [e ->]. reflexivity.
Qed.

(** X5 on a vendor entry that is well formed next to a pricing entry that
    is a sentence. *)
Lemma verification_confidence_range_witness :
  In "pricing_info" ["vendor_info"; "pricing_info"; "location_info"; "operating_hours"] /\
  _calculate_verification_confidence
    [ (KStr "vendor_info", PDict (_search_vendor_info (PStr "CityCab")));
      (KStr "pricing_info", PStr "about 75 USD") ] = 0%Q.
Proof.
  assert (H : In "pricing_info"
                ["vendor_info"; "pricing_info"; "location_info"; "operating_hours"]).
  { right. left. reflexivity. }
  split; [exact H|].
  apply (proj2 (verification_confidence_range
                  [ (KStr "vendor_info", PDict (_search_vendor_info (PStr "CityCab")));
                    (KStr "pricing_info", PStr "about 75 USD") ])
           "pricing_info" (PStr "about 75 USD") H eq_refl).
  intros d E. discriminate.
Defined.

Lemma price_block_between (vr : pyval) (f f' : list Q) :
  price_block vr f = Ok f' ->
  Forall (between (4 # 10) 1) f -> Forall (between (4 # 10) 1) f'.
Proof.
  unfold price_block, bind. intros H Hf.
  destruct (py_contains "price_discrepancy" vr) as [[|]|]; try discriminate.
  - destruct (py_getitem vr "price_discrepancy"); try discriminate.
    destruct (py_abs a); try discriminate.
    injection H as <-.
    repeat match goal with
      | |- context [if ?b then _ else _] => destruct b
      end; try exact Hf; apply Forall_between_snoc; try exact Hf; between_const.
  - injection H as <-. exact Hf.
Qed.

Lemma either_block_between (k1 k2 : string) (weight : Q) (vr : pyval) (f f' : list Q) :
  between (4 # 10) 1 weight ->
  either_block k1 k2 weight vr f = Ok f' ->
  Forall (between (4 # 10) 1) f -> Forall (between (4 # 10) 1) f'.
Proof.
  unfold either_block, bind. intros Hw H Hf.
  destruct (present_and_false k1 vr) as [[|]|]; try discriminate.
  - injection H as <-. apply Forall_between_snoc; assumption.
  - destruct (present_and_false k2 vr) as [[|]|]; try discriminate;
      injection H as <-; [apply Forall_between_snoc|]; assumption.
Qed.

Lemma menu_block_between (category : string) (vr : pyval) (f f' : list Q) :
  menu_block category vr f = Ok f' ->
  Forall (between (4 # 10) 1) f -> Forall (between (4 # 10) 1) f'.
Proof.
  unfold menu_block, bind. intros H Hf.
  destruct (String.eqb category "food").
  - destruct (present_and_false "menu_verification" vr) as [[|]|]; try discriminate;
      injection H as <-; [apply Forall_between_snoc; [assumption|between_const]|assumption].
  - injection H as <-. exact Hf.
Qed.

Lemma lookup_single (k : string) (v : pyval) : lookup k [ (KStr k, v) ] = Some v.
Proof. unfold lookup. cbn. rewrite String.eqb_refl. reflexivity. Qed.

Lemma present_and_false_non_mapping (key : string) (v : pyval) :
  (forall d, v <> PDict d) ->
  present_and_false key v = Ok false \/ exists e, present_and_false key v = Raise e.
Proof.
  intro H. unfold present_and_false.
  destruct v as [| b | q | s | l | d]; cbn [py_contains bind];
    try (right; eexists; reflexivity).
  - destruct (substringb key s); cbn [py_getitem bind];
      [right; eexists; reflexivity|left; reflexivity].
  - destruct (existsb (py_eqb (PStr key)) l); cbn [py_getitem bind];
      [right; eexists; reflexivity|left; reflexivity].
  - exfalso. exact (H d eq_refl).
Qed.

Lemma price_block_non_mapping (v : pyval) (factors : list Q) :
  (forall d, v <> PDict d) ->
  price_block v factors = Ok factors \/ exists e, price_block v factors = Raise e.
Proof.
  intro H. unfold price_block.
  destruct v as [| b | q | s | l | d]; cbn [py_contains bind];
    try (right; eexists; reflexivity).
  - destruct (substringb "price_discrepancy" s); cbn [py_getitem bind];
      [right; eexists; reflexivity|left; reflexivity].
  - destruct (existsb (py_eqb (PStr "price_discrepancy")) l); cbn [py_getitem bind];
      [right; eexists; reflexivity|left; reflexivity].
  - exfalso. exact (H d eq_refl).
Qed.

Lemma either_block_non_mapping (k1 k2 : string) (weight : Q) (v : pyval)
    (factors : list Q) :
  (forall d, v <> PDict d) ->
  either_block k1 k2 weight v factors = Ok factors \/
  exists e, either_block k1 k2 weight v factors = Raise e.
Proof.
  intro H. unfold either_block, bind.
  destruct (present_and_false_non_mapping k1 v H) as [-> | [e ->]];
    [|right; eexists; reflexivity].
  destruct (present_and_false_non_mapping k2 v H) as [-> | [e ->]];
    [left; reflexivity|right; eexists; reflexivity].
Qed.

Lemma menu_block_non_mapping (category : string) (v : pyval) (factors : list Q) :
  (forall d, v <> PDict d) ->
  menu_block category v factors = Ok factors \/
  exists e, menu_block category v factors = Raise e.
Proof.
  intro H. unfold menu_block, bind.
  destruct (String.eqb category "food"); [|left; reflexivity].
  destruct (present_and_false_non_mapping "menu_verification" v H) as [-> | [e ->]];
    [left; reflexivity|right; eexists; reflexivity].
Qed.

(** X6. The category-specific risk score is either 0 or lies between 0.4
    and 1.  It is 0 when the detector has no category or holds no entry
    for its category, and when the entry is not a mapping: a number, a
    boolean, null, a string or a list (nothing is read from it, or the
    handler is entered).  On an entry that holds only a price discrepancy, the score
    is 1 above 50%, 0.7 above 20%, 0.4 above 10% and 0 otherwise, on the
    absolute value: the sign of the discrepancy does not matter. *)
Theorem category_specific_risk_score_tiers :
  (forall self : detector,
     _get_category_specific_risk_score self = 0%Q \/
     (4 # 10 <= _get_category_specific_risk_score self <= 1)%Q) /\
  (forall self : detector,
     expense_category self = None -> _get_category_specific_risk_score self = 0%Q) /\
  (forall (self : detector) (category : string),
     expense_category self = Some category ->
     lookup (category ++ "_verification")%string (verification_results self) = None ->
     _get_category_specific_risk_score self = 0%Q) /\
  (forall (self : detector) (category : string) (entry : pyval),
     expense_category self = Some category ->
     lookup (category ++ "_verification")%string (verification_results self) = Some entry ->
     (forall d, entry <> PDict d) ->
     _get_category_specific_risk_score self = 0%Q) /\
  (forall (category : string) (d : Q),
     category <> "" ->
     _get_category_specific_risk_score
       (detector_with_entry category (PDict [ (KStr "price_discrepancy", PNum d) ]))
     = price_tier d /\
     price_tier (- d) = price_tier d).
Proof.
  split; [|split; [|split; [|split]]].
  - intro self. unfold _get_category_specific_risk_score, catch.
    destruct (expense_category self) as [category|]; [|left; reflexivity].
    destruct (String.eqb category ""); [left; reflexivity|].
    set (vr := match lookup _ _ with Some v => v | None => PDict [] end).
    destruct (negb (truthy vr)); [left; reflexivity|].
    unfold bind.
    destruct (price_block vr []) as [f1|] eqn:E1; [|left; reflexivity].
    destruct (either_block "location_verification" _ _ vr f1) as [f2|] eqn:E2;
      [|left; reflexivity].
    destruct (either_block "time_verification" _ _ vr f2) as [f3|] eqn:E3;
      [|left; reflexivity].
    destruct (either_block "service_verification" _ _ vr f3) as [f4|] eqn:E4;
      [|left; reflexivity].
    destruct (menu_block category vr f4) as [f5|] eqn:E5; [|left; reflexivity].
    apply (average_zero_or_between (4 # 10) 1 f5).
    apply (menu_block_between _ _ _ _ E5).
    eapply either_block_between; [|exact E4|]; [between_const|].
    eapply either_block_between; [|exact E3|]; [between_const|].
    eapply either_block_between; [|exact E2|]; [between_const|].
    apply (price_block_between _ _ _ E1). constructor.
  - intros self H. unfold _get_category_specific_risk_score. rewrite H. reflexivity.
  - intros self category Hc Hl. unfold _get_category_specific_risk_score. rewrite Hc, Hl.
    destruct (String.eqb category ""); reflexivity.
  - intros self category entry Hc Hl Hn.
    unfold _get_category_specific_risk_score. rewrite Hc, Hl.
    destruct (String.eqb category ""); [reflexivity|].
    destruct (negb (truthy entry)); [reflexivity|]. unfold bind.
    destruct (price_block_non_mapping entry [] Hn) as [-> | [e ->]]; [|reflexivity].
    destruct (either_block_non_mapping "location_verification" "route_verification"
                (8 # 10) entry [] Hn) as [-> | [e ->]]; [|reflexivity].
    destruct (either_block_non_mapping "time_verification" "date_verification"
                (6 # 10) entry [] Hn) as [-> | [e ->]]; [|reflexivity].
    destruct (either_block_non_mapping "service_verification" "restaurant_verification"
                (7 # 10) entry [] Hn) as [-> | [e ->]]; [|reflexivity].
    destruct (menu_block_non_mapping category entry [] Hn) as [-> | [e ->]]; reflexivity.
  - intros category d Hc. split.
    + unfold _get_category_specific_risk_score, detector_with_entry.
      cbn [expense_category set_verification_results set_expense_category
             verification_results].
      rewrite lookup_single.
      apply String.eqb_neq in Hc. rewrite Hc.
      cbn [truthy negb]. unfold price_block, either_block, menu_block, present_and_false.
      cbn [py_contains has_key lookup assoc_get key_eqb String.eqb Ascii.eqb Bool.eqb
             bind py_getitem py_abs as_num].
      unfold price_tier.
      destruct (Qltb (1 # 2) (Qabs d)); [destruct (String.eqb category "food"); reflexivity|].
      destruct (Qltb (2 # 10) (Qabs d)); [destruct (String.eqb category "food"); reflexivity|].
      destruct (Qltb (1 # 10) (Qabs d)); destruct (String.eqb category "food"); reflexivity.
    + unfold price_tier.
      assert (E : forall x, Qltb x (Qabs (- d)) = Qltb x (Qabs d)).
      { intro x. unfold Qltb. f_equal.
        destruct (Qle_bool (Qabs (- d)) x) eqn:A, (Qle_bool (Qabs d) x) eqn:B;
          try reflexivity.
        - apply Qle_bool_iff in A. rewrite Qabs_opp in A. apply Qle_bool_iff in A. congruence.
        - apply Qle_bool_iff in B. rewrite <- Qabs_opp in B. apply Qle_bool_iff in B.
          congruence. }
      rewrite !E. reflexivity.
Qed.

(** X6 on a travel expense whose price is 30% below the expected one, and
    on one whose entry is a sentence that names the price discrepancy. *)
Lemma category_specific_risk_score_tiers_witness :
  "travel" <> "" /\
  _get_category_specific_risk_score
    (detector_with_entry "travel" (PDict [ (KStr "price_discrepancy", PNum (- (3 # 10))) ]))
  = price_tier (- (3 # 10)) /\
  price_tier (- - (3 # 10)) = price_tier (- (3 # 10)) /\
  price_tier (- (3 # 10)) = (7 # 10)%Q /\
  _get_category_specific_risk_score
    (detector_with_entry "travel" (PStr "price_discrepancy of 30%")) = 0%Q.
Proof.
  assert (H : "travel" <> "") by discriminate.
  split; [exact H|].
  destruct (proj2 (proj2 (proj2 (proj2 category_specific_risk_score_tiers)))
              "travel" (- (3 # 10))%Q H) as [A B].
  split; [exact A|]. split; [exact B|]. split; [reflexivity|].
  apply (proj1 (proj2 (proj2 (proj2 category_specific_risk_score_tiers)))
           (detector_with_entry "travel" (PStr "price_discrepancy of 30%")) "travel"
           (PStr "price_discrepancy of 30%") eq_refl eq_refl).
  intros d E. discriminate E.
Defined.

(** ** Tool calls: what the results lead to *)

Lemma run_tool_call_entries (clock : nat -> string) (i : nat) (tc : tool_call)
    (results results' : call_results) (priced : bool) :
  run_tool_call clock i tc results = Ok results' ->
  tool_entries priced (cr_verification_results results) ->
  tool_entries (priced || is_pricing_call tc) (cr_verification_results results').
Proof.
  unfold run_tool_call, is_pricing_call, bind.
  destruct (tc_arguments tc) as [args|]; [|discriminate].
  intros H (Hv & Hp & Hl & Hh).
  destruct (String.eqb (tc_name tc) "search_vendor_info") eqn:E1.
  { destruct (py_get args "vendor_name" PNone); [|discriminate]. injection H as <-.
    apply String.eqb_eq in E1. rewrite E1. cbn [String.eqb Ascii.eqb Bool.eqb orb].
    rewrite orb_false_r. cbn [cr_verification_results]. unfold tool_entries.
    rewrite lookup_setitem_same, !lookup_setitem_other by discriminate.
    repeat split; eauto. }
  destruct (String.eqb (tc_name tc) "check_pricing") eqn:E2.
  { destruct (py_get args "vendor_name" PNone); [|discriminate].
    destruct (py_get args "service_type" PNone); [|discriminate].
    destruct (py_get args "location" PNone); [|discriminate].
    destruct (py_get args "date" PNone); [|discriminate].
    injection H as <-. rewrite orb_true_r.
    cbn [cr_verification_results]. unfold tool_entries.
    rewrite lookup_setitem_same, !lookup_setitem_other by discriminate.
    repeat split; eauto 10. }
  rewrite orb_false_r.
  destruct (String.eqb (tc_name tc) "verify_location") eqn:E3.
  { destruct (py_get args "vendor_name" PNone); [|discriminate].
    destruct (py_get args "address" PNone); [|discriminate].
    destruct (py_get args "coordinates" PNone); [|discriminate].
    injection H as <-. cbn [cr_verification_results]. unfold tool_entries.
    rewrite lookup_setitem_same, !lookup_setitem_other by discriminate.
    repeat split; eauto 10. }
  destruct (String.eqb (tc_name tc) "check_operating_hours") eqn:E4.
  { destruct (py_get args "vendor_name" PNone); [|discriminate].
    destruct (py_get args "date" PNone); [|discriminate].
    destruct (py_get args "time" PNone); [|discriminate].
    injection H as <-. cbn [cr_verification_results]. unfold tool_entries.
    rewrite lookup_setitem_same, !lookup_setitem_other by discriminate.
    repeat split; eauto 10. }
  injection H as <-. cbn [cr_verification_results]. repeat split; assumption.
Qed.

Lemma run_tool_calls_entries (clock : nat -> string) (calls : list tool_call) :
  forall (i : nat) (results results' : call_results) (priced : bool),
    run_tool_calls clock i calls results = Ok results' ->
    tool_entries priced (cr_verification_results results) ->
    tool_entries (priced || existsb is_pricing_call calls) (cr_verification_results results').
Proof.
  induction calls as [|tc calls IH]; intros i results results' priced H Hinv.
  - cbn in H. injection H as <-. cbn. rewrite orb_false_r. exact Hinv.
  - cbn [run_tool_calls bind existsb] in *.
    destruct (run_tool_call clock i tc results) as [r1|] eqn:E; [|discriminate].
    rewrite orb_assoc.
    apply (IH (S i) r1 results' _ H).
    apply (run_tool_call_entries clock i tc results r1 priced E Hinv).
Qed.

Lemma extract_from_tool_entries (vr : dict) (priced : bool) (category : string) :
  tool_entries priced vr ->
  _extract_risk_factors_from_verification (PDict vr) category =
  if priced then [PStr ("Price outside typical range for " ++ category)%string] else [].
Proof.
  intros (Hv & Hp & Hl & Hh).
  unfold _extract_risk_factors_from_verification, risk_block_vendor, risk_block_pricing,
    risk_block_location, risk_block_hours.
  cbn [py_contains py_getitem]. unfold has_key.
  destruct Hv as [-> | [x ->]], Hl as [-> | (v & a & c & ->)], Hh as [-> | (v' & d & t & ->)];
    destruct priced;
    try (destruct Hp as (n & pa & pb & pc & pd & ->));
    try rewrite Hp; reflexivity.
Qed.

(** X7. Whatever the reasoning service asks for, the risk factors drawn
    from the results of the tool loop are decided by one thing only: when
    a pricing check ran, the single factor "Price outside typical range"
    is reported, whatever the price of the expense is; otherwise none is.
    The vendor, location and opening-hours tools never lead to a risk
    factor. *)
Theorem tool_results_risk_factors :
  forall (clock : nat -> string) (calls : list tool_call) (results : call_results)
         (category : string),
    run_tool_calls clock 0 calls no_results = Ok results ->
    _extract_risk_factors_from_verification
      (PDict (cr_verification_results results)) category =
    if existsb is_pricing_call calls
    then [PStr ("Price outside typical range for " ++ category)%string]
    else [].
Proof.
  intros clock calls results category H.
  apply (extract_from_tool_entries (cr_verification_results results)
           (existsb is_pricing_call calls) category).
  apply (run_tool_calls_entries clock calls 0 no_results results false H).
  unfold tool_entries, no_results. cbn. auto.
Qed.

(** X7 on the CityCab ride. *)
Lemma tool_results_risk_factors_witness :
  exists results,
    run_tool_calls (fun _ => "2024-03-01T12:00:00") 0 [citycab_call] no_results = Ok results /\
    _extract_risk_factors_from_verification
      (PDict (cr_verification_results results)) "travel" =
    [PStr "Price outside typical range for travel"].
Proof.
  eexists. split; [reflexivity|].
  apply (tool_results_risk_factors (fun _ => "2024-03-01T12:00:00") [citycab_call] _ "travel").
  reflexivity.
Defined.

(** ** The request to the reasoning service: all or nothing *)

Lemma run_tool_calls_undecoded (clock : nat -> string) (calls : list tool_call)
    (tc : tool_call) (e : exn) :
  In tc calls -> tc_arguments tc = Raise e ->
  forall (i : nat) (results : call_results),
  exists e', run_tool_calls clock i calls results = Raise e'.
Proof.
  intros Hin Hargs. induction calls as [|tc' calls IH]; [destruct Hin|].
  intros i results. cbn [run_tool_calls bind].
  destruct Hin as [-> | Hin].
  - unfold run_tool_call. rewrite Hargs. cbn [bind]. eexists. reflexivity.
  - destruct (run_tool_call clock i tc' results) as [r1|e1]; cbn [bind];
      [|eexists; reflexivity].
    apply (IH Hin).
Qed.

(** X8. [_make_online_verification_call] returns everything or nothing
    and never raises.  Without a client it returns the empty dictionary
    and the service is not called.  With a client, a failing request, a
    reply whose tool calls are [None], and a reply in which the arguments
    of one call cannot be decoded all give the empty dictionary: the
    results of the calls that ran before the bad one are dropped. *)
Theorem online_verification_call_all_or_nothing :
  forall (w : world) (p : prompt) (tools : list tool_schema) (st : detector * list event),
    (groq_client w = None ->
       _make_online_verification_call w p tools st = (Ok (PDict []), st)) /\
    (forall client : reasoning_client,
       groq_client w = Some client ->
       (forall e, tool_completion client p tools = Raise e ->
          fst (_make_online_verification_call w p tools st) = Ok (PDict [])) /\
       (tool_completion client p tools = Ok AttrNone ->
          fst (_make_online_verification_call w p tools st) = Ok (PDict [])) /\
       (forall calls tc e,
          tool_completion client p tools = Ok (AttrList calls) ->
          In tc calls -> tc_arguments tc = Raise e ->
          fst (_make_online_verification_call w p tools st) = Ok (PDict []))) /\
    (forall e, fst (_make_online_verification_call w p tools st) <> Raise e).
Proof.
  intros w p tools st. split; [|split].
  - intro H. unfold _make_online_verification_call. rewrite H. reflexivity.
  - intros client Hc. unfold _make_online_verification_call. rewrite Hc.
    unfold mbind, log, ret. cbn [fst snd]. unfold process_reply.
    split; [|split].
    + intros e ->. reflexivity.
    + intros ->. reflexivity.
    + intros calls tc e -> Hin Hargs. cbn [bind].
      destruct (run_tool_calls_undecoded (now_iso w) calls tc e Hin Hargs 0
                  {| cr_verification_results := []; cr_tool_calls := [] |}) as [e' ->].
      reflexivity.
  - intros e. unfold _make_online_verification_call.
    destruct (groq_client w); [|discriminate].
    unfold mbind, log, ret. cbn [fst snd]. discriminate.
Qed.

(** X8 on a reply whose second call has arguments that are not JSON. *)
Lemma online_verification_call_all_or_nothing_witness :
  groq_client world_broken_reply = Some broken_client /\
  tool_completion broken_client TravelPrompt _get_verification_tools
    = Ok (AttrList broken_reply) /\
  fst (_make_online_verification_call world_broken_reply TravelPrompt
         _get_verification_tools (new_detector, [])) = Ok (PDict []).
Proof.
  split; [reflexivity|]. split; [reflexivity|].
  apply (proj2 (proj2 (proj1 (proj2 (online_verification_call_all_or_nothing
                                        world_broken_reply TravelPrompt
                                        _get_verification_tools (new_detector, [])))
                         broken_client eq_refl))
           broken_reply
           {| tc_name := "search_vendor_info"; tc_arguments := Raise ValueError |}
           ValueError eq_refl).
  - right. left. reflexivity.
  - reflexivity.
Defined.

(** ** The run of [analyze_receipt] on a found expense *)

Lemma category_verification_run (w : world) (expense_data : pyval) (self : detector)
    (events : list event) :
  _category_specific_verification w expense_data (self, events) =
  (Ok (PDict []), (self, events ++ category_request w self expense_data)).
Proof.
  unfold _category_specific_verification, category_request.
  destruct (groq_client w) as [client|] eqn:Ec;
    [|destruct (expense_category self); rewrite app_nil_r; reflexivity].
  unfold mcatch, mbind, get_self. cbn [fst snd].
  destruct (expense_category self) as [category|]; [|rewrite app_nil_r; reflexivity].
  destruct (String.eqb category ""); [rewrite app_nil_r; reflexivity|].
  destruct (_get_category_specific_prompt category expense_data) as [p|];
    [|rewrite app_nil_r; reflexivity].
  unfold _make_online_verification_call. rewrite Ec.
  unfold mbind, log, ret, await, raise. cbn [fst snd]. reflexivity.
Qed.

Lemma store_run (w : world) (client : store_client) (expense_id : string) (r p : Q)
    (self : detector) (events : list event) :
  supabase w = Some client ->
  _store_fraud_check_results w expense_id r p (self, events) =
  (Ok (stored_id (insert_fraud_check client (fraud_check_row self expense_id r p))),
   (self, events ++ [Inserted (fraud_check_row self expense_id r p)])).
Proof.
  intro H. unfold _store_fraud_check_results. rewrite H.
  unfold mbind, get_self, log, ret, stored_id. cbn [fst snd]. reflexivity.
Qed.

Lemma get_expense_data_client (w : world) (expense_id : string) (row : pyval) :
  _get_expense_data w expense_id = Some row -> exists client, supabase w = Some client.
Proof.
  unfold _get_expense_data. destruct (supabase w) as [client|]; [eauto|discriminate].
Qed.

(** The run, step by step: the category is stored, the four checks are
    submitted, the category verifier is asked, the loop merges the
    futures into a detector [merged], the scores and the summary are
    computed from it, the row is sent to the store. *)
Lemma analyze_receipt_run (w : world) (expense_id file_url : string) (row : pyval)
    (category : string) (self : detector) (events : list event) :
  _get_expense_data w expense_id = Some row ->
  truthy row = true ->
  (c <- py_get row "category" (PStr "") ;; py_lower c) = Ok category ->
  exists (client : store_client) (merged : detector),
    supabase w = Some client /\
    let started := set_expense_category (Some category) self in
    let asked :=
      ((((events ++ [Submitted LlmAnalysis]) ++ [Submitted ImageAnalysis]) ++
        [Submitted OnlineVerification]) ++ [Submitted PatternAnalysis]) ++
      category_request w started row in
    let risk := _calculate_risk_score merged in
    let fraud := _calculate_fraud_probability merged in
    let sent := fraud_check_row merged expense_id risk fraud in
    for_each (completion w) (merge_future w) (started, asked) = (Ok tt, (merged, asked)) /\
    analyze_receipt w expense_id file_url (self, events) =
    (Ok (Verdict
           {| fraud_check_id := stored_id (insert_fraud_check client sent);
              overall_risk_score := risk;
              fraud_probability := fraud;
              v_risk_factors := risk_factors merged;
              v_verification_results := verification_results merged;
              v_image_analysis_results := image_analysis_results merged;
              v_online_verification_results := online_verification_results merged;
              summary := _generate_summary merged risk fraud |}),
     (merged, asked ++ [Inserted sent])).
Proof.
  intros Hrow Htruthy Hcategory.
  destruct (get_expense_data_client w expense_id row Hrow) as [client Hclient].
  exists client.
  set (started := set_expense_category (Some category) self).
  set (asked := ((((events ++ [Submitted LlmAnalysis]) ++ [Submitted ImageAnalysis]) ++
                  [Submitted OnlineVerification]) ++ [Submitted PatternAnalysis]) ++
                category_request w started row).
  destruct (for_each_merge_returns w (completion w) started asked) as (merged & Hloop).
  exists merged. split; [exact Hclient|]. cbv zeta. split; [exact Hloop|].
  unfold analyze_receipt at 1.
  unfold mcatch, mbind at 1. rewrite Hrow, Htruthy. unfold ret at 1.
  unfold mbind at 1, lift at 1. rewrite Hcategory.
  unfold mbind at 1, modify at 1. cbn [fst snd].
  do 4 (unfold mbind at 1, log at 1; cbn [fst snd]).
  unfold mbind at 1. rewrite category_verification_run.
  fold started. fold asked.
  unfold mbind at 1. rewrite Hloop.
  unfold mbind at 1, merge_category_verification, when_key. cbn [lookup assoc_get].
  unfold mbind at 1, ret at 1 2. unfold mbind at 1, get_self at 1. cbn [fst snd].
  unfold mbind at 1. rewrite (store_run w client _ _ _ _ _ Hclient).
  unfold mbind, get_self, ret. cbn [fst snd]. reflexivity.
Qed.

(** X9. The category verifier always comes back empty-handed.  It calls
    the reasoning service once when a client is configured and the
    category is travel, hotel or food, and not at all otherwise; in both
    cases it returns the empty dictionary and leaves the detector as it
    was, so the tool results never reach the risk factors or the
    verification results.  (The method awaits the value of a plain call;
    the [TypeError] is caught by its handler.) *)
Theorem category_verifier_discards_results :
  forall (w : world) (expense_data : pyval) (self : detector) (events : list event),
    _category_specific_verification w expense_data (self, events) =
      (Ok (PDict []), (self, events ++ category_request w self expense_data)) /\
    (List.length (category_request w self expense_data) <= 1)%nat /\
    (groq_client w = None -> category_request w self expense_data = []) /\
    (forall client category,
       groq_client w = Some client ->
       expense_category self = Some category ->
       In category ["travel"; "hotel"; "food"] ->
       exists p, category_request w self expense_data = [ReasoningCall p]).
Proof.
  intros w expense_data self events.
  split; [apply category_verification_run|]. split; [|split].
  - unfold category_request.
    destruct (groq_client w), (expense_category self) as [category|]; cbn; try lia.
    destruct (String.eqb category ""); cbn; [lia|].
    destruct (_get_category_specific_prompt category expense_data); cbn; lia.
  - intro H. unfold category_request. rewrite H. reflexivity.
  - intros client category Hc Hcat Hin. unfold category_request. rewrite Hc, Hcat.
    destruct Hin as [<-|[<-|[<-|[]]]]; eexists; reflexivity.
Qed.

(** X9 on a travel expense. *)
Lemma category_verifier_discards_results_witness :
  groq_client world_partial_failure = Some citycab_client /\
  In "travel" ["travel"; "hotel"; "food"] /\
  exists p,
    category_request world_partial_failure
      (set_expense_category (Some "travel") new_detector) expense_row = [ReasoningCall p].
Proof.
  assert (H : In "travel" ["travel"; "hotel"; "food"]) by (left; reflexivity).
  split; [reflexivity|]. split; [exact H|].
  apply (proj2 (proj2 (proj2 (category_verifier_discards_results world_partial_failure
                                expense_row
                                (set_expense_category (Some "travel") new_detector) [])))
           citycab_client "travel" eq_refl eq_refl H).
Defined.

(** ** The scores of a verdict *)

Lemma risk_score_category_share (self : detector) :
  (_calculate_risk_score self == (2 # 10) * _get_category_specific_risk_score self)%Q.
Proof.
  unfold _calculate_risk_score. rewrite weighted_sum_formula. cbn [scores].
  unfold _get_llm_risk_score, _get_image_risk_score, _get_verification_risk_score,
    _get_pattern_risk_score. ring.
Qed.

Lemma fraud_probability_category_share (self : detector) :
  (_calculate_fraud_probability self ==
   (14 # 100) * _get_category_specific_risk_score self)%Q.
Proof.
  unfold _calculate_fraud_probability, blend, _get_verification_confidence.
  rewrite risk_score_category_share. ring.
Qed.

Lemma scores_low (self : detector) :
  (0 <= _calculate_risk_score self <= 2 # 10)%Q /\
  (0 <= _calculate_fraud_probability self <= 14 # 100)%Q.
Proof.
  pose proof (category_specific_risk_score_unit self) as U. unfold unit_interval in U.
  rewrite fraud_probability_category_share, risk_score_category_share. lra.
Qed.

(** The label of a fraud probability of at most 0.14. *)
Lemma percentage_low (p : Q) :
  (0 <= p <= 14 # 100)%Q ->
  exists fraud_percentage,
    percentage p = Ok fraud_percentage /\ assessment_of fraud_percentage = "LOW RISK".
Proof.
  intros [L U].
  destruct (percentage_bounds p 14) as (n & E & B);
    [split; [lia|reflexivity]|exact L|change (inject_Z 14) with 14%Q; lra|].
  exists n. split; [exact E|]. apply (assessment_cases n). lia.
Qed.

(** X10. A verdict is never above low risk.  Four of the five category
    scores and the verification confidence are constants 0.0, so the risk
    score is 0.2 times the category-specific score, at most 0.2, the fraud
    probability is 0.14 times that score, at most 0.14, and the assessment
    printed in the summary is LOW RISK for every detector; the verdict of
    [analyze_receipt] on a found expense carries these scores. *)
Theorem verdict_never_above_low_risk :
  (forall self : detector,
     (_calculate_risk_score self ==
      (2 # 10) * _get_category_specific_risk_score self)%Q /\
     (_calculate_fraud_probability self ==
      (14 # 100) * _get_category_specific_risk_score self)%Q /\
     (0 <= _calculate_risk_score self <= 2 # 10)%Q /\
     (0 <= _calculate_fraud_probability self <= 14 # 100)%Q /\
     assessment_of (py_int (_calculate_fraud_probability self * 100)) = "LOW RISK" /\
     exists fraud_percentage,
       percentage (_calculate_fraud_probability self) = Ok fraud_percentage /\
       assessment_of fraud_percentage = "LOW RISK") /\
  (forall (w : world) (expense_id file_url : string) (row : pyval) (category : string)
          (self : detector) (events : list event),
     _get_expense_data w expense_id = Some row ->
     truthy row = true ->
     (c <- py_get row "category" (PStr "") ;; py_lower c) = Ok category ->
     exists (v : verdict) (st' : detector * list event),
       analyze_receipt w expense_id file_url (self, events) = (Ok (Verdict v), st') /\
       (0 <= overall_risk_score v <= 2 # 10)%Q /\
       (0 <= fraud_probability v <= 14 # 100)%Q /\
       assessment_of (py_int (fraud_probability v * 100)) = "LOW RISK" /\
       exists fraud_percentage,
         percentage (fraud_probability v) = Ok fraud_percentage /\
         assessment_of fraud_percentage = "LOW RISK").
Proof.
  assert (L : forall self : detector,
             assessment_of (py_int (_calculate_fraud_probability self * 100)) = "LOW RISK").
  { intro self. apply (assessment_tiers (_calculate_fraud_probability self)).
    pose proof (scores_low self) as [_ [_ H]]. lra. }
  assert (P : forall self : detector,
             exists fraud_percentage,
               percentage (_calculate_fraud_probability self) = Ok fraud_percentage /\
               assessment_of fraud_percentage = "LOW RISK").
  { intro self. pose proof (scores_low self) as [_ B]. apply percentage_low. exact B. }
  split.
  - intro self. split; [apply risk_score_category_share|].
    split; [apply fraud_probability_category_share|].
    pose proof (scores_low self) as [A B].
    split; [exact A|]. split; [exact B|]. split; [apply L|apply P].
  - intros w expense_id file_url row category self events Hrow Htruthy Hcategory.
    destruct (analyze_receipt_run w expense_id file_url row category self events
                Hrow Htruthy Hcategory) as (client & merged & _ & _ & E).
    eexists; eexists. split; [exact E|].
    cbn [overall_risk_score fraud_probability].
    pose proof (scores_low merged) as [A B].
    split; [exact A|]. split; [exact B|]. split; [apply L|apply P].
Qed.

(** X10 on an expense whose language-model and image checks fail. *)
Lemma verdict_never_above_low_risk_witness :
  _get_expense_data world_partial_failure "e-1" = Some expense_row /\
  truthy expense_row = true /\
  (c <- py_get expense_row "category" (PStr "") ;; py_lower c) = Ok "travel" /\
  exists (v : verdict) (st' : detector * list event),
    analyze_receipt world_partial_failure "e-1" "https://files/receipt.png" (new_detector, [])
      = (Ok (Verdict v), st') /\
    (0 <= overall_risk_score v <= 2 # 10)%Q /\
    (0 <= fraud_probability v <= 14 # 100)%Q /\
    assessment_of (py_int (fraud_probability v * 100)) = "LOW RISK" /\
    exists fraud_percentage,
      percentage (fraud_probability v) = Ok fraud_percentage /\
      assessment_of fraud_percentage = "LOW RISK".
Proof.
  split; [reflexivity|]. split; [reflexivity|]. split; [reflexivity|].
  apply (proj2 verdict_never_above_low_risk world_partial_failure "e-1"
           "https://files/receipt.png" expense_row "travel" new_detector []);
    reflexivity.
Defined.

(** ** Storing the verdict *)

(** X11. A failure of the store does not hide the verdict.  On a found
    expense whose category can be lower-cased (a string, or no category
    at all) [analyze_receipt] sends one row to the store, after the four
    submissions and the request of the category verifier; the row holds
    the scores and the four collections of the verdict.  The verdict is
    returned whatever the insert does: its identifier is the [id] of the
    first row of the reply, and [None] when the insert raises, returns no
    row, or returns a first row without an [id]. *)
Theorem store_failure_keeps_verdict :
  forall (w : world) (expense_id file_url : string) (row : pyval) (category : string)
         (self : detector) (events : list event),
    _get_expense_data w expense_id = Some row ->
    truthy row = true ->
    (c <- py_get row "category" (PStr "") ;; py_lower c) = Ok category ->
    exists (client : store_client) (v : verdict) (self' : detector)
           (before : list event) (sent : dict),
      supabase w = Some client /\
      analyze_receipt w expense_id file_url (self, events) =
        (Ok (Verdict v), (self', before ++ [Inserted sent])) /\
      (forall r, In (Inserted r) before -> In (Inserted r) events) /\
      sent =
        [ (KStr "expense_id", PStr expense_id);
          (KStr "overall_risk_score", PNum (overall_risk_score v));
          (KStr "fraud_probability", PNum (fraud_probability v));
          (KStr "risk_factors", PList (v_risk_factors v));
          (KStr "verification_results", PDict (v_verification_results v));
          (KStr "image_analysis_results", PDict (v_image_analysis_results v));
          (KStr "online_verification_results",
           PDict (v_online_verification_results v)) ] /\
      (raised (insert_fraud_check client sent) = true -> fraud_check_id v = PNone) /\
      (insert_fraud_check client sent = Ok [] -> fraud_check_id v = PNone) /\
      (forall first rest,
         insert_fraud_check client sent = Ok (first :: rest) ->
         fraud_check_id v =
         match first with
         | PDict d => match lookup "id" d with Some i => i | None => PNone end
         | _ => PNone
         end).
Proof.
  intros w expense_id file_url row category self events Hrow Htruthy Hcategory.
  destruct (analyze_receipt_run w expense_id file_url row category self events
              Hrow Htruthy Hcategory) as (client & merged & Hclient & _ & E).
  exists client. eexists. exists merged. eexists. eexists.
  split; [exact Hclient|]. split; [exact E|].
  cbn [fraud_check_id overall_risk_score fraud_probability v_risk_factors
       v_verification_results v_image_analysis_results v_online_verification_results].
  split; [|split; [reflexivity|]].
  - intros r I. rewrite !in_app_iff in I. cbn [In] in I.
    unfold category_request in I.
    destruct I as [[[[[I|[I|[]]]|[I|[]]]|[I|[]]]|[I|[]]]|I]; try discriminate I;
      [exact I|].
    destruct (groq_client w); [|destruct I].
    cbn [expense_category set_expense_category] in I.
    destruct (String.eqb category ""); [destruct I|].
    destruct (_get_category_specific_prompt category row); [|destruct I].
    destruct I as [I|[]]. discriminate I.
  - unfold stored_id.
    split; [|split].
    + intro H. destruct (insert_fraud_check client _); [discriminate H|reflexivity].
    + intros ->. reflexivity.
    + intros first rest ->. cbn [bind catch]. unfold py_getitem.
      destruct first as [| | | | |d]; try reflexivity.
      destruct (lookup "id" d); reflexivity.
Qed.

(** X11 with a store whose insert raises. *)
Lemma store_failure_keeps_verdict_witness :
  _get_expense_data world_insert_fails "e-1" = Some expense_row /\
  truthy expense_row = true /\
  (c <- py_get expense_row "category" (PStr "") ;; py_lower c) = Ok "travel" /\
  exists (client : store_client) (v : verdict) (self' : detector)
         (before : list event) (sent : dict),
    supabase world_insert_fails = Some client /\
    analyze_receipt world_insert_fails "e-1" "https://files/receipt.png" (new_detector, []) =
      (Ok (Verdict v), (self', before ++ [Inserted sent])) /\
    (forall r, In (Inserted r) before -> In (Inserted r) []) /\
    sent =
      [ (KStr "expense_id", PStr "e-1");
        (KStr "overall_risk_score", PNum (overall_risk_score v));
        (KStr "fraud_probability", PNum (fraud_probability v));
        (KStr "risk_factors", PList (v_risk_factors v));
        (KStr "verification_results", PDict (v_verification_results v));
        (KStr "image_analysis_results", PDict (v_image_analysis_results v));
        (KStr "online_verification_results",
         PDict (v_online_verification_results v)) ] /\
    (raised (insert_fraud_check client sent) = true -> fraud_check_id v = PNone) /\
    (insert_fraud_check client sent = Ok [] -> fraud_check_id v = PNone) /\
    (forall first rest,
       insert_fraud_check client sent = Ok (first :: rest) ->
       fraud_check_id v =
       match first with
       | PDict d => match lookup "id" d with Some i => i | None => PNone end
       | _ => PNone
       end).
Proof.
  split; [reflexivity|]. split; [reflexivity|]. split; [reflexivity|].
  apply (store_failure_keeps_verdict world_insert_fails "e-1" "https://files/receipt.png"
           expense_row "travel" new_detector []); reflexivity.
Defined.

(** ** Merging the results of the checks *)

Lemma keys_kept_refl (d : dict) : keys_kept d d.
Proof. intros k H. exact H. Qed.

Lemma keys_kept_trans (d1 d2 d3 : dict) :
  keys_kept d1 d2 -> keys_kept d2 d3 -> keys_kept d1 d3.
Proof. intros H1 H2 k H. apply H2, H1, H. Qed.

Lemma assoc_set_keeps (k : pykey) (v : pyval) (d : dict) : keys_kept d (assoc_set k v d).
Proof.
  induction d as [|[k0 v0] d IH]; intros k' H; cbn [assoc_set assoc_get] in *.
  - contradiction.
  - destruct (key_eqb k k0); cbn [assoc_get]; destruct (key_eqb k' k0);
      try discriminate; [exact H|apply IH; exact H].
Qed.

Lemma dict_merge_keeps (d e : dict) : keys_kept d (dict_merge d e).
Proof.
  unfold dict_merge. revert d. induction e as [|kv e IH]; intro d; cbn [fold_left].
  - apply keys_kept_refl.
  - eapply keys_kept_trans; [apply assoc_set_keeps|apply IH].
Qed.

Lemma update_item_keeps (d : dict) (item : pyval) (d' : dict) :
  update_item d item = Ok d' -> keys_kept d d'.
Proof.
  unfold update_item, bind.
  destruct (py_iter item) as [kv|]; [|discriminate].
  destruct kv as [|k [|v [|]]]; try discriminate.
  destruct (to_key k); [|discriminate].
  intro H. injection H as <-. apply assoc_set_keeps.
Qed.

Lemma py_update_keeps (d : dict) (v : pyval) : keys_kept d (fst (py_update d v)).
Proof.
  remember update_item as ui eqn:U.
  assert (G : forall items d,
             keys_kept d
               (fst ((fix go (items : list pyval) (d : dict) {struct items}
                        : dict * option exn :=
                        match items with
                        | [] => (d, None)
                        | item :: rest =>
                            match ui d item with
                            | Ok d' => go rest d'
                            | Raise e => (d, Some e)
                            end
                        end) items d))).
  { induction items as [|item rest IH]; intro d0.
    - apply keys_kept_refl.
    - destruct (ui d0 item) as [d'|e] eqn:E.
      + eapply keys_kept_trans;
          [apply (update_item_keeps d0 item d'); rewrite <- U; exact E|].
        specialize (IH d'). simpl. rewrite ?E. exact IH.
      + simpl. rewrite ?E. apply keys_kept_refl. }
  subst ui. destruct v; cbn [py_update py_iter fst]; try apply keys_kept_refl.
  - apply G.
  - apply G.
  - apply dict_merge_keeps.
Qed.

Lemma grows_refl (self : detector) : grows self self.
Proof.
  split; [exists []; rewrite app_nil_r; reflexivity|].
  repeat split; apply keys_kept_refl.
Qed.

Lemma grows_trans (s1 s2 s3 : detector) : grows s1 s2 -> grows s2 s3 -> grows s1 s3.
Proof.
  intros ((a1 & R1) & V1 & I1 & O1) ((a2 & R2) & V2 & I2 & O2).
  split; [exists (a1 ++ a2)%list; rewrite R2, R1, app_assoc; reflexivity|].
  split; [|split]; eapply keys_kept_trans; eassumption.
Qed.

Lemma accumulating_ret {A : Type} (a : A) : accumulating (ret a).
Proof. intros self events r self' events' E. injection E as _ <- _. apply grows_refl. Qed.

Lemma accumulating_raise {A : Type} (e : exn) : accumulating (@raise A e).
Proof. intros self events r self' events' E. injection E as _ <- _. apply grows_refl. Qed.

Lemma accumulating_lift {A : Type} (c : result A) : accumulating (lift c).
Proof. intros self events r self' events' E. injection E as _ <- _. apply grows_refl. Qed.

Lemma accumulating_get_self : accumulating get_self.
Proof. intros self events r self' events' E. injection E as _ <- _. apply grows_refl. Qed.

Lemma accumulating_log (ev : event) : accumulating (log ev).
Proof. intros self events r self' events' E. injection E as _ <- _. apply grows_refl. Qed.

Lemma accumulating_modify (f : detector -> detector) :
  (forall self, grows self (f self)) -> accumulating (modify f).
Proof. intros H self events r self' events' E. injection E as _ <- _. apply H. Qed.

Lemma accumulating_mbind {A B : Type} (c : M A) (k : A -> M B) :
  accumulating c -> (forall a, accumulating (k a)) -> accumulating (mbind c k).
Proof.
  intros Hc Hk self events r self' events' E. unfold mbind in E.
  destruct (c (self, events)) as [[a|e] [s1 e1]] eqn:E1.
  - eapply grows_trans; [exact (Hc _ _ _ _ _ E1)|exact (Hk a _ _ _ _ _ E)].
  - injection E as _ <- _. exact (Hc _ _ _ _ _ E1).
Qed.

Lemma accumulating_mcatch {A : Type} (c : M A) (h : exn -> M A) :
  accumulating c -> (forall e, accumulating (h e)) -> accumulating (mcatch c h).
Proof.
  intros Hc Hh self events r self' events' E. unfold mcatch in E.
  destruct (c (self, events)) as [[a|e] [s1 e1]] eqn:E1.
  - injection E as _ <- _. exact (Hc _ _ _ _ _ E1).
  - eapply grows_trans; [exact (Hc _ _ _ _ _ E1)|exact (Hh e _ _ _ _ _ E)].
Qed.

Lemma accumulating_extend_risk_factors (v : pyval) : accumulating (extend_risk_factors v).
Proof.
  intros self events r self' events' E.
  unfold extend_risk_factors, mbind, get_self, lift, modify in E. cbn [fst snd] in E.
  unfold py_extend, bind in E.
  destruct (py_iter v) as [items|e]; injection E as _ <- _; [|apply grows_refl].
  split; [exists items; reflexivity|]. repeat split; apply keys_kept_refl.
Qed.

Lemma accumulating_update_attr (read : detector -> dict)
    (write : dict -> detector -> detector) (v : pyval) :
  (forall d self, keys_kept (read self) d -> grows self (write d self)) ->
  accumulating (update_attr read write v).
Proof.
  intros H self events r self' events' E.
  unfold update_attr, mbind, get_self, modify in E. cbn [fst snd] in E.
  pose proof (py_update_keeps (read self) v) as K.
  destruct (py_update (read self) v) as [d [e|]]; cbn [fst] in K;
    unfold raise, ret in E; injection E as _ <- _; apply H, K.
Qed.

Lemma grows_set_verification_results (d : dict) (self : detector) :
  keys_kept (verification_results self) d -> grows self (set_verification_results d self).
Proof.
  intro K. split; [exists []; rewrite app_nil_r; reflexivity|].
  split; [exact K|]. split; apply keys_kept_refl.
Qed.

Lemma grows_set_image_analysis_results (d : dict) (self : detector) :
  keys_kept (image_analysis_results self) d ->
  grows self (set_image_analysis_results d self).
Proof.
  intro K. split; [exists []; rewrite app_nil_r; reflexivity|].
  split; [apply keys_kept_refl|]. split; [exact K|apply keys_kept_refl].
Qed.

Lemma grows_set_online_verification_results (d : dict) (self : detector) :
  keys_kept (online_verification_results self) d ->
  grows self (set_online_verification_results d self).
Proof.
  intro K. split; [exists []; rewrite app_nil_r; reflexivity|].
  split; [apply keys_kept_refl|]. split; [apply keys_kept_refl|exact K].
Qed.

Lemma accumulating_when_key (key : string) (r : dict) (apply : pyval -> M unit) :
  (forall v, accumulating (apply v)) -> accumulating (when_key key r apply).
Proof.
  intro H. unfold when_key. destruct (lookup key r); [apply H|apply accumulating_ret].
Qed.

Lemma accumulating_merge_future (w : world) (a : analyzer) : accumulating (merge_future w a).
Proof.
  unfold merge_future.
  apply accumulating_mcatch; [|intros _; apply accumulating_ret].
  apply accumulating_mbind; [apply accumulating_lift|intro result].
  destruct result; try apply accumulating_ret.
  repeat (apply accumulating_mbind; [|intros _]);
    apply accumulating_when_key; intro v;
    first [ apply accumulating_extend_risk_factors
          | apply accumulating_update_attr;
            first [ exact grows_set_verification_results
                  | exact grows_set_image_analysis_results
                  | exact grows_set_online_verification_results ] ].
Qed.

Lemma accumulating_for_each {A : Type} (l : list A) (body : A -> M unit) :
  (forall a, accumulating (body a)) -> accumulating (for_each l body).
Proof.
  intro H. induction l as [|a l IH]; cbn [for_each]; [apply accumulating_ret|].
  apply accumulating_mbind; [apply H|intros _; exact IH].
Qed.

(** X12. The analysis only accumulates.  Merging a future removes
    nothing from the detector: the risk factors are extended at the end,
    and a key of one of the three result dictionaries stays a key.
    [analyze_receipt] never resets the collections either, so the verdict
    on a found expense holds every risk factor and every key the detector
    held when the method was called, and the detector is left with the
    collections of the verdict. *)
Theorem analysis_only_accumulates :
  (forall (w : world) (a : analyzer), accumulating (merge_future w a)) /\
  (forall (w : world) (expense_id file_url : string) (row : pyval) (category : string)
          (self : detector) (events : list event),
     _get_expense_data w expense_id = Some row ->
     truthy row = true ->
     (c <- py_get row "category" (PStr "") ;; py_lower c) = Ok category ->
     exists (v : verdict) (self' : detector) (events' : list event),
       analyze_receipt w expense_id file_url (self, events) =
         (Ok (Verdict v), (self', events')) /\
       grows self self' /\
       (exists added, v_risk_factors v = (risk_factors self ++ added)%list) /\
       v_risk_factors v = risk_factors self' /\
       v_verification_results v = verification_results self' /\
       v_image_analysis_results v = image_analysis_results self' /\
       v_online_verification_results v = online_verification_results self').
Proof.
  split; [exact accumulating_merge_future|].
  intros w expense_id file_url row category self events Hrow Htruthy Hcategory.
  destruct (analyze_receipt_run w expense_id file_url row category self events
              Hrow Htruthy Hcategory) as (client & merged & _ & Hloop & E).
  eexists. exists merged. eexists. split; [exact E|].
  cbn [v_risk_factors v_verification_results v_image_analysis_results
       v_online_verification_results].
  assert (G : grows self merged).
  { apply (accumulating_for_each (completion w) (merge_future w)
             (accumulating_merge_future w) _ _ _ _ _) in Hloop.
    exact Hloop. }
  split; [exact G|]. split; [exact (proj1 G)|]. repeat split.
Qed.

(** X12 with a detector that has analysed a receipt before: the factor of
    the first receipt is reported again. *)
Lemma analysis_only_accumulates_witness :
  _get_expense_data world_partial_failure "e-1" = Some expense_row /\
  truthy expense_row = true /\
  (c <- py_get expense_row "category" (PStr "") ;; py_lower c) = Ok "travel" /\
  exists (v : verdict) (self' : detector) (events' : list event),
    analyze_receipt world_partial_failure "e-1" "https://files/receipt.png"
      (used_detector, []) = (Ok (Verdict v), (self', events')) /\
    grows used_detector self' /\
    (exists added, v_risk_factors v = (risk_factors used_detector ++ added)%list) /\
    v_risk_factors v = risk_factors self' /\
    v_verification_results v = verification_results self' /\
    v_image_analysis_results v = image_analysis_results self' /\
    v_online_verification_results v = online_verification_results self'.
Proof.
  split; [reflexivity|]. split; [reflexivity|]. split; [reflexivity|].
  apply (proj2 analysis_only_accumulates world_partial_failure "e-1"
           "https://files/receipt.png" expense_row "travel" used_detector []);
    reflexivity.
Defined.

Lemma key_eqb_str_r (k : string) (k' : pykey) :
  key_eqb k' (KStr k) = true -> k' = KStr k.
Proof.
  destruct k'; cbn; try discriminate. intro H. apply String.eqb_eq in H. congruence.
Qed.

Lemma key_eqb_str_refl (k : string) : key_eqb (KStr k) (KStr k) = true.
Proof. cbn. apply String.eqb_refl. Qed.

Lemma lookup_assoc_set (k : string) (k' : pykey) (v : pyval) (d : dict) :
  lookup k (assoc_set k' v d) = if key_eqb (KStr k) k' then Some v else lookup k d.
Proof.
  unfold lookup. induction d as [|[k0 v0] d IH]; cbn [assoc_set assoc_get].
  - reflexivity.
  - destruct (key_eqb k' k0) eqn:E0; cbn [assoc_get].
    + destruct (key_eqb (KStr k) k0) eqn:E1.
      * apply key_eqb_str in E1. subst k0. apply key_eqb_str_r in E0. subst k'.
        rewrite key_eqb_str_refl. reflexivity.
      * destruct (key_eqb (KStr k) k') eqn:E2; [|reflexivity].
        apply key_eqb_str in E2. subst k'. apply key_eqb_str in E0. subst k0.
        rewrite key_eqb_str_refl in E1. discriminate E1.
    + rewrite IH. destruct (key_eqb (KStr k) k0) eqn:E1; [|reflexivity].
      destruct (key_eqb (KStr k) k') eqn:E2; [|reflexivity].
      apply key_eqb_str in E1. apply key_eqb_str in E2. subst k0 k'.
      rewrite key_eqb_str_refl in E0. discriminate E0.
Qed.

Lemma assoc_get_app (k : pykey) (d e : dict) :
  assoc_get k (d ++ e) =
  match assoc_get k d with
  | Some v => Some v
  | None => assoc_get k e
  end.
Proof.
  induction d as [|[k0 v0] d IH]; cbn [app assoc_get]; [reflexivity|].
  destruct (key_eqb k k0); [reflexivity|exact IH].
Qed.

Lemma lookup_dict_merge (k : string) (d e : dict) :
  lookup k (dict_merge d e) =
  match last_value k e with
  | Some v => Some v
  | None => lookup k d
  end.
Proof.
  unfold dict_merge, last_value. revert d.
  induction e as [|[k0 v0] e IH]; intro d; cbn [fold_left rev fst snd]; [reflexivity|].
  rewrite IH, assoc_get_app, lookup_assoc_set. cbn [assoc_get].
  destruct (assoc_get (KStr k) (rev e)); [reflexivity|].
  destruct (key_eqb (KStr k) k0); reflexivity.
Qed.

Lemma update_attr_frame {B : Type} (proj : detector -> B) (read : detector -> dict)
    (write : dict -> detector -> detector) (v : pyval) (self : detector)
    (events : list event) :
  (forall d s, proj (write d s) = proj s) ->
  exists r self',
    update_attr read write v (self, events) = (r, (self', events)) /\
    proj self' = proj self.
Proof.
  intro H. unfold update_attr, mbind, get_self, modify. cbn [fst snd].
  destruct (py_update (read self) v) as [d [e|]]; unfold raise, ret;
    eexists; eexists; (split; [reflexivity|apply H]).
Qed.

Lemma when_key_frame {B : Type} (proj : detector -> B) (key : string) (r : dict)
    (read : detector -> dict) (write : dict -> detector -> detector) (self : detector)
    (events : list event) :
  (forall d s, proj (write d s) = proj s) ->
  exists res self',
    when_key key r (update_attr read write) (self, events) = (res, (self', events)) /\
    proj self' = proj self.
Proof.
  intro H. unfold when_key. destruct (lookup key r) as [v|].
  - apply update_attr_frame. exact H.
  - unfold ret. eauto.
Qed.

(** The end of the loop body: the image and the online results are
    merged, and what is raised there is caught. *)
Lemma merge_tail_frame {B : Type} (proj : detector -> B) (r : dict) (self : detector)
    (events : list event) :
  (forall d s, proj (set_image_analysis_results d s) = proj s) ->
  (forall d s, proj (set_online_verification_results d s) = proj s) ->
  exists res self',
    (when_key "image_analysis_results" r
       (update_attr image_analysis_results set_image_analysis_results) ;;;
     when_key "online_verification_results" r
       (update_attr online_verification_results set_online_verification_results))
      (self, events) = (res, (self', events)) /\
    proj self' = proj self.
Proof.
  intros Hi Ho. unfold mbind.
  destruct (when_key_frame proj "image_analysis_results" r image_analysis_results
              set_image_analysis_results self events Hi) as (r1 & s1 & -> & P1).
  destruct r1 as [[]|e]; [|eauto].
  destruct (when_key_frame proj "online_verification_results" r
              online_verification_results set_online_verification_results s1 events Ho)
    as (r2 & s2 & -> & P2).
  exists r2, s2. split; [reflexivity|congruence].
Qed.

(** X13. Later results overwrite earlier ones.  When a future returns a
    mapping whose [verification_results] entry is a mapping (and whose
    [risk_factors] entry, if any, can be iterated), the loop body returns
    and afterwards a key of the detector's verification results holds the
    value of the future if the future has the key, and its earlier value
    otherwise: two checks that report under one key leave only the report
    of the one that completed last. *)
Theorem merge_future_last_writer_wins :
  forall (w : world) (a : analyzer) (r e : dict) (self : detector) (events : list event),
    future_result w a = Ok (PDict r) ->
    (forall v, lookup "risk_factors" r = Some v -> raised (py_iter v) = false) ->
    lookup "verification_results" r = Some (PDict e) ->
    exists self',
      merge_future w a (self, events) = (Ok tt, (self', events)) /\
      forall k : string,
        lookup k (verification_results self') =
        match last_value k e with
        | Some v => Some v
        | None => lookup k (verification_results self)
        end.
Proof.
  intros w a r e self events Hf Hr He.
  assert (S1 : exists s1,
             when_key "risk_factors" r extend_risk_factors (self, events) =
               (Ok tt, (s1, events)) /\
             verification_results s1 = verification_results self).
  { unfold when_key. destruct (lookup "risk_factors" r) as [v|] eqn:L.
    - specialize (Hr v eq_refl).
      unfold extend_risk_factors, mbind, get_self, lift, modify, py_extend, bind.
      cbn [fst snd]. destruct (py_iter v) as [items|]; [|discriminate Hr].
      eexists. split; reflexivity.
    - exists self. split; reflexivity. }
  destruct S1 as (s1 & E1 & V1).
  destruct (merge_tail_frame verification_results r
              (set_verification_results (dict_merge (verification_results s1) e) s1)
              events (fun _ _ => eq_refl) (fun _ _ => eq_refl))
    as (res & s2 & E2 & V2).
  exists s2. split.
  - unfold merge_future, mcatch. unfold mbind at 1, lift. rewrite Hf.
    unfold mbind at 1. rewrite E1.
    unfold mbind at 1. unfold when_key at 1. rewrite He.
    unfold update_attr at 1, mbind at 1, get_self at 1. cbn [fst snd py_update].
    unfold mbind at 1, modify at 1, ret at 1. cbn [fst snd].
    rewrite E2. destruct res as [[]|x]; reflexivity.
  - intro k. rewrite V2. cbn [verification_results set_verification_results].
    rewrite lookup_dict_merge, V1. reflexivity.
Qed.

(** X13 on a report about the amount that meets an earlier one. *)
Lemma merge_future_last_writer_wins_witness :
  future_result world_insert_fails LlmAnalysis =
    Ok (PDict [ (KStr "risk_factors", PList [PStr "Amount looks altered"]);
                (KStr "verification_results",
                 PDict [ (KStr "amount_check", PStr "first") ]) ]) /\
  exists self',
    merge_future world_insert_fails LlmAnalysis (detector_with_checks, []) =
      (Ok tt, (self', [])) /\
    forall k : string,
      lookup k (verification_results self') =
      match last_value k [ (KStr "amount_check", PStr "first") ] with
      | Some v => Some v
      | None => lookup k (verification_results detector_with_checks)
      end.
Proof.
  split; [reflexivity|].
  apply (merge_future_last_writer_wins world_insert_fails LlmAnalysis
           [ (KStr "risk_factors", PList [PStr "Amount looks altered"]);
             (KStr "verification_results", PDict [ (KStr "amount_check", PStr "first") ]) ]
           [ (KStr "amount_check", PStr "first") ] detector_with_checks []).
  - reflexivity.
  - intros v H. cbn in H. injection H as <-. reflexivity.
  - reflexivity.
Defined.

(** X14. The type of a [risk_factors] entry decides what the merge does.
    When the entry cannot be iterated (a number, a boolean, null) the
    [extend] raises, the loop body catches it and nothing of the future is
    merged, its verification results included.  When the entry is a
    string, each of its characters becomes a risk factor. *)
Theorem merge_future_risk_factors_type :
  forall (w : world) (a : analyzer) (r : dict) (v : pyval) (self : detector)
         (events : list event),
    future_result w a = Ok (PDict r) ->
    lookup "risk_factors" r = Some v ->
    (raised (py_iter v) = true ->
     merge_future w a (self, events) = (Ok tt, (self, events))) /\
    (forall s, v = PStr s ->
       exists self',
         merge_future w a (self, events) = (Ok tt, (self', events)) /\
         risk_factors self' = (risk_factors self ++ chars s)%list).
Proof.
  intros w a r v self events Hf Hv. split.
  - intro Hr. unfold merge_future, mcatch. unfold mbind at 1, lift. rewrite Hf.
    unfold mbind at 1, when_key at 1. rewrite Hv.
    unfold extend_risk_factors, mbind, get_self, lift, py_extend, bind. cbn [fst snd].
    destruct (py_iter v); [discriminate Hr|reflexivity].
  - intros s ->.
    set (s1 := set_risk_factors (risk_factors self ++ chars s)%list self).
    assert (T : exists res self',
               (when_key "verification_results" r
                  (update_attr verification_results set_verification_results) ;;;
                when_key "image_analysis_results" r
                  (update_attr image_analysis_results set_image_analysis_results) ;;;
                when_key "online_verification_results" r
                  (update_attr online_verification_results
                     set_online_verification_results)) (s1, events) =
               (res, (self', events)) /\
               risk_factors self' = risk_factors s1).
    { unfold mbind at 1.
      destruct (when_key_frame risk_factors "verification_results" r verification_results
                  set_verification_results s1 events (fun _ _ => eq_refl))
        as (r1 & s2 & -> & P1).
      destruct r1 as [[]|e]; [|eauto].
      destruct (merge_tail_frame risk_factors r s2 events (fun _ _ => eq_refl)
                  (fun _ _ => eq_refl)) as (r2 & s3 & -> & P2).
      exists r2, s3. split; [reflexivity|congruence]. }
    destruct T as (res & s2 & E2 & P2).
    exists s2. split; [|exact P2].
    unfold merge_future, mcatch. unfold mbind at 1, lift. rewrite Hf.
    unfold mbind at 1, when_key at 1. rewrite Hv.
    unfold extend_risk_factors at 1, mbind at 1, get_self at 1. cbn [fst snd].
    unfold mbind at 1, lift at 1, py_extend, bind. cbn [py_iter fst snd].
    unfold modify at 1. cbn [fst snd]. fold s1.
    rewrite E2. destruct res as [[]|x]; reflexivity.
Qed.

(** X14 on a future whose risk factors are a number, and on one whose
    risk factors are the string "no". *)
Lemma merge_future_risk_factors_type_witness :
  (future_result world_insert_fails ImageAnalysis =
     Ok (PDict [ (KStr "risk_factors", PNum 3);
                 (KStr "verification_results",
                  PDict [ (KStr "amount_check", PStr "third") ]) ]) /\
   raised (py_iter (PNum 3)) = true /\
   merge_future world_insert_fails ImageAnalysis (detector_with_checks, []) =
     (Ok tt, (detector_with_checks, []))) /\
  (exists self',
     merge_future world_insert_fails PatternAnalysis (detector_with_checks, []) =
       (Ok tt, (self', [])) /\
     risk_factors self' = [PStr "n"; PStr "o"]).
Proof.
  split.
  - split; [reflexivity|]. split; [reflexivity|].
    apply (proj1 (merge_future_risk_factors_type world_insert_fails ImageAnalysis _
                    (PNum 3) detector_with_checks [] eq_refl eq_refl) eq_refl).
  - apply (proj2 (merge_future_risk_factors_type world_insert_fails PatternAnalysis _
                    (PStr "no") detector_with_checks [] eq_refl eq_refl) "no" eq_refl).
Defined.

(** ** Day and month order in [_normalize_date] *)

Section DateOrder.

Local Open Scope N_scope.

Ltac month_cases m :=
  let E := fresh "E" in
  assert (E :
            m = 1 \/ m = 2 \/ m = 3 \/ m = 4 \/ m = 5 \/ m = 6 \/
            m = 7 \/ m = 8 \/ m = 9 \/ m = 10 \/ m = 11 \/ m = 12) by lia;
  destruct E as
      [ -> | [ -> | [ -> | [ -> | [ -> | [ -> | [ -> | [ -> |
      [ -> | [ -> | [ -> | -> ] ] ] ] ] ] ] ] ] ] ].

Ltac late_day_cases d :=
  let E := fresh "E" in
  assert (E :
            d = 13 \/ d = 14 \/ d = 15 \/ d = 16 \/ d = 17 \/ d = 18 \/
            d = 19 \/ d = 20 \/ d = 21 \/ d = 22 \/ d = 23 \/ d = 24 \/
            d = 25 \/ d = 26 \/ d = 27 \/ d = 28 \/ d = 29 \/ d = 30 \/
            d = 31) by lia;
  destruct E as
      [ -> | [ -> | [ -> | [ -> | [ -> | [ -> | [ -> | [ -> |
      [ -> | [ -> | [ -> | [ -> | [ -> | [ -> | [ -> | [ -> |
      [ -> | [ -> | -> ] ] ] ] ] ] ] ] ] ] ] ] ] ] ] ] ] ].

Ltac day_cases d :=
  let E := fresh "E" in
  assert (E : 1 <= d <= 12 \/ 13 <= d <= 31) by lia;
  destruct E as [E | E]; [month_cases d | late_day_cases d].

Ltac sep_cases H := destruct H as [ -> | -> ].

Lemma flat_map_flat_map {A B C : Type} (g : B -> list C) (h : A -> list B) (l : list A) :
  flat_map g (flat_map h l) = flat_map (fun x => flat_map g (h x)) l.
Proof.
  induction l as [|x l IH]; cbn [flat_map]; [reflexivity|].
  rewrite flat_map_app, IH. reflexivity.
Qed.

Lemma regex_match_app (fmt1 fmt2 : format) (s : string) (f : fields) :
  regex_match (fmt1 ++ fmt2) s f =
  flat_map (fun fr => regex_match fmt2 (snd fr) (fst fr)) (regex_match fmt1 s f).
Proof.
  revert s f. induction fmt1 as [|dir fmt1 IH]; intros s f.
  - cbn [app regex_match flat_map fst snd]. rewrite app_nil_r. reflexivity.
  - cbn [app regex_match]. rewrite flat_map_flat_map.
    apply flat_map_ext. intros vr. apply IH.
Qed.

(** Month, separator, day, separator: one way to read the prefix. *)
Lemma month_day_prefix (sep : ascii) (m d : N) (rest : string) (f : fields) :
  sep = "/"%char \/ sep = "-"%char -> 1 <= m <= 12 -> 1 <= d <= 31 ->
  regex_match [D_m; Lit sep; D_d; Lit sep]
    (pad2 m ++ String sep (pad2 d ++ String sep rest))%string f =
  [({| f_year := f_year f; f_month := m; f_day := d |}, rest)].
Proof.
  intros Hs Hm Hd. sep_cases Hs; month_cases m; day_cases d; reflexivity.
Qed.

(** Day, separator, month, separator. *)
Lemma day_month_prefix (sep : ascii) (m d : N) (rest : string) (f : fields) :
  sep = "/"%char \/ sep = "-"%char -> 1 <= m <= 12 -> 1 <= d <= 31 ->
  regex_match [D_d; Lit sep; D_m; Lit sep]
    (pad2 d ++ String sep (pad2 m ++ String sep rest))%string f =
  [({| f_year := f_year f; f_month := m; f_day := d |}, rest)].
Proof.
  intros Hs Hm Hd. sep_cases Hs; month_cases m; day_cases d; reflexivity.
Qed.

Lemma year_suffix (y : N) (f : fields) :
  y < 10000 ->
  regex_match [D_Y] (pad4 y) f =
  [({| f_year := y; f_month := f_month f; f_day := f_day f |}, EmptyString)].
Proof.
  intro H. cbn [regex_match group].
  change (pad4 y) with (pad4 y ++ "")%string. rewrite four_pad4 by exact H.
  reflexivity.
Qed.

Lemma strptime_month_first (sep : ascii) (y m d : N) :
  sep = "/"%char \/ sep = "-"%char -> valid_date y m d = true ->
  strptime (numeric_date sep m d y) [D_m; Lit sep; D_d; Lit sep; D_Y] =
  Ok {| year := y; month := m; day := d |}.
Proof.
  intros Hs H. pose proof (valid_date_bounds y m d H) as (Hy & Hm & Hd).
  unfold strptime, numeric_date.
  change [D_m; Lit sep; D_d; Lit sep; D_Y] with ([D_m; Lit sep; D_d; Lit sep] ++ [D_Y])%list.
  rewrite regex_match_app, month_day_prefix by assumption.
  cbn [flat_map fst snd]. rewrite year_suffix by lia.
  cbn [app f_year f_month f_day no_fields]. rewrite H. reflexivity.
Qed.

Lemma strptime_day_first (sep : ascii) (y m d : N) :
  sep = "/"%char \/ sep = "-"%char -> valid_date y m d = true ->
  strptime (numeric_date sep d m y) [D_d; Lit sep; D_m; Lit sep; D_Y] =
  Ok {| year := y; month := m; day := d |}.
Proof.
  intros Hs H. pose proof (valid_date_bounds y m d H) as (Hy & Hm & Hd).
  unfold strptime, numeric_date.
  change [D_d; Lit sep; D_m; Lit sep; D_Y] with ([D_d; Lit sep; D_m; Lit sep] ++ [D_Y])%list.
  rewrite regex_match_app, day_month_prefix by assumption.
  cbn [flat_map fst snd]. rewrite year_suffix by lia.
  cbn [app f_year f_month f_day no_fields]. rewrite H. reflexivity.
Qed.

(** A day after the twelfth is not a month. *)
Lemma strptime_late_day_month (sep : ascii) (fmt : format) (d : N) (r : string) :
  sep = "/"%char \/ sep = "-"%char -> 13 <= d <= 31 ->
  strptime (pad2 d ++ String sep r)%string (D_m :: Lit sep :: fmt) = Raise ValueError.
Proof.
  intros Hs Hd. sep_cases Hs; late_day_cases d; reflexivity.
Qed.

(** The slash formats do not read a text with dashes. *)
Lemma strptime_slash_dash (dir : directive) (fmt : format) (a : N) (r : string) :
  dir = D_m \/ dir = D_d -> 1 <= a <= 31 ->
  strptime (pad2 a ++ String "-" r)%string (dir :: Lit "/" :: fmt) = Raise ValueError.
Proof.
  intros Hdir Ha. destruct Hdir as [ -> | -> ]; day_cases a; reflexivity.
Qed.

(** The year-first format does not read a text that starts with two
    digits and a dash. *)
Lemma strptime_iso_dash (a b : N) (r : string) :
  1 <= a <= 31 ->
  strptime (pad2 a ++ String "-" (pad2 b ++ r))%string iso_format = Raise ValueError.
Proof.
  intro Ha. day_cases a; reflexivity.
Qed.

(** X15. Day and month order.  A date written with two-digit fields and
    a four-digit year, separated by slashes or by dashes, is read
    month-first whenever that gives a date of the calendar, and day-first
    only when the first field is above 12.  So the day-first writing of a
    date whose day is at most 12 is normalized to the date with day and
    month exchanged. *)
Theorem normalize_date_month_first :
  forall (sep : ascii) (y m d : N),
    sep = "/"%char \/ sep = "-"%char ->
    valid_date y m d = true ->
    _normalize_date (PStr (numeric_date sep m d y)) = PStr (iso y m d) /\
    (12 < d -> _normalize_date (PStr (numeric_date sep d m y)) = PStr (iso y m d)) /\
    (valid_date y d m = true ->
     _normalize_date (PStr (numeric_date sep d m y)) = PStr (iso y d m)).
Proof.
  intros sep y m d Hs H.
  assert (F : forall m d, valid_date y m d = true ->
                _normalize_date (PStr (numeric_date sep m d y)) = PStr (iso y m d)).
  { intros m0 d0 H0. pose proof (valid_date_bounds y m0 d0 H0) as (Hy & Hm & Hd).
    unfold _normalize_date, formats. cbn [try_formats py_strptime].
    destruct Hs as [ -> | -> ].
    - rewrite (strptime_month_first "/" y m0 d0 (or_introl eq_refl) H0). reflexivity.
    - unfold numeric_date at 1 2 3.
      rewrite (strptime_slash_dash D_m) by (auto; lia).
      rewrite (strptime_slash_dash D_d) by (auto; lia).
      rewrite strptime_iso_dash by lia.
      fold (numeric_date "-" m0 d0 y).
      rewrite (strptime_month_first "-" y m0 d0 (or_intror eq_refl) H0). reflexivity. }
  split; [exact (F m d H)|]. split; [|exact (F d m)].
  intro Hlate. pose proof (valid_date_bounds y m d H) as (Hy & Hm & Hd).
  unfold _normalize_date, formats. cbn [try_formats py_strptime].
  destruct Hs as [ -> | -> ].
  - unfold numeric_date at 1.
    rewrite (strptime_late_day_month "/") by (auto; lia).
    fold (numeric_date "/" d m y).
    rewrite (strptime_day_first "/" y m d (or_introl eq_refl) H). reflexivity.
  - unfold numeric_date at 1 2 3 4.
    rewrite (strptime_slash_dash D_m) by (auto; lia).
    rewrite (strptime_slash_dash D_d) by (auto; lia).
    rewrite strptime_iso_dash by lia.
    rewrite (strptime_late_day_month "-") by (auto; lia).
    fold (numeric_date "-" d m y).
    rewrite (strptime_day_first "-" y m d (or_intror eq_refl) H). reflexivity.
Qed.

End DateOrder.

(** X15 on 3 April 2024 written day-first, which is read as 4 March, and
    on 25 December 2024. *)
Lemma normalize_date_month_first_witness :
  valid_date 2024 3 4 = true /\
  _normalize_date (PStr "03/04/2024") = PStr "2024-03-04" /\
  valid_date 2024 12 25 = true /\
  _normalize_date (PStr "25-12-2024") = PStr "2024-12-25".
Proof.
  split; [reflexivity|].
  split; [exact (proj1 (normalize_date_month_first "/" 2024 3 4 (or_introl eq_refl)
                          eq_refl))|].
  split; [reflexivity|].
  exact (proj1 (proj2 (normalize_date_month_first "-" 2024 12 25 (or_intror eq_refl)
                         eq_refl)) eq_refl).
Defined.

(** ** Metadata and manipulation indicators *)

Lemma when_detected_length (detected : bool) (message : string) :
  List.length (when_detected detected message) <= 1.
Proof. destruct detected; cbn; lia. Qed.

Lemma check_metadata_length (info : dict) : List.length (_check_metadata info) <= 2.
Proof.
  unfold _check_metadata, catch, bind.
  destruct info as [|kv info']; cbn [truthy negb].
  - cbn. lia.
  - destruct (lookup "Software" (kv :: info')) as [v|];
      [destruct (py_lower v) as [software|]; [|cbn; lia];
       destruct (existsb _ suspicious_software)|];
      (destruct (lookup "Comment" (kv :: info')) as [c|];
       [destruct (py_lower c) as [comment|]; [|cbn; lia];
        destruct (substringb "saved" comment)|]); cbn; lia.
Qed.

(** X16. The anomalies of the metadata.  [_check_metadata] reports at
    most two anomalies.  It reports "No metadata found" exactly when the
    metadata are empty, and then nothing else.  A [Software] or [Comment]
    entry that is not a string replaces the whole report by the one entry
    "Error checking metadata".  The editing software is recognised
    whatever its case and reported in lower case.
    [_check_image_manipulation] returns nothing when the image cannot be
    converted; otherwise it lists its detectors' findings before the
    anomalies of the metadata, at most six entries in all, and an image
    without metadata always has an entry. *)
Theorem check_metadata_anomalies :
  (forall info : dict,
     (info = [] -> _check_metadata info = [PStr "No metadata found"]) /\
     (info <> [] -> ~ In (PStr "No metadata found") (_check_metadata info)) /\
     List.length (_check_metadata info) <= 2 /\
     (forall v, lookup "Software" info = Some v -> raised (py_lower v) = true ->
                _check_metadata info = [PStr "Error checking metadata"]) /\
     (forall v, lookup "Comment" info = Some v -> raised (py_lower v) = true ->
                _check_metadata info = [PStr "Error checking metadata"]) /\
     (forall s, lookup "Software" info = Some (PStr s) -> lookup "Comment" info = None ->
                _check_metadata info =
                if existsb (fun p => substringb p (lower s)) suspicious_software
                then [PStr ("Suspicious editing software detected: " ++ lower s)%string]
                else [])) /\
  (forall img : image,
     (raised (as_array img) = true -> _check_image_manipulation img = []) /\
     (raised (as_array img) = false ->
      exists found,
        _check_image_manipulation img = (found ++ _check_metadata (info img))%list /\
        List.length found <= 4 /\
        (info img = [] -> _check_image_manipulation img <> [])) /\
     List.length (_check_image_manipulation img) <= 6).
Proof.
  split.
  - intro info. split; [|split; [|split; [|split; [|split]]]].
    + intros ->. reflexivity.
    + intros Hne Hin. unfold _check_metadata, catch, bind in Hin.
      destruct info as [|kv info']; [contradiction|]. cbn [truthy negb] in Hin.
      destruct (lookup "Software" (kv :: info')) as [v|];
        [destruct (py_lower v) as [software|];
         [destruct (existsb _ suspicious_software)|]|];
        try (destruct (lookup "Comment" (kv :: info')) as [c|];
             [destruct (py_lower c) as [comment|];
              [destruct (substringb "saved" comment)|]|]);
        cbn [app In] in Hin;
        repeat match goal with
          | H : _ \/ _ |- _ => destruct H as [H|H]
          | H : False |- _ => destruct H
          | H : PStr _ = PStr _ |- _ => discriminate H
          end.
    + apply check_metadata_length.
    + intros v Hs Hr. unfold _check_metadata, catch, bind. rewrite Hs.
      destruct (py_lower v); [discriminate Hr|reflexivity].
    + intros v Hc Hr. unfold _check_metadata, catch, bind. rewrite Hc.
      destruct (lookup "Software" info) as [sw|];
        [destruct (py_lower sw); [|reflexivity]|];
        (destruct (py_lower v); [discriminate Hr|reflexivity]).
    + intros s Hs Hc. unfold _check_metadata, catch, bind. rewrite Hs, Hc.
      cbn [py_lower]. destruct info as [|kv info']; [discriminate Hs|].
      cbn [truthy negb app]. reflexivity.
  - intro img. unfold _check_image_manipulation, catch, bind.
    pose proof (check_metadata_length (info img)) as L.
    pose proof (when_detected_length (copy_move img)
                  "Possible copy-move forgery detected") as L1.
    pose proof (when_detected_length (jpeg_inconsistent img)
                  "Inconsistent JPEG compression detected") as L2.
    pose proof (when_detected_length (noise_inconsistent img)
                  "Inconsistent noise patterns detected") as L3.
    pose proof (when_detected_length (edge_inconsistent img)
                  "Inconsistent edge patterns detected") as L4.
    destruct (as_array img) as [[]|e]; cbn [raised].
    + split; [discriminate|]. split.
      * intros _.
        exists (when_detected (copy_move img) "Possible copy-move forgery detected" ++
                when_detected (jpeg_inconsistent img)
                  "Inconsistent JPEG compression detected" ++
                when_detected (noise_inconsistent img)
                  "Inconsistent noise patterns detected" ++
                when_detected (edge_inconsistent img)
                  "Inconsistent edge patterns detected")%list.
        split; [rewrite <- !app_assoc; reflexivity|].
        split; [rewrite !length_app; lia|].
        intros -> H. apply (f_equal (@List.length pyval)) in H.
        rewrite !length_app in H. cbn in H. lia.
      * rewrite !length_app. lia.
    + split; [reflexivity|]. split; [discriminate|]. cbn. lia.
Qed.

(** X16 on an image saved by an editor, and on an image without
    metadata that no detector flags. *)
Lemma check_metadata_anomalies_witness :
  _check_metadata [ (KStr "Software", PStr "Adobe Photoshop 24.0") ] =
    [PStr "Suspicious editing software detected: adobe photoshop 24.0"] /\
  _check_metadata [ (KStr "Software", PNum 3) ] = [PStr "Error checking metadata"] /\
  _check_metadata [] = [PStr "No metadata found"].
Proof.
  pose proof (proj1 check_metadata_anomalies
                [ (KStr "Software", PStr "Adobe Photoshop 24.0") ])
    as (_ & _ & _ & _ & _ & A).
  pose proof (proj1 check_metadata_anomalies [ (KStr "Software", PNum 3) ])
    as (_ & _ & _ & B & _).
  pose proof (proj1 check_metadata_anomalies []) as (C & _).
  split; [exact (A "Adobe Photoshop 24.0" eq_refl eq_refl)|].
  split; [exact (B (PNum 3) eq_refl eq_refl)|exact (C eq_refl)].
Defined.

(** ** Confidence of the Tesseract texts *)

Section TesseractProperties.

Variable search : string -> string -> bool.
Variable _extract_structured_data : string -> dict.

Lemma element_matches_bound (text : string) : element_matches search text <= 4.
Proof.
  unfold element_matches.
  etransitivity; [apply filter_length_le|]. cbn. lia.
Qed.

Lemma quarter_unit (k : nat) :
  k <= 4 ->
  (0 <= inject_Z (Z.of_nat k) / inject_Z (Z.of_nat 4) <= 1)%Q.
Proof.
  intro H.
  assert (E : k = 0 \/ k = 1 \/ k = 2 \/ k = 3 \/ k = 4) by lia.
  destruct E as [ -> | [ -> | [ -> | [ -> | -> ] ] ] ]; split; vm_compute; congruence.
Qed.

Lemma ocr_confidence_value (text : string) :
  blank text = false ->
  (_calculate_ocr_confidence search text ==
   inject_Z (Z.of_nat (element_matches search text)) / inject_Z (Z.of_nat 4))%Q.
Proof.
  intro B. unfold _calculate_ocr_confidence. rewrite B.
  change (List.length receipt_elements) with 4.
  unfold py_min.
  pose proof (quarter_unit _ (element_matches_bound text)) as [_ U].
  destruct (Qltb _ 1) eqn:E; [reflexivity|].
  apply Qltb_ge in E.
  pose proof (element_matches_bound text) as K.
  assert (C : element_matches search text = 4).
  { assert (X : element_matches search text = 0 \/ element_matches search text = 1 \/
                element_matches search text = 2 \/ element_matches search text = 3 \/
                element_matches search text = 4) by lia.
    destruct X as [X | [X | [X | [X | X] ] ] ]; rewrite X in E; try exact X;
      exfalso; vm_compute in E; apply E; reflexivity. }
  rewrite C. reflexivity.
Qed.

Lemma ocr_confidence_unit (text : string) :
  (0 <= _calculate_ocr_confidence search text <= 1)%Q.
Proof.
  destruct (blank text) eqn:B.
  - unfold _calculate_ocr_confidence. rewrite B. split; vm_compute; congruence.
  - rewrite (ocr_confidence_value text B).
    apply quarter_unit, element_matches_bound.
Qed.

(** X17. The confidence of an OCR text is a number of quarters.  It is
    0 for a text of white space; otherwise it is the number of receipt
    elements found in the text (a date, a dollar amount, a word of a
    total, a card number) divided by 4.  The cap [min(1.0, ...)] never
    changes the value, and the confidence lies in [0, 1]. *)
Theorem ocr_confidence_quarters :
  forall text : string,
    (blank text = true -> _calculate_ocr_confidence search text = 0%Q) /\
    (blank text = false ->
     (_calculate_ocr_confidence search text ==
      inject_Z (Z.of_nat (element_matches search text)) / inject_Z (Z.of_nat 4))%Q) /\
    element_matches search text <= 4 /\
    (0 <= _calculate_ocr_confidence search text <= 1)%Q /\
    ((forall pattern, In pattern receipt_elements -> search pattern text = true) ->
     blank text = false ->
     (_calculate_ocr_confidence search text == 1)%Q) /\
    ((forall pattern, In pattern receipt_elements -> search pattern text = false) ->
     (_calculate_ocr_confidence search text == 0)%Q).
Proof.
  intro text.
  split; [intro B; unfold _calculate_ocr_confidence; rewrite B; reflexivity|].
  split; [apply ocr_confidence_value|].
  split; [apply element_matches_bound|].
  split; [apply ocr_confidence_unit|]. split.
  - intros H B. rewrite (ocr_confidence_value text B).
    unfold element_matches, receipt_elements. cbn [filter].
    rewrite !H by (cbn; auto 10). reflexivity.
  - intro H. destruct (blank text) eqn:B.
    + unfold _calculate_ocr_confidence. rewrite B. reflexivity.
    + rewrite (ocr_confidence_value text B).
      unfold element_matches, receipt_elements. cbn [filter].
      rewrite !H by (cbn; auto 10). reflexivity.
Qed.

Let confidence (text : string) : Q := _calculate_ocr_confidence search text.

(** X18. Tesseract's best result.  When the engine fails on the image or
    on one of its three preprocessed versions, [_tesseract_ocr_analysis]
    returns the empty dictionary.  Otherwise its best result is one of
    the three preprocessing results, with a confidence not below the
    others'; on a tie the earlier method wins, so the best result is the
    basic one unless another is strictly more confident, and the denoised
    one only when it is strictly more confident than both others.  The
    structured data are extracted from the text of the best result. *)
Theorem tesseract_best_result :
  forall original basic contrast_enhanced denoised : result string,
    (raised original || raised basic || raised contrast_enhanced || raised denoised = true ->
     _tesseract_ocr_analysis search _extract_structured_data
       original basic contrast_enhanced denoised = []) /\
    (forall o b c d,
       original = Ok o -> basic = Ok b -> contrast_enhanced = Ok c -> denoised = Ok d ->
       exists method text,
         let results :=
           _tesseract_ocr_analysis search _extract_structured_data
             original basic contrast_enhanced denoised in
         In (method, text) [ ("basic", b); ("contrast_enhanced", c); ("denoised", d) ] /\
         lookup "best_result" results =
           Some (preprocessing_result search method text) /\
         lookup "structured_data" results =
           Some (PDict (_extract_structured_data text)) /\
         lookup "original_text" results = Some (PStr o) /\
         (confidence b <= confidence text)%Q /\
         (confidence c <= confidence text)%Q /\
         (confidence d <= confidence text)%Q /\
         (method = "basic" \/ (confidence b < confidence text)%Q) /\
         (method = "denoised" ->
          (confidence b < confidence d)%Q /\ (confidence c < confidence d)%Q)).
Proof.
  intros original basic contrast_enhanced denoised. split.
  - intro H. unfold _tesseract_ocr_analysis, catch, bind.
    destruct original; [|reflexivity]. destruct basic; [|reflexivity].
    destruct contrast_enhanced; [|reflexivity]. destruct denoised; [|reflexivity].
    discriminate H.
  - intros o b c d -> -> -> ->.
    unfold _tesseract_ocr_analysis, catch, bind, py_max_by. cbn [fold_left fst snd].
    fold (confidence b). fold (confidence c). fold (confidence d).
    destruct (Qltb (confidence b) (confidence c)) eqn:E1; cbn [fst snd].
    + fold (confidence c).
      destruct (Qltb (confidence c) (confidence d)) eqn:E2; cbn [fst snd].
      * apply Qltb_lt in E1. apply Qltb_lt in E2.
        exists "denoised", d. cbv zeta.
        split; [cbn; auto|]. split; [reflexivity|]. split; [reflexivity|].
        split; [reflexivity|]. repeat split; try right; try lra.
      * apply Qltb_lt in E1. apply Qltb_ge in E2.
        exists "contrast_enhanced", c. cbv zeta.
        split; [cbn; auto|]. split; [reflexivity|]. split; [reflexivity|].
        split; [reflexivity|].
        split; [lra|]. split; [lra|]. split; [lra|]. split; [right; lra|].
        discriminate.
    + fold (confidence b).
      destruct (Qltb (confidence b) (confidence d)) eqn:E2; cbn [fst snd].
      * apply Qltb_ge in E1. apply Qltb_lt in E2.
        exists "denoised", d. cbv zeta.
        split; [cbn; auto|]. split; [reflexivity|]. split; [reflexivity|].
        split; [reflexivity|]. repeat split; try right; try lra.
      * apply Qltb_ge in E1. apply Qltb_ge in E2.
        exists "basic", b. cbv zeta.
        split; [cbn; auto|]. split; [reflexivity|]. split; [reflexivity|].
        split; [reflexivity|].
        split; [lra|]. split; [lra|]. split; [lra|]. split; [left; reflexivity|].
        discriminate.
Qed.

End TesseractProperties.

(** X17 on a text with a total, for a search that only knows the words
    of a total. *)
Lemma ocr_confidence_quarters_witness :
  blank "TOTAL 12" = false /\
  (_calculate_ocr_confidence total_word_search "TOTAL 12" ==
   inject_Z (Z.of_nat (element_matches total_word_search "TOTAL 12")) /
   inject_Z (Z.of_nat 4))%Q.
Proof.
  split; [reflexivity|].
  exact (proj1 (proj2 (ocr_confidence_quarters total_word_search "TOTAL 12")) eq_refl).
Defined.

(** X18 on three texts of which the second and the third are equally
    confident. *)
Lemma tesseract_best_result_witness :
  exists method text,
    let results :=
      _tesseract_ocr_analysis total_word_search (fun _ => [])
        (Ok "CityCab") (Ok "CityCab") (Ok "CityCab TOTAL 100.00") (Ok "CityCab TAX 8.00") in
    In (method, text)
       [ ("basic", "CityCab"); ("contrast_enhanced", "CityCab TOTAL 100.00");
         ("denoised", "CityCab TAX 8.00") ] /\
    lookup "best_result" results =
      Some (preprocessing_result total_word_search method text) /\
    lookup "structured_data" results = Some (PDict []) /\
    lookup "original_text" results = Some (PStr "CityCab") /\
    (_calculate_ocr_confidence total_word_search "CityCab" <=
     _calculate_ocr_confidence total_word_search text)%Q /\
    (_calculate_ocr_confidence total_word_search "CityCab TOTAL 100.00" <=
     _calculate_ocr_confidence total_word_search text)%Q /\
    (_calculate_ocr_confidence total_word_search "CityCab TAX 8.00" <=
     _calculate_ocr_confidence total_word_search text)%Q /\
    (method = "basic" \/
     (_calculate_ocr_confidence total_word_search "CityCab" <
      _calculate_ocr_confidence total_word_search text)%Q) /\
    (method = "denoised" ->
     (_calculate_ocr_confidence total_word_search "CityCab" <
      _calculate_ocr_confidence total_word_search "CityCab TAX 8.00")%Q /\
     (_calculate_ocr_confidence total_word_search "CityCab TOTAL 100.00" <
      _calculate_ocr_confidence total_word_search "CityCab TAX 8.00")%Q).
Proof.
  exact (proj2 (tesseract_best_result total_word_search (fun _ => [])
                  (Ok "CityCab") (Ok "CityCab") (Ok "CityCab TOTAL 100.00")
                  (Ok "CityCab TAX 8.00"))
           "CityCab" "CityCab" "CityCab TOTAL 100.00" "CityCab TAX 8.00"
           eq_refl eq_refl eq_refl eq_refl).
Defined.

(** ** The text patterns of the image analysis *)

Section ImageAnalysisProperties.

Variable float_of_str : string -> option Q.
Variable search : string -> string -> bool.
Variable _extract_structured_data : string -> dict.
Variable text_patterns : pyval -> dict.

Lemma enhanced_ocr_analysis_shape (copied : result unit) (t l : pyval) :
  _enhanced_ocr_analysis float_of_str copied t l = [] \/
  _enhanced_ocr_analysis float_of_str copied t l =
  [ (KStr "tesseract_analysis", t);
    (KStr "llm_analysis", l);
    (KStr "combined_analysis", PDict (_combine_ocr_results float_of_str t l)) ].
Proof.
  unfold _enhanced_ocr_analysis, catch, bind.
  destruct copied as [[]|]; [|left; reflexivity].
  destruct (py_get t "original_text" (PStr "")); [|left; reflexivity].
  destruct (py_get t "best_result" (PDict [])) as [best|]; [|left; reflexivity].
  destruct (py_get best "text" (PStr "")); [|left; reflexivity].
  destruct (py_get l "extracted_text" (PStr "")); [|left; reflexivity].
  destruct (py_get l "structured_data" (PDict [])); [|left; reflexivity].
  right. reflexivity.
Qed.

Lemma text_patterns_of_ocr_analysis (copied : result unit) (t l : pyval) :
  _analyze_text_patterns text_patterns
    (PDict (_enhanced_ocr_analysis float_of_str copied t l)) = text_patterns_init.
Proof.
  destruct (enhanced_ocr_analysis_shape copied t l) as [-> | ->]; reflexivity.
Qed.

(** X19. The text patterns are never analysed.  [_image_analysis] hands
    the result of [_enhanced_ocr_analysis] to [_analyze_text_patterns],
    which looks for the text under the key [extracted_text]; the result
    has the keys [tesseract_analysis], [llm_analysis] and
    [combined_analysis] only (or none), so the text is taken to be empty
    and the analysis returns its initial value, whatever the OCR found.
    The image analysis returns the empty dictionary when the download
    fails and otherwise one entry [image_analysis_results] with four
    keys; it never returns risk factors. *)
Theorem text_patterns_never_analysed :
  (forall (copied : result unit) (t l : pyval),
     _analyze_text_patterns text_patterns
       (PDict (_enhanced_ocr_analysis float_of_str copied t l)) = text_patterns_init) /\
  (forall (w : world) (img : image),
     exists r,
       _image_analysis float_of_str search _extract_structured_data text_patterns
         w (Ok img) = PDict [ (KStr "image_analysis_results", PDict r) ] /\
       map fst r =
         [ KStr "image_quality"; KStr "ocr_analysis"; KStr "manipulation_indicators";
           KStr "text_pattern_analysis" ] /\
       lookup "text_pattern_analysis" r = Some (PDict text_patterns_init) /\
       lookup "manipulation_indicators" r = Some (PList (_check_image_manipulation img))) /\
  (forall (w : world) (e : exn),
     _image_analysis float_of_str search _extract_structured_data text_patterns
       w (Raise e) = PDict []).
Proof.
  split; [exact text_patterns_of_ocr_analysis|]. split; [|reflexivity].
  intros w img. unfold _image_analysis, catch, bind.
  eexists. split; [reflexivity|]. split; [reflexivity|]. split; [|reflexivity].
  unfold lookup. cbn [assoc_get key_eqb].
  simpl (String.eqb _ _). cbv iota. rewrite text_patterns_of_ocr_analysis. reflexivity.
Qed.

End ImageAnalysisProperties.

(** ** What the checks of the detector contribute *)

Lemma when_key_risk_factors (r : dict) (self : detector) (events : list event) :
  (forall v, lookup "risk_factors" r = Some v -> raised (py_iter v) = false) ->
  exists self',
    when_key "risk_factors" r extend_risk_factors (self, events) =
      (Ok tt, (self', events)) /\
    risk_factors self' = (risk_factors self ++ items_of (lookup "risk_factors" r))%list /\
    verification_results self' = verification_results self /\
    image_analysis_results self' = image_analysis_results self /\
    online_verification_results self' = online_verification_results self /\
    expense_category self' = expense_category self.
Proof.
  intro H. unfold when_key. destruct (lookup "risk_factors" r) as [v|].
  - specialize (H v eq_refl).
    unfold extend_risk_factors, mbind, get_self, lift, modify, py_extend, bind, items_of.
    cbn [fst snd]. destruct (py_iter v) as [items|]; [|discriminate H].
    eexists. split; [reflexivity|]. cbn. repeat split.
  - exists self. split; [reflexivity|]. cbn [items_of]. rewrite app_nil_r. repeat split.
Qed.

Lemma when_key_update (key : string) (r : dict) (read : detector -> dict)
    (write : dict -> detector -> detector) (self : detector) (events : list event) :
  (forall v, lookup key r = Some v -> exists e, v = PDict e) ->
  when_key key r (update_attr read write) (self, events) =
  (Ok tt,
   (match lookup key r with
    | Some _ => write (dict_merge (read self) (entries_of (lookup key r))) self
    | None => self
    end, events)).
Proof.
  intro H. unfold when_key. destruct (lookup key r) as [v|]; [|reflexivity].
  destruct (H v eq_refl) as [e ->].
  unfold update_attr, mbind, get_self, modify, ret. cbn [fst snd py_update entries_of].
  reflexivity.
Qed.

(** The loop body on a result whose entries have the expected types. *)
Lemma merge_future_dict (w : world) (a : analyzer) (r : dict) (self : detector)
    (events : list event) :
  future_result w a = Ok (PDict r) ->
  (forall v, lookup "risk_factors" r = Some v -> raised (py_iter v) = false) ->
  (forall v, lookup "verification_results" r = Some v -> exists e, v = PDict e) ->
  (forall v, lookup "image_analysis_results" r = Some v -> exists e, v = PDict e) ->
  (forall v, lookup "online_verification_results" r = Some v -> exists e, v = PDict e) ->
  exists self',
    merge_future w a (self, events) = (Ok tt, (self', events)) /\
    risk_factors self' = (risk_factors self ++ items_of (lookup "risk_factors" r))%list /\
    verification_results self' =
      dict_merge (verification_results self)
        (entries_of (lookup "verification_results" r)) /\
    image_analysis_results self' =
      dict_merge (image_analysis_results self)
        (entries_of (lookup "image_analysis_results" r)) /\
    online_verification_results self' =
      dict_merge (online_verification_results self)
        (entries_of (lookup "online_verification_results" r)) /\
    expense_category self' = expense_category self.
Proof.
  intros Hf Hr Hv Hi Ho.
  destruct (when_key_risk_factors r self events Hr) as (s1 & E1 & R1 & V1 & I1 & O1 & C1).
  eexists. split.
  - unfold merge_future, mcatch. unfold mbind at 1, lift. rewrite Hf.
    unfold mbind at 1. rewrite E1.
    unfold mbind at 1. rewrite (when_key_update _ r _ _ s1 events Hv).
    unfold mbind at 1. rewrite (when_key_update _ r _ _ _ events Hi).
    rewrite (when_key_update _ r _ _ _ events Ho). reflexivity.
  - destruct (lookup "verification_results" r) as [v|];
      destruct (lookup "image_analysis_results" r) as [i|];
      destruct (lookup "online_verification_results" r) as [o|];
      cbn [risk_factors verification_results image_analysis_results
           online_verification_results expense_category
           set_verification_results set_image_analysis_results
           set_online_verification_results entries_of dict_merge fold_left];
      rewrite ?R1, ?V1, ?I1, ?O1, ?C1; repeat split.
Qed.

Lemma pattern_analysis_cases (recent : option (pyval -> result (list pyval)))
    (expense_data : pyval) :
  _pattern_analysis recent expense_data = PDict [] \/
  _pattern_analysis recent expense_data =
  PDict [ (KStr "risk_factors", PList []);
          (KStr "verification_results",
           PDict [ (KStr "pattern_analysis", PDict pattern_stubs) ]) ].
Proof.
  unfold _pattern_analysis, catch, bind.
  destruct (py_get expense_data "user_id" PNone) as [user_id|]; [|left; reflexivity].
  destruct (negb (truthy user_id)); [left; reflexivity|].
  destruct recent as [query|]; [|left; reflexivity].
  destruct (query user_id) as [[|first rest]|]; [left; reflexivity| |left; reflexivity].
  right. reflexivity.
Qed.

Lemma online_verification_cases (expense_data : pyval) :
  (exists e, _online_verification expense_data = Raise e) \/
  _online_verification expense_data =
  Ok (PDict [ (KStr "online_verification_results", PDict online_stubs) ]).
Proof.
  destruct expense_data; try (left; eexists; reflexivity). right. reflexivity.
Qed.

(** X20. The pattern analysis and the online verification report nothing.
    Whatever the expense and the history of the user, merging the result
    of [_pattern_analysis] adds no risk factor and changes at most the
    entry [pattern_analysis] of the verification results, which then holds
    three empty dictionaries; merging the result of [_online_verification]
    changes nothing but the three entries of the online verification
    results, each an empty dictionary. *)
Theorem pattern_and_online_checks_report_nothing :
  forall (w : world) (recent : option (pyval -> result (list pyval))) (row : pyval)
         (self : detector) (events : list event),
    (future_result w PatternAnalysis = Ok (_pattern_analysis recent row) ->
     exists self',
       merge_future w PatternAnalysis (self, events) = (Ok tt, (self', events)) /\
       risk_factors self' = risk_factors self /\
       image_analysis_results self' = image_analysis_results self /\
       online_verification_results self' = online_verification_results self /\
       (forall k, k <> "pattern_analysis" ->
                  lookup k (verification_results self') =
                  lookup k (verification_results self)) /\
       (lookup "pattern_analysis" (verification_results self') =
          lookup "pattern_analysis" (verification_results self) \/
        lookup "pattern_analysis" (verification_results self') =
          Some (PDict pattern_stubs))) /\
    (future_result w OnlineVerification = _online_verification row ->
     exists self',
       merge_future w OnlineVerification (self, events) = (Ok tt, (self', events)) /\
       risk_factors self' = risk_factors self /\
       verification_results self' = verification_results self /\
       image_analysis_results self' = image_analysis_results self /\
       (forall k, ~ In (KStr k, PDict []) online_stubs ->
                  lookup k (online_verification_results self') =
                  lookup k (online_verification_results self)) /\
       (forall k d, row = PDict d -> In (KStr k, PDict []) online_stubs ->
                    lookup k (online_verification_results self') = Some (PDict []))).
Proof.
  intros w recent row self events. split.
  - intro Hf.
    destruct (pattern_analysis_cases recent row) as [E | E]; rewrite E in Hf.
    + destruct (merge_future_dict w PatternAnalysis [] self events Hf)
        as (s & Em & R & V & I & O & _); try (intros v H; discriminate H).
      exists s. split; [exact Em|]. cbn in R, V, I, O. rewrite app_nil_r in R.
      split; [exact R|]. split; [exact I|]. split; [exact O|].
      rewrite V. split; [reflexivity|left; reflexivity].
    + destruct (merge_future_dict w PatternAnalysis _ self events Hf)
        as (s & Em & R & V & I & O & _).
      * intros v H. cbn in H. injection H as <-. reflexivity.
      * intros v H. cbn in H. injection H as <-. eexists. reflexivity.
      * intros v H. discriminate H.
      * intros v H. discriminate H.
      * exists s. split; [exact Em|].
        cbn [lookup assoc_get key_eqb items_of entries_of] in R, V, I, O.
        simpl (String.eqb _ _) in R, V, I, O. cbv iota in R, V, I, O.
        cbn [items_of entries_of py_iter catch dict_merge fold_left fst snd] in R, V, I, O.
        rewrite app_nil_r in R.
        split; [exact R|]. split; [exact I|]. split; [exact O|].
        rewrite V. split.
        -- intros k Hk. rewrite lookup_assoc_set.
           destruct (key_eqb (KStr k) (KStr "pattern_analysis")) eqn:K; [|reflexivity].
           apply key_eqb_str in K. injection K as K. congruence.
        -- right. rewrite lookup_assoc_set. reflexivity.
  - intro Hf.
    destruct (online_verification_cases row) as [[e E] | E]; rewrite E in Hf.
    + exists self. rewrite (merge_future_failed w OnlineVerification e _ Hf).
      split; [reflexivity|]. repeat split.
      intros k d -> _. discriminate E.
    + destruct (merge_future_dict w OnlineVerification _ self events Hf)
        as (s & Em & R & V & I & O & _).
      * intros v H. discriminate H.
      * intros v H. discriminate H.
      * intros v H. discriminate H.
      * intros v H. cbn in H. injection H as <-. eexists. reflexivity.
      * exists s. split; [exact Em|].
        cbn [lookup assoc_get key_eqb items_of entries_of] in R, V, I, O.
        simpl (String.eqb _ _) in R, V, I, O. cbv iota in R, V, I, O.
        cbn [items_of entries_of] in R, V, I, O.
        cbn [dict_merge fold_left] in V, I.
        rewrite app_nil_r in R.
        split; [exact R|]. split; [exact V|]. split; [exact I|].
        rewrite O. split.
        -- intros k Hk. rewrite lookup_dict_merge. unfold last_value, online_stubs.
           cbn [rev app assoc_get].
           unfold online_stubs in Hk. cbn [In] in Hk.
           destruct (key_eqb (KStr k) (KStr "date_verification")) eqn:K1;
             [apply key_eqb_str in K1; injection K1 as K1; subst k; exfalso; auto 10|].
           destruct (key_eqb (KStr k) (KStr "amount_verification")) eqn:K2;
             [apply key_eqb_str in K2; injection K2 as K2; subst k; exfalso; auto 10|].
           destruct (key_eqb (KStr k) (KStr "vendor_verification")) eqn:K3;
             [apply key_eqb_str in K3; injection K3 as K3; subst k; exfalso; auto 10|].
           reflexivity.
        -- intros k d _ Hk. rewrite lookup_dict_merge.
           unfold online_stubs in Hk. cbn [In] in Hk.
           destruct Hk as [Hk|[Hk|[Hk|[]]]]; injection Hk as <-; reflexivity.
Qed.

(** X20 on the expense of the samples, with a history of one expense. *)
Lemma pattern_and_online_checks_report_nothing_witness :
  future_result world_offline PatternAnalysis =
    Ok (_pattern_analysis (Some history) expense_row) /\
  future_result world_offline OnlineVerification = _online_verification expense_row /\
  (exists self',
     merge_future world_offline PatternAnalysis (used_detector, []) =
       (Ok tt, (self', [])) /\
     risk_factors self' = risk_factors used_detector) /\
  (exists self',
     merge_future world_offline OnlineVerification (used_detector, []) =
       (Ok tt, (self', [])) /\
     risk_factors self' = risk_factors used_detector).
Proof.
  split; [reflexivity|]. split; [reflexivity|].
  pose proof (pattern_and_online_checks_report_nothing world_offline (Some history)
                expense_row used_detector []) as [P O].
  split.
  - destruct (P eq_refl) as (s & E & R & _). exists s. split; [exact E|exact R].
  - destruct (O eq_refl) as (s & E & R & _). exists s. split; [exact E|exact R].
Defined.

(** ** The verdict without the reasoning service *)

Lemma for_each_merge_invariant (I : detector -> Prop) (w : world) (l : list analyzer)
    (events : list event) :
  (forall a s, I s -> exists s', merge_future w a (s, events) = (Ok tt, (s', events)) /\ I s') ->
  forall self merged,
    I self ->
    for_each l (merge_future w) (self, events) = (Ok tt, (merged, events)) ->
    I merged.
Proof.
  intro H. induction l as [|a l IH]; intros self merged Hi E; cbn [for_each] in E.
  - unfold ret in E. injection E as <-. exact Hi.
  - unfold mbind in E. destruct (H a self Hi) as (s' & Es & Is).
    rewrite Es in E. exact (IH s' merged Is E).
Qed.

Lemma length_string_append (s t : string) :
  String.length (s ++ t)%string = String.length s + String.length t.
Proof.
  induction s as [|c s IH]; cbn [String.append String.length]; [reflexivity|].
  rewrite IH. reflexivity.
Qed.

Lemma verification_key_not_pattern (category : string) :
  (category ++ "_verification")%string <> "pattern_analysis".
Proof.
  intro H. pose proof (f_equal String.length H) as L.
  rewrite length_string_append in L. cbn in L.
  destruct category as [|a [|b [|c [|d rest]]]]; cbn in L; try lia.
  cbn in H. discriminate H.
Qed.

Lemma category_score_without_entry (self : detector) :
  (forall category,
     lookup (category ++ "_verification")%string (verification_results self) = None) ->
  _get_category_specific_risk_score self = 0%Q.
Proof.
  intro H. unfold _get_category_specific_risk_score.
  destruct (expense_category self) as [category|]; [|reflexivity].
  destruct (String.eqb category ""); [reflexivity|].
  rewrite H. reflexivity.
Qed.

Lemma nothing_reported_scores (self : detector) :
  nothing_reported self ->
  (_calculate_risk_score self == 0)%Q /\ (_calculate_fraud_probability self == 0)%Q.
Proof.
  intros [_ K].
  assert (Z : _get_category_specific_risk_score self = 0%Q).
  { apply category_score_without_entry. intro category.
    destruct (lookup (category ++ "_verification")%string (verification_results self))
      as [v|] eqn:E; [|reflexivity].
    exfalso. apply (verification_key_not_pattern category). apply K.
    rewrite E. discriminate. }
  rewrite fraud_probability_category_share, risk_score_category_share, Z.
  split; reflexivity.
Qed.

Lemma nothing_reported_merge (w : world) (a : analyzer) (r : dict) (self : detector)
    (events : list event) :
  future_result w a = Ok (PDict r) ->
  items_of (lookup "risk_factors" r) = [] ->
  (forall v, lookup "risk_factors" r = Some v -> raised (py_iter v) = false) ->
  (lookup "verification_results" r = None \/
   lookup "verification_results" r =
     Some (PDict [ (KStr "pattern_analysis", PDict pattern_stubs) ])) ->
  (forall v, lookup "image_analysis_results" r = Some v -> exists e, v = PDict e) ->
  (forall v, lookup "online_verification_results" r = Some v -> exists e, v = PDict e) ->
  nothing_reported self ->
  exists s',
    merge_future w a (self, events) = (Ok tt, (s', events)) /\ nothing_reported s'.
Proof.
  intros Hf Hitems Hr Hv Hi Ho [R K].
  destruct (merge_future_dict w a r self events Hf Hr) as (s & Em & Rs & Vs & _);
    [destruct Hv as [ -> | -> ]; intros v H; [discriminate H|injection H as <-; eauto]
    |exact Hi|exact Ho|].
  exists s. split; [exact Em|]. split.
  - rewrite Rs, R, Hitems. reflexivity.
  - intros k. rewrite Vs. destruct Hv as [ -> | -> ]; cbn [entries_of dict_merge fold_left].
    + apply K.
    + cbn [fst snd]. rewrite lookup_assoc_set.
      destruct (key_eqb (KStr k) (KStr "pattern_analysis")) eqn:E.
      * intros _. apply key_eqb_str in E. injection E as E. congruence.
      * apply K.
Qed.

Section OfflineVerdict.

Variable float_of_str : string -> option Q.
Variable search : string -> string -> bool.
Variable _extract_structured_data : string -> dict.
Variable text_patterns : pyval -> dict.

Lemma image_analysis_cases (w : world) (download : result image) :
  _image_analysis float_of_str search _extract_structured_data text_patterns w download =
    PDict [] \/
  exists r,
    _image_analysis float_of_str search _extract_structured_data text_patterns w download =
      PDict [ (KStr "image_analysis_results", PDict r) ].
Proof.
  destruct download as [img|e]; [right|left; reflexivity].
  unfold _image_analysis, catch, bind. eexists. reflexivity.
Qed.

(** X21. Without the reasoning service the verdict is empty.  When no
    client of the reasoning service is configured and the four checks
    return what the methods of the detector compute, the verdict for a
    found expense, from a fresh detector, has no risk factor, a risk score
    of 0 and a fraud probability of 0, whatever the receipt, the image and
    the history of the user: the image analysis returns no risk factors,
    the online verification and the pattern analysis are stubs, and the
    category-specific score finds no entry to read. *)
Theorem verdict_without_reasoning_service :
  forall (w : world) (expense_id file_url : string) (row : pyval) (category : string)
         (reply : result pyval) (download : result image)
         (recent : option (pyval -> result (list pyval))),
    groq_client w = None ->
    _get_expense_data w expense_id = Some row ->
    truthy row = true ->
    (c <- py_get row "category" (PStr "") ;; py_lower c) = Ok category ->
    future_result w LlmAnalysis = Ok (_llm_analysis w reply) ->
    future_result w ImageAnalysis =
      Ok (_image_analysis float_of_str search _extract_structured_data text_patterns
            w download) ->
    future_result w OnlineVerification = _online_verification row ->
    future_result w PatternAnalysis = Ok (_pattern_analysis recent row) ->
    exists (v : verdict) (st' : detector * list event),
      check_receipt_fraud w expense_id file_url = (Ok (Verdict v), st') /\
      v_risk_factors v = [] /\
      (overall_risk_score v == 0)%Q /\
      (fraud_probability v == 0)%Q /\
      (forall k, lookup k (v_verification_results v) <> None -> k = "pattern_analysis").
Proof.
  intros w expense_id file_url row category reply download recent
         Hclient Hrow Htruthy Hcategory Hllm Himage Honline Hpattern.
  unfold check_receipt_fraud.
  destruct (analyze_receipt_run w expense_id file_url row category new_detector []
              Hrow Htruthy Hcategory) as (client & merged & _ & Hloop & E).
  cbv zeta in Hloop.
  assert (N : nothing_reported merged).
  { refine (for_each_merge_invariant nothing_reported w (completion w) _ _ _ merged _ Hloop).
    - intros a s Hs. destruct a.
      + unfold _llm_analysis in Hllm. rewrite Hclient in Hllm.
        apply (nothing_reported_merge w LlmAnalysis [] s _ Hllm); auto;
          intros v H; discriminate H.
      + destruct (image_analysis_cases w download) as [C | [r C]]; rewrite C in Himage.
        * apply (nothing_reported_merge w ImageAnalysis [] s _ Himage); auto;
            intros v H; discriminate H.
        * apply (nothing_reported_merge w ImageAnalysis _ s _ Himage); auto;
            try (intros v H; discriminate H).
          intros v H. cbn in H. injection H as <-. eauto.
      + destruct (online_verification_cases row) as [[e C] | C]; rewrite C in Honline.
        * exists s. rewrite (merge_future_failed w OnlineVerification e _ Honline).
          split; [reflexivity|exact Hs].
        * apply (nothing_reported_merge w OnlineVerification _ s _ Honline); auto;
            try (intros v H; discriminate H).
          intros v H. cbn in H. injection H as <-. eauto.
      + destruct (pattern_analysis_cases recent row) as [C | C]; rewrite C in Hpattern.
        * apply (nothing_reported_merge w PatternAnalysis [] s _ Hpattern); auto;
            intros v H; discriminate H.
        * apply (nothing_reported_merge w PatternAnalysis _ s _ Hpattern); auto;
            try (intros v H; discriminate H).
          intros v H. cbn in H. injection H as <-. reflexivity.
    - split; [reflexivity|]. intros k H. exfalso. apply H. reflexivity. }
  eexists. eexists. split; [exact E|].
  cbn [v_risk_factors overall_risk_score fraud_probability v_verification_results].
  destruct (nothing_reported_scores merged N) as [S1 S2].
  split; [exact (proj1 N)|]. split; [exact S1|]. split; [exact S2|exact (proj2 N)].
Qed.

End OfflineVerdict.

(** X21 on the expense of the samples, with an image without metadata
    and a history of one expense. *)
Lemma verdict_without_reasoning_service_witness :
  groq_client world_offline = None /\
  _get_expense_data world_offline "e-1" = Some expense_row /\
  truthy expense_row = true /\
  (c <- py_get expense_row "category" (PStr "") ;; py_lower c) = Ok "travel" /\
  exists (v : verdict) (st' : detector * list event),
    check_receipt_fraud world_offline "e-1" "https://files/receipt.png" =
      (Ok (Verdict v), st') /\
    v_risk_factors v = [] /\
    (overall_risk_score v == 0)%Q /\
    (fraud_probability v == 0)%Q /\
    (forall k, lookup k (v_verification_results v) <> None -> k = "pattern_analysis").
Proof.
  split; [reflexivity|]. split; [reflexivity|]. split; [reflexivity|].
  split; [reflexivity|].
  apply (verdict_without_reasoning_service float_of_decimal total_word_search
           (fun _ => []) (fun _ => []) world_offline "e-1" "https://files/receipt.png"
           expense_row "travel" (Raise UpstreamError) (Ok plain_image) (Some history));
    reflexivity.
Defined.

(** ** Image quality with failed estimates *)

(** X22. Failed estimates count as perfect.  [_analyze_image_quality]
    returns the empty dictionary when the statistics of the gray image
    cannot be computed.  Otherwise it stores the five metrics and the
    assessment of exactly these metrics; an estimate of the noise or of
    the compression that fails is stored as 0.0, so the image is then
    never rated poor for noise, respectively for compression, and with
    both estimates failing the image is of good quality exactly when blur,
    brightness and contrast pass their thresholds. *)
Theorem image_quality_failed_estimates :
  forall img : image,
    (raised (gray_statistics img) = true -> _analyze_image_quality img = []) /\
    (forall blur brightness contrast : Q,
       gray_statistics img = Ok (blur, brightness, contrast) ->
       let quality := _analyze_image_quality img in
       let assessment :=
         _assess_image_quality blur brightness contrast (_estimate_noise img)
           (_detect_compression_artifacts img) in
       lookup "noise_level" quality = Some (PNum (_estimate_noise img)) /\
       lookup "compression_artifacts" quality =
         Some (PNum (_detect_compression_artifacts img)) /\
       lookup "quality_assessment" quality = Some (PStr assessment) /\
       (raised (noise_estimate img) = true ->
        _estimate_noise img = 0%Q /\ assessment <> "Poor quality - High noise level") /\
       (raised (compression_estimate img) = true ->
        _detect_compression_artifacts img = 0%Q /\
        assessment <> "Poor quality - Heavy compression artifacts") /\
       (raised (noise_estimate img) = true ->
        raised (compression_estimate img) = true ->
        (assessment = "Good quality" <->
         (100 <= blur)%Q /\ (50 <= brightness <= 200)%Q /\ (30 <= contrast)%Q))).
Proof.
  intro img. split.
  - intro H. unfold _analyze_image_quality, catch, bind.
    destruct (gray_statistics img); [discriminate H|reflexivity].
  - intros blur brightness contrast Hs. cbv zeta.
    unfold _analyze_image_quality, catch, bind. rewrite Hs.
    split; [reflexivity|]. split; [reflexivity|]. split; [reflexivity|].
    unfold _estimate_noise, _detect_compression_artifacts, catch.
    split; [|split].
    + intro Hn. destruct (noise_estimate img); [discriminate Hn|].
      split; [reflexivity|]. unfold _assess_image_quality.
      change (Qltb 20 0) with false.
      repeat match goal with
        | |- context [if ?b then _ else _] => destruct b
        end; discriminate.
    + intro Hc. destruct (compression_estimate img); [discriminate Hc|].
      split; [reflexivity|]. unfold _assess_image_quality.
      change (Qltb (1 # 2) 0) with false.
      repeat match goal with
        | |- context [if ?b then _ else _] => destruct b
        end; discriminate.
    + intros Hn Hc.
      destruct (noise_estimate img); [discriminate Hn|].
      destruct (compression_estimate img); [discriminate Hc|].
      unfold _assess_image_quality.
      change (Qltb 20 0) with false. change (Qltb (1 # 2) 0) with false.
      destruct (Qltb blur 100) eqn:B;
        [apply Qltb_lt in B; split; [discriminate|intro H; exfalso; lra]|].
      destruct (Qltb brightness 50) eqn:L; cbn [orb];
        [apply Qltb_lt in L; split; [discriminate|intro H; exfalso; lra]|].
      destruct (Qltb 200 brightness) eqn:U;
        [apply Qltb_lt in U; split; [discriminate|intro H; exfalso; lra]|].
      destruct (Qltb contrast 30) eqn:C;
        [apply Qltb_lt in C; split; [discriminate|intro H; exfalso; lra]|].
      apply Qltb_ge in B. apply Qltb_ge in L. apply Qltb_ge in U. apply Qltb_ge in C.
      split; [intros _; repeat split; assumption|reflexivity].
Qed.

(** X22 on an image whose noise cannot be estimated. *)
Lemma image_quality_failed_estimates_witness :
  gray_statistics plain_image = Ok (150, 120, 40)%Q /\
  raised (noise_estimate plain_image) = true /\
  _estimate_noise plain_image = 0%Q /\
  _assess_image_quality 150%Q 120%Q 40%Q (_estimate_noise plain_image)
    (_detect_compression_artifacts plain_image) <> "Poor quality - High noise level".
Proof.
  split; [reflexivity|]. split; [reflexivity|].
  pose proof (proj2 (image_quality_failed_estimates plain_image) 150%Q 120%Q 40%Q eq_refl)
    as (_ & _ & _ & H & _).
  exact (H eq_refl).
Defined.

(** ** The combined OCR result without the reasoning service *)

Section OfflineOcr.

Variable float_of_str : string -> option Q.
Variable search : string -> string -> bool.
Variable _extract_structured_data : string -> dict.

Lemma both_set_without_llm (d : dict) (k : string) :
  both_set (PDict d) (PDict []) k = Ok false.
Proof.
  unfold both_set, bind. cbn [py_get].
  destruct (truthy _); reflexivity.
Qed.

Lemma find_discrepancies_without_llm (d : dict) :
  _find_discrepancies float_of_str (PDict d) (PDict []) = [].
Proof.
  unfold _find_discrepancies, discrepancy_steps. cbn [try_steps].
  unfold check_date, check_amount, check_vendor.
  rewrite !both_set_without_llm. cbn [bind]. reflexivity.
Qed.

Lemma llm_ocr_analysis_offline (w : world) (reply : result pyval) :
  groq_client w = None -> _llm_ocr_analysis w reply = PDict [].
Proof. intro H. unfold _llm_ocr_analysis. rewrite H. reflexivity. Qed.

(** The combination of a Tesseract result with the empty dictionary. *)
Lemma combine_without_llm (original method text : string) (every : pyval) :
  _combine_ocr_results float_of_str
    (PDict [ (KStr "original_text", PStr original);
             (KStr "best_result", preprocessing_result search method text);
             (KStr "all_preprocessing_results", every);
             (KStr "structured_data", PDict (_extract_structured_data text)) ])
    (PDict []) =
  setitem "validation_results"
    (PDict (_validate_ocr_results float_of_str (PDict (_extract_structured_data text))
              (PDict [])))
    (setitem "confidence_score" (PNum (_calculate_ocr_confidence search text))
       (setitem "structured_data" (PDict (_extract_structured_data text))
          (setitem "extracted_text" (PStr text) combined_init))).
Proof.
  unfold _combine_ocr_results.
  set (t := PDict _).
  assert (G1 : py_get t "best_result" (PDict []) =
               Ok (preprocessing_result search method text)) by reflexivity.
  assert (G2 : py_get t "structured_data" (PDict []) =
               Ok (PDict (_extract_structured_data text))) by reflexivity.
  assert (G3 : py_get (preprocessing_result search method text) "text" (PStr "") =
               Ok (PStr text)) by reflexivity.
  assert (G4 : py_get (preprocessing_result search method text) "confidence" (PNum 0) =
               Ok (PNum (_calculate_ocr_confidence search text))) by reflexivity.
  rewrite G1. cbn [bind]. rewrite G3. cbn [bind]. rewrite G2.
  cbn [bind py_get lookup assoc_get]. rewrite G4. cbn [bind py_gt].
  assert (L : Qltb (_calculate_ocr_confidence search text) 0 = false).
  { apply Qltb_ge. apply ocr_confidence_unit. }
  rewrite L, find_discrepancies_without_llm. reflexivity.
Qed.

(** X23. Without the reasoning service the combined OCR result is
    Tesseract's.  [_llm_ocr_analysis] returns the empty dictionary without
    a client, and also when the reply is not a JSON object; a reply that
    is an object is returned with [ocr_method] set to [llm].  With the
    empty dictionary as the second reading, [_combine_ocr_results] takes
    the text, the structured data and the confidence of Tesseract's best
    result and finds no discrepancy, so the confidence is not discounted;
    when Tesseract failed as well, the text is empty and the confidence
    is 0. *)
Theorem combined_ocr_without_llm :
  (forall (w : world) (reply : result pyval),
     (groq_client w = None -> _llm_ocr_analysis w reply = PDict []) /\
     (forall v, reply = Ok v -> (forall d, v <> PDict d) ->
                _llm_ocr_analysis w reply = PDict []) /\
     (forall client d, groq_client w = Some client -> reply = Ok (PDict d) ->
        exists d', _llm_ocr_analysis w reply = PDict d' /\
                   lookup "ocr_method" d' = Some (PStr "llm"))) /\
  (forall o b c d : string,
     exists method text,
       let tesseract :=
         _tesseract_ocr_analysis search _extract_structured_data (Ok o) (Ok b) (Ok c)
           (Ok d) in
       let combined := _combine_ocr_results float_of_str (PDict tesseract) (PDict []) in
       lookup "best_result" tesseract = Some (preprocessing_result search method text) /\
       lookup "extracted_text" combined = Some (PStr text) /\
       lookup "structured_data" combined = Some (PDict (_extract_structured_data text)) /\
       lookup "confidence_score" combined =
         Some (PNum (_calculate_ocr_confidence search text)) /\
       lookup "discrepancies" combined = Some (PList [])) /\
  (let combined := _combine_ocr_results float_of_str (PDict []) (PDict []) in
   lookup "extracted_text" combined = Some (PStr "") /\
   lookup "confidence_score" combined = Some (PNum 0) /\
   lookup "discrepancies" combined = Some (PList [])).
Proof.
  split; [|split].
  - intros w reply. split; [apply llm_ocr_analysis_offline|]. split.
    + intros v -> Hv. unfold _llm_ocr_analysis.
      destruct (groq_client w); [|reflexivity].
      destruct v; try reflexivity. exfalso. exact (Hv _ eq_refl).
    + intros client d Hc ->. unfold _llm_ocr_analysis. rewrite Hc. cbn [bind catch].
      eexists. split; [reflexivity|]. apply lookup_setitem_same.
  - intros o b c d.
    unfold _tesseract_ocr_analysis. cbn [bind catch].
    set (best := py_max_by _ _ _).
    exists (fst best), (snd best). cbv zeta.
    split; [reflexivity|].
    rewrite combine_without_llm. repeat split.
  - cbv zeta. unfold _combine_ocr_results.
    cbn [py_get lookup assoc_get bind py_gt].
    rewrite find_discrepancies_without_llm. repeat split.
Qed.

End OfflineOcr.

(** X23 on a reply that is a list, and on one that is an object. *)
Lemma combined_ocr_without_llm_witness :
  _llm_ocr_analysis world_partial_failure (Ok (PList [])) = PDict [] /\
  exists d',
    _llm_ocr_analysis world_partial_failure
      (Ok (PDict [ (KStr "extracted_text", PStr "CityCab") ])) = PDict d' /\
    lookup "ocr_method" d' = Some (PStr "llm").
Proof.
  pose proof (proj1 (combined_ocr_without_llm float_of_decimal total_word_search
                       (fun _ => [])) world_partial_failure) as H.
  split.
  - apply (proj1 (proj2 (H (Ok (PList [])))) (PList []) eq_refl).
    intros d E. discriminate E.
  - exact (proj2 (proj2 (H (Ok (PDict [ (KStr "extracted_text", PStr "CityCab") ]))))
             citycab_client _ eq_refl eq_refl).
Defined.

(** ** The log of the tool calls *)

Lemma lookup_setitem_key (k key : string) (v : pyval) (d : dict) :
  lookup k (setitem key v d) <> None -> k = key \/ lookup k d <> None.
Proof.
  unfold setitem. rewrite lookup_assoc_set.
  destruct (key_eqb (KStr k) (KStr key)) eqn:E; [|auto].
  intros _. left. apply key_eqb_str in E. congruence.
Qed.

Lemma tool_keys_setitem (key : string) (v : pyval) (vr : dict) :
  In key ["vendor_info"; "pricing_info"; "location_info"; "operating_hours"] ->
  tool_keys vr -> tool_keys (setitem key v vr).
Proof.
  intros Hin Hk k H. destruct (lookup_setitem_key k key v vr H) as [-> | H'];
    [exact Hin|exact (Hk k H')].
Qed.

Lemma tool_result_key_unused (name : string) (vr : dict) :
  In name (map tool_name _get_verification_tools) ->
  tool_keys vr ->
  lookup (name ++ "_info")%string vr = None.
Proof.
  intros Hin Hk.
  destruct (lookup (name ++ "_info")%string vr) eqn:E; [exfalso|reflexivity].
  assert (H : In (name ++ "_info")%string
                ["vendor_info"; "pricing_info"; "location_info"; "operating_hours"])
    by (apply Hk; rewrite E; discriminate).
  cbn in Hin. destruct Hin as [<- | [<- | [<- | [<- | []]]]]; cbn in H;
    repeat match goal with
      | H : _ \/ _ |- _ => destruct H as [H | H]
      | H : False |- _ => destruct H
      | H : _ = _ |- _ => discriminate H
      end.
Qed.

Lemma run_tool_call_logged (clock : nat -> string) (i : nat) (tc : tool_call)
    (results results' : call_results) :
  run_tool_call clock i tc results = Ok results' ->
  tool_keys (cr_verification_results results) ->
  tool_keys (cr_verification_results results') /\
  exists entry,
    cr_tool_calls results' = (cr_tool_calls results ++ [entry])%list /\ logged tc entry.
Proof.
  unfold run_tool_call, bind.
  destruct (tc_arguments tc) as [args|] eqn:Ea; [|discriminate].
  intros H Hk.
  assert (G : forall vr',
             tool_keys vr' ->
             Ok {| cr_verification_results := vr';
                   cr_tool_calls :=
                     cr_tool_calls results ++
                     [ PDict [ (KStr "tool_name", PStr (tc_name tc));
                               (KStr "arguments", args);
                               (KStr "result",
                                match lookup (tc_name tc ++ "_info")%string vr' with
                                | Some r => r
                                | None => PDict []
                                end) ] ] |} = Ok results' ->
             tool_keys (cr_verification_results results') /\
             exists entry,
               cr_tool_calls results' = (cr_tool_calls results ++ [entry])%list /\
               logged tc entry).
  { intros vr' Hk' E. injection E as <-. cbn [cr_verification_results cr_tool_calls].
    split; [exact Hk'|]. eexists. split; [reflexivity|].
    exists args. eexists. split; [exact Ea|]. split; [reflexivity|].
    intro Hin. rewrite (tool_result_key_unused (tc_name tc) vr' Hin Hk'). reflexivity. }
  destruct (String.eqb (tc_name tc) "search_vendor_info").
  { destruct (py_get args "vendor_name" PNone); [|discriminate].
    refine (G _ _ H). apply tool_keys_setitem; [cbn; auto|exact Hk]. }
  destruct (String.eqb (tc_name tc) "check_pricing").
  { destruct (py_get args "vendor_name" PNone); [|discriminate].
    destruct (py_get args "service_type" PNone); [|discriminate].
    destruct (py_get args "location" PNone); [|discriminate].
    destruct (py_get args "date" PNone); [|discriminate].
    refine (G _ _ H). apply tool_keys_setitem; [cbn; auto|exact Hk]. }
  destruct (String.eqb (tc_name tc) "verify_location").
  { destruct (py_get args "vendor_name" PNone); [|discriminate].
    destruct (py_get args "address" PNone); [|discriminate].
    destruct (py_get args "coordinates" PNone); [|discriminate].
    refine (G _ _ H). apply tool_keys_setitem; [cbn; auto|exact Hk]. }
  destruct (String.eqb (tc_name tc) "check_operating_hours").
  { destruct (py_get args "vendor_name" PNone); [|discriminate].
    destruct (py_get args "date" PNone); [|discriminate].
    destruct (py_get args "time" PNone); [|discriminate].
    refine (G _ _ H). apply tool_keys_setitem; [cbn; auto|exact Hk]. }
  apply (G _ Hk H).
Qed.

Lemma run_tool_calls_logged (clock : nat -> string) (calls : list tool_call) :
  forall (i : nat) (results results' : call_results),
    run_tool_calls clock i calls results = Ok results' ->
    tool_keys (cr_verification_results results) ->
    exists entries,
      cr_tool_calls results' = (cr_tool_calls results ++ entries)%list /\
      Forall2 logged calls entries.
Proof.
  induction calls as [|tc calls IH]; intros i results results' H Hk.
  - cbn in H. injection H as <-. exists []. rewrite app_nil_r. split; constructor.
  - cbn [run_tool_calls bind] in H.
    destruct (run_tool_call clock i tc results) as [r1|] eqn:E; [|discriminate].
    destruct (run_tool_call_logged clock i tc results r1 E Hk) as (Hk1 & entry & L1 & P1).
    destruct (IH (S i) r1 results' H Hk1) as (entries & L & P).
    exists (entry :: entries). split.
    + rewrite L, L1, <- app_assoc. reflexivity.
    + constructor; assumption.
Qed.

(** X24. The log of the tool calls never holds a result.  The tool loop
    logs one entry per call, in order, with the name and the decoded
    arguments of the call.  The entry's result is read under the key
    [<tool name>_info], while the results are stored under [vendor_info],
    [pricing_info], [location_info] and [operating_hours]; for each of the
    tools of [_get_verification_tools] the two differ, so the logged
    result is the empty dictionary whatever the tool returned. *)
Theorem tool_call_log_without_results :
  forall (clock : nat -> string) (calls : list tool_call) (results : call_results),
    run_tool_calls clock 0 calls no_results = Ok results ->
    Forall2 logged calls (cr_tool_calls results) /\
    List.length (cr_tool_calls results) = List.length calls /\
    tool_keys (cr_verification_results results).
Proof.
  intros clock calls results H.
  assert (K0 : tool_keys (cr_verification_results no_results)).
  { intros k Hk. exfalso. apply Hk. reflexivity. }
  destruct (run_tool_calls_logged clock calls 0 no_results results H K0)
    as (entries & L & P).
  cbn [cr_tool_calls no_results app] in L. rewrite L.
  split; [exact P|]. split.
  - symmetry. exact (Forall2_length P).
  - clear L P. revert H K0. generalize no_results, 0.
    induction calls as [|tc calls IH]; intros r0 i H K.
    + cbn in H. injection H as <-. exact K.
    + cbn [run_tool_calls bind] in H.
      destruct (run_tool_call clock i tc r0) as [r1|] eqn:E; [|discriminate].
      apply (IH r1 (S i) H).
      exact (proj1 (run_tool_call_logged clock i tc r0 r1 E K)).
Qed.

(** X24 on the pricing check of the CityCab ride. *)
Lemma tool_call_log_without_results_witness :
  exists results,
    run_tool_calls (fun _ => "2024-03-01T12:00:00") 0 [citycab_call] no_results = Ok results /\
    Forall2 logged [citycab_call] (cr_tool_calls results) /\
    List.length (cr_tool_calls results) = 1 /\
    lookup "pricing_info" (cr_verification_results results) <> None.
Proof.
  eexists. split; [reflexivity|].
  pose proof (tool_call_log_without_results (fun _ => "2024-03-01T12:00:00")
                [citycab_call] _ eq_refl) as (A & B & _).
  split; [exact A|]. split; [exact B|]. discriminate.
Defined.
